(** * ai_safety_scraper: a shallow embedding and its verified properties

    The development follows the Python sources
    - [scraper.py]     (content normaliser, site adapters, crawl session),
    - [split_json.py]  (splitting a JSON document on its largest array),
    - [filter_json.py] (date cutoff filter for research and news posts).

    Part I holds the definitions, translated function by function; Part II
    holds the lemmas and the theorems about them.

    Strings are [string]: sequences of characters with code below 256.
    Python's [None] is [option]'s [None]; an exception that leaves a function
    is a [Raise] outcome. *)

From Stdlib Require Import ZArith Lia Ascii String List Bool.
From stdpp Require Import base gmap strings list.

Local Open Scope stdpp_scope.
#[local] Set Warnings "-clear-no-such-hyp".

(* ===================================================================== *)
(** * Part I: definitions *)
(* ===================================================================== *)

(** ** Python [str] methods used by the sources *)

Module PyStr.

(** [s.startswith(p)] *)
Definition startswith (p s : string) : bool := String.prefix p s.

(** [s.endswith(p)] *)
Definition endswith (p s : string) : bool :=
  String.prefix (String.rev p) (String.rev s).

(** [sub in s] *)
Fixpoint contains (sub s : string) : bool :=
  String.prefix sub s ||
  match s with
  | EmptyString => false
  | String _ s' => contains sub s'
  end.

(** membership of a character in a string of characters *)
Fixpoint mem_char (c : ascii) (cs : string) : bool :=
  match cs with
  | EmptyString => false
  | String d cs' => Ascii.eqb c d || mem_char c cs'
  end.

(** [s.lstrip(...)], [s.rstrip(...)], [s.strip(...)], the characters to
    remove being given as a predicate *)
Fixpoint lstrip_by (p : ascii -> bool) (s : string) : string :=
  match s with
  | EmptyString => EmptyString
  | String c s' => if p c then lstrip_by p s' else s
  end.

Definition rstrip_by (p : ascii -> bool) (s : string) : string :=
  String.rev (lstrip_by p (String.rev s)).

Definition strip_by (p : ascii -> bool) (s : string) : string :=
  rstrip_by p (lstrip_by p s).

(** [s.rstrip(cs)], [s.strip(cs)], [s.lstrip(cs)] *)
Definition lstrip_chars (cs s : string) : string :=
  lstrip_by (fun c => mem_char c cs) s.
Definition rstrip_chars (cs s : string) : string :=
  rstrip_by (fun c => mem_char c cs) s.
Definition strip_chars (cs s : string) : string :=
  strip_by (fun c => mem_char c cs) s.

(** Python's white space among the characters below 256:
    U+0009..U+000D, U+001C..U+0020, U+0085 and U+00A0. *)
Definition is_space (c : ascii) : bool :=
  let n := N_of_ascii c in
  ((9 <=? n) && (n <=? 13) || (28 <=? n) && (n <=? 32)
   || (n =? 133) || (n =? 160))%N.

(** [s.strip()] *)
Definition strip (s : string) : string := strip_by is_space s.

(** [s.replace(old, new)]: the occurrences of [old] are replaced from left
    to right, without overlap; [skip] counts the characters of a matched
    occurrence still to be dropped. *)
Fixpoint replace_from (old new : string) (skip : nat) (s : string) : string :=
  match s with
  | EmptyString => EmptyString
  | String c s' =>
      match skip with
      | S k => replace_from old new k s'
      | O =>
          if String.prefix old s
          then new +:+ replace_from old new (String.length old - 1) s'
          else String c (replace_from old new 0 s')
      end
  end.

(** For an empty [old], Python inserts [new] before every character and at
    the end. *)
Fixpoint intersperse_new (new s : string) : string :=
  match s with
  | EmptyString => new
  | String c s' => new +:+ String c (intersperse_new new s')
  end.

Definition replace (old new s : string) : string :=
  match old with
  | EmptyString => intersperse_new new s
  | _ => replace_from old new 0 s
  end.

(** [sep.join(parts)] *)
Fixpoint join (sep : string) (parts : list string) : string :=
  match parts with
  | [] => EmptyString
  | [p] => p
  | p :: rest => p +:+ sep +:+ join sep rest
  end.

(** [s.split(c)] for a separator of one character *)
Fixpoint split_char (c : ascii) (s : string) : list string :=
  match s with
  | EmptyString => [EmptyString]
  | String d s' =>
      if Ascii.eqb d c then EmptyString :: split_char c s'
      else match split_char c s' with
           | [] => [String d EmptyString]
           | w :: ws => String d w :: ws
           end
  end.


(** [s.partition(c)] without the separator: the text before the first [c]
    and, when there is a [c], the text after it. *)
Fixpoint cut_char (c : ascii) (s : string) : string * option string :=
  match s with
  | EmptyString => (EmptyString, None)
  | String d s' =>
      if Ascii.eqb d c then (EmptyString, Some s')
      else let '(a, b) := cut_char c s' in (String d a, b)
  end.

(** [s[:n]] and [s[n:]] for [0 <= n] *)
Fixpoint take (n : nat) (s : string) : string :=
  match n, s with
  | S k, String c s' => String c (take k s')
  | _, _ => EmptyString
  end.

Fixpoint drop (n : nat) (s : string) : string :=
  match n, s with
  | S k, String _ s' => drop k s'
  | _, _ => s
  end.

(** [s.lower()] on the ASCII letters *)
Definition lower_char (c : ascii) : ascii :=
  let n := N_of_ascii c in
  if ((65 <=? n) && (n <=? 90))%N then ascii_of_N (n + 32) else c.

Fixpoint lower (s : string) : string :=
  match s with
  | EmptyString => EmptyString
  | String c s' => String (lower_char c) (lower s')
  end.

(** truth value of a string: [if s] *)
Definition nonempty (s : string) : bool :=
  match s with EmptyString => false | _ => true end.

End PyStr.

(** ** Outcomes of Python calls *)

Module PyOutcome.

(** The exceptions the modelled functions can raise. *)
Inductive exn : Type :=
| ValueError | TypeError | AttributeError | ZeroDivisionError.

(** The outcome of a call: an exception that leaves it, or its value. *)
Inductive outcome (A : Type) : Type :=
| Raise (e : exn)
| Return (v : A).
Arguments Raise {A} e.
Arguments Return {A} v.

(** Sequencing: an exception of the first call leaves the whole. *)
#[global] Instance outcome_bind : MBind outcome :=
  fun A B (k : A -> outcome B) (m : outcome A) =>
    match m with
    | Raise e => Raise e
    | Return v => k v
    end.

End PyOutcome.

(** ** The site adapters: one per publisher *)

Module Adapters.
Import PyStr.

(** The subclasses of [BaseScraper], in the order of the source. *)
Inductive adapter : Type :=
| Metr | Aisi | Lakera | NistAisi | CanadianAisi
| Apollo | Anthropic | DeepMind | CSER | CHAI.

#[global] Instance adapter_eq_dec : EqDecision adapter.
Proof. solve_decision. Defined.

(** The argument each subclass passes to [BaseScraper.__init__]. *)
Definition base_url (a : adapter) : string :=
  match a with
  | Metr => "https://metr.org"
  | Aisi => "https://www.aisi.gov.uk"
  | Lakera => "https://www.lakera.ai"
  | NistAisi => "https://www.nist.gov/aisi"
  | CanadianAisi => "https://ised-isde.canada.ca"
  | Apollo => "https://www.apolloresearch.ai"
  | Anthropic => "https://www.anthropic.com"
  | DeepMind => "https://deepmind.google"
  | CSER => "https://www.cser.ac.uk"
  | CHAI => "https://humancompatible.ai"
  end.

(** [any(x in url for x in xs)] *)
Definition any_in (xs : list string) (url : string) : bool :=
  existsb (fun x => contains x url) xs.

(** [is_blog_post_url] of each subclass. *)
Definition is_blog_post_url (a : adapter) (url : string) : bool :=
  match a with
  | Metr =>
      if String.eqb (rstrip_chars "/" url) (base_url Metr +:+ "/blog")
      then false
      else if any_in ["/page/"; "/blog/?"; "/blog/#"; "/blog/$"] url
      then false
      else contains "/blog/" url
  | Aisi =>
      contains "/work/" url && negb (endswith "/work" (rstrip_chars "/" url))
  | Lakera =>
      if String.eqb (rstrip_chars "/" url) (base_url Lakera +:+ "/blog")
      then false
      else contains "/blog/" url && negb (any_in ["/category/"; "/author/"] url)
  | NistAisi =>
      contains "/news/" url || contains "/updates/" url
  | CanadianAisi =>
      contains "cifar.ca/cifarnews" url
  | Apollo =>
      if String.eqb (rstrip_chars "/" url) (base_url Apollo +:+ "/blog")
         || String.eqb (rstrip_chars "/" url) (base_url Apollo +:+ "/research")
      then false
      else contains "/blog/" url || contains "/research/" url
  | Anthropic =>
      if negb (startswith (base_url Anthropic) url) then false
      else
        let path := strip_chars "/" (replace (base_url Anthropic) "" url) in
        if String.eqb path "research" || String.eqb path "news" then false
        else startswith "research/" path || startswith "news/" path
  | DeepMind =>
      if negb (startswith (base_url DeepMind) url) then false
      else
        let path := strip_chars "/" (replace (base_url DeepMind) "" url) in
        if String.eqb path "research/publications" then false
        else startswith "research/publications/" path
  | CSER =>
      if negb (startswith (base_url CSER) url) then false
      else contains "/resources/" url
  | CHAI =>
      if negb (startswith (base_url CHAI) url) then false
      else any_in ["/research/"; "/progress-report/"] url
  end.

End Adapters.

(** ** [urllib.parse]: the library functions behind [urljoin]

    [urljoin] belongs to the Python standard library, not to the repository.
    It is modelled after [urllib/parse.py] and [ipaddress.py] of CPython
    3.11 for [str] arguments.  The result [None] of [urlsplit], [urlparse]
    and [urljoin] is the [ValueError] that [urlsplit] raises on a netloc
    whose square brackets do not enclose an IPv6 or IPvFuture address.
    [_checknetloc] raises when the NFKC normal form of a netloc brings in
    one of the characters [/?#@:]; no character below 256 has such a normal
    form, so that check passes on every string of the model. *)

Module Url.
Import PyStr.

Definition uses_relative : list string :=
  [""; "ftp"; "http"; "gopher"; "nntp"; "imap"; "wais"; "file"; "https";
   "shttp"; "mms"; "prospero"; "rtsp"; "rtspu"; "sftp"; "svn"; "svn+ssh";
   "ws"; "wss"].

Definition uses_netloc : list string :=
  [""; "ftp"; "http"; "gopher"; "nntp"; "telnet"; "imap"; "wais"; "file";
   "mms"; "https"; "shttp"; "snews"; "prospero"; "rtsp"; "rtspu"; "rsync";
   "svn"; "svn+ssh"; "sftp"; "nfs"; "git"; "git+ssh"; "ws"; "wss"].

Definition uses_params : list string :=
  [""; "ftp"; "hdl"; "prospero"; "http"; "imap"; "https"; "shttp"; "rtsp";
   "rtspu"; "sip"; "sips"; "mms"; "sftp"; "tel"].

Definition mem_str (x : string) (l : list string) : bool :=
  existsb (String.eqb x) l.

Definition is_ascii_letter (c : ascii) : bool :=
  let n := N_of_ascii c in
  ((65 <=? n) && (n <=? 90) || (97 <=? n) && (n <=? 122))%N.

Definition is_digit (c : ascii) : bool :=
  let n := N_of_ascii c in ((48 <=? n) && (n <=? 57))%N.

(** [scheme_chars]: letters, digits and [+-.] *)
Definition is_scheme_char (c : ascii) : bool :=
  is_ascii_letter c || is_digit c || mem_char c "+-.".

(** [_WHATWG_C0_CONTROL_OR_SPACE] *)
Definition is_c0_or_space (c : ascii) : bool := (N_of_ascii c <=? 32)%N.

(** [_UNSAFE_URL_BYTES_TO_REMOVE]: tab, carriage return, line feed *)
Definition is_unsafe (c : ascii) : bool :=
  let n := N_of_ascii c in ((n =? 9) || (n =? 13) || (n =? 10))%N.

Fixpoint all_chars (p : ascii -> bool) (s : string) : bool :=
  match s with
  | EmptyString => true
  | String c s' => p c && all_chars p s'
  end.

Fixpoint remove_chars (p : ascii -> bool) (s : string) : string :=
  match s with
  | EmptyString => EmptyString
  | String c s' => if p c then remove_chars p s' else String c (remove_chars p s')
  end.

Fixpoint span_chars (p : ascii -> bool) (s : string) : string * string :=
  match s with
  | EmptyString => (EmptyString, EmptyString)
  | String c s' =>
      if p c then let '(a, b) := span_chars p s' in (String c a, b)
      else (EmptyString, s)
  end.

Definition first_char_is (p : ascii -> bool) (s : string) : bool :=
  match s with String c _ => p c | EmptyString => false end.

(** [_splitnetloc(url, 2)]: the netloc runs up to the first of [/?#]. *)
Definition splitnetloc (url : string) : string * string :=
  span_chars (fun c => negb (mem_char c "/?#")) (drop 2 url).

(** *** [ipaddress]: the addresses allowed between square brackets *)

(** [int(s, 10)] and [int(s, 16)] on strings of digits *)
Fixpoint int_base (base acc : N) (digit : ascii -> N) (s : string) : N :=
  match s with
  | EmptyString => acc
  | String c s' => int_base base (base * acc + digit c) digit s'
  end.

Definition decimal_value (c : ascii) : N := N_of_ascii c - 48.

Definition hex_value (c : ascii) : N :=
  let n := N_of_ascii c in
  if is_digit c then n - 48
  else if (97 <=? n)%N then n - 87 else n - 55.

(** [IPv6Address._HEX_DIGITS] *)
Definition is_hex_digit (c : ascii) : bool :=
  mem_char c "0123456789ABCDEFabcdef".

(** ['%x' % n] for [n] below 65536 *)
Definition hex_char (d : N) : ascii :=
  if (d <? 10)%N then ascii_of_N (48 + d) else ascii_of_N (87 + d).

Fixpoint to_hex_from (count : nat) (n : N) (acc : string) : string :=
  match count with
  | O => acc
  | S k =>
      let acc := String (hex_char (n mod 16)) acc in
      if (n / 16 =? 0)%N then acc else to_hex_from k (n / 16) acc
  end.

Definition to_hex (n : N) : string := to_hex_from 4 n EmptyString.

(** [IPv4Address._parse_octet(octet_str)]; [None] is its [ValueError]. *)
Definition parse_octet (octet_str : string) : option N :=
  if negb (nonempty octet_str) then None
  else if negb (all_chars is_digit octet_str) then None
  else if (3 <? String.length octet_str)%nat then None
  else if negb (String.eqb octet_str "0")
          && first_char_is (Ascii.eqb "0") octet_str then None
  else
    let octet_int := int_base 10 0 decimal_value octet_str in
    if (255 <? octet_int)%N then None else Some octet_int.

(** [IPv4Address(address)._ip] for a string; [None] is the
    [AddressValueError]. *)
Definition ipv4_address (address : string) : option N :=
  if contains "/" address then None
  else if negb (nonempty address) then None
  else
    let octets := split_char "." address in
    if negb (length octets =? 4)%nat then None
    else
      values ← mapM parse_octet octets;
      Some (foldl (fun acc octet => 256 * acc + octet)%N 0%N values).

(** [IPv6Address._parse_hextet(hextet_str)]; [int('', 16)] raises. *)
Definition parse_hextet (hextet_str : string) : option N :=
  if negb (all_chars is_hex_digit hextet_str) then None
  else if (4 <? String.length hextet_str)%nat then None
  else if negb (nonempty hextet_str) then None
  else Some (int_base 16 0 hex_value hextet_str).

(** The loop of [_ip_int_from_string] that looks for [::] away from both
    ends: [None] when there are two, else the [skip_index] found. *)
Definition find_skip_index (parts : list string) : option (option nat) :=
  foldl (fun found i =>
           skip_index ← found;
           if nonempty (default EmptyString (parts !! i)) then Some skip_index
           else match skip_index with
                | Some _ => None
                | None => Some (Some i)
                end)
        (Some None) (seq 1 (length parts - 2)).

(** [ip_int <<= 16; ip_int |= _parse_hextet(part)] over some parts *)
Definition add_hextets (ip_int : N) (parts : list string) : option N :=
  foldl (fun acc part =>
           ip_int ← acc;
           hextet ← parse_hextet part;
           Some (N.lor (N.shiftl ip_int 16) hextet))
        (Some ip_int) parts.

(** [IPv6Address._ip_int_from_string(ip_str)] *)
Definition ipv6_int_from_string (ip_str : string) : option N :=
  if negb (nonempty ip_str) then None else
  let parts := split_char ":" ip_str in
  if (length parts <? 3)%nat then None else
  let last_part := default EmptyString (last parts) in
  parts ← (if contains "." last_part
           then ipv4_int ← ipv4_address last_part;
                Some (removelast parts
                      ++ [to_hex (N.land (N.shiftr ipv4_int 16) 65535);
                          to_hex (N.land ipv4_int 65535)])
           else Some parts);
  if (9 <? length parts)%nat then None else
  skip_index ← find_skip_index parts;
  let first_empty := negb (nonempty (default EmptyString (head parts))) in
  let last_empty := negb (nonempty (default EmptyString (last parts))) in
  '(parts_hi, parts_lo, parts_skipped) ←
    match skip_index with
    | Some skip_index =>
        let parts_hi := skip_index in
        let parts_lo := (length parts - skip_index - 1)%nat in
        let parts_hi := if first_empty then (parts_hi - 1)%nat else parts_hi in
        if first_empty && negb (parts_hi =? 0)%nat then None else
        let parts_lo := if last_empty then (parts_lo - 1)%nat else parts_lo in
        if last_empty && negb (parts_lo =? 0)%nat then None else
        let parts_skipped := (8 - Z.of_nat (parts_hi + parts_lo))%Z in
        if (parts_skipped <? 1)%Z then None
        else Some (parts_hi, parts_lo, Z.to_nat parts_skipped)
    | None =>
        if negb (length parts =? 8)%nat then None
        else if first_empty then None
        else if last_empty then None
        else Some (length parts, 0%nat, 0%nat)
    end;
  ip_int ← add_hextets 0 (firstn parts_hi parts);
  add_hextets (N.shiftl ip_int (16 * N.of_nat parts_skipped))
              (skipn (length parts - parts_lo) parts).

(** [IPv6Address(address)] for a string: the integer and the scope *)
Definition ipv6_address (address : string) : option (N * option string) :=
  if contains "/" address then None
  else
    '(addr_str, scope_id) ←
      match cut_char "%" address with
      | (addr, None) => Some (addr, None)
      | (addr, Some scope_id) =>
          if negb (nonempty scope_id) || contains "%" scope_id then None
          else Some (addr, Some scope_id)
      end;
    ip_int ← ipv6_int_from_string addr_str;
    Some (ip_int, scope_id).

Inductive ip : Type :=
| IPv4Address (ip_int : N)
| IPv6Address (ip_int : N) (scope_id : option string).

(** [ipaddress.ip_address(address)]; [None] is the [ValueError]. *)
Definition ip_address (address : string) : option ip :=
  match ipv4_address address with
  | Some ip_int => Some (IPv4Address ip_int)
  | None =>
      match ipv6_address address with
      | Some (ip_int, scope_id) => Some (IPv6Address ip_int scope_id)
      | None => None
      end
  end.

(** *** [urlsplit] *)

(** [re.match(r"\Av[a-fA-F0-9]+\..+\Z", hostname)]: the dot of the pattern
    is not a hexadecimal digit, so the longest run of digits is the only
    one that can match; [.] takes every character but the line feed. *)
Definition is_ipvfuture (hostname : string) : bool :=
  match hostname with
  | String c rest =>
      Ascii.eqb c "v" &&
      let '(digits, rest) := span_chars is_hex_digit rest in
      nonempty digits &&
      match rest with
      | String d rest =>
          Ascii.eqb d "." && nonempty rest
          && all_chars (fun x => negb (Ascii.eqb x (ascii_of_nat 10))) rest
      | EmptyString => false
      end
  | EmptyString => false
  end.

(** [_check_bracketed_host(hostname)] returns: [false] is its
    [ValueError]. *)
Definition check_bracketed_host (hostname : string) : bool :=
  if startswith "v" hostname then is_ipvfuture hostname
  else
    match ip_address hostname with
    | Some (IPv6Address _ _) => true
    | Some (IPv4Address _) => false
    | None => false
    end.

(** [s.rpartition(c)[2]]: the text after the last [c] *)
Definition after_last (c : ascii) (s : string) : string :=
  String.rev (cut_char c (String.rev s)).1.

(** [_check_bracketed_netloc(netloc)] returns *)
Definition check_bracketed_netloc (netloc : string) : bool :=
  let hostname_and_port := after_last "@" netloc in
  match cut_char "[" hostname_and_port with
  | (before_bracket, Some bracketed) =>
      if nonempty before_bracket then false
      else
        let '(hostname, port) :=
          match cut_char "]" bracketed with
          | (hostname, Some port) => (hostname, port)
          | (hostname, None) => (hostname, EmptyString)
          end in
        if nonempty port && negb (startswith ":" port) then false
        else check_bracketed_host hostname
  | (_, None) =>
      check_bracketed_host (cut_char ":" hostname_and_port).1
  end.

(** The two tests of [urlsplit] on the netloc *)
Definition netloc_accepted (netloc : string) : bool :=
  if (contains "[" netloc && negb (contains "]" netloc))
     || (contains "]" netloc && negb (contains "[" netloc))
  then false
  else if contains "[" netloc && contains "]" netloc
  then check_bracketed_netloc netloc
  else true.

Record split_result : Type := SplitResult {
  s_scheme : string; s_netloc : string; s_path : string;
  s_query : string; s_fragment : string }.

(** [urlsplit(url, scheme)] with [allow_fragments=True] *)
Definition urlsplit (url scheme : string) : option split_result :=
  let url := lstrip_by is_c0_or_space url in
  let scheme := strip_by is_c0_or_space scheme in
  let url := remove_chars is_unsafe url in
  let scheme := remove_chars is_unsafe scheme in
  let '(scheme, url) :=
    match cut_char ":" url with
    | (before, Some after) =>
        if nonempty before && first_char_is is_ascii_letter url
           && all_chars is_scheme_char before
        then (lower before, after) else (scheme, url)
    | (_, None) => (scheme, url)
    end in
  let '(netloc, url) :=
    if startswith "//" url then splitnetloc url else (EmptyString, url) in
  if negb (netloc_accepted netloc) then None
  else
    let '(url, fragment) :=
      match cut_char "#" url with
      | (u, Some f) => (u, f)
      | (u, None) => (u, EmptyString)
      end in
    let '(url, query) :=
      match cut_char "?" url with
      | (u, Some q) => (u, q)
      | (u, None) => (u, EmptyString)
      end in
    Some (SplitResult scheme netloc url query fragment).

(** The text up to and including the last [/], and the text after it. *)
Definition cut_last_slash (s : string) : string * string :=
  match cut_char "/" (String.rev s) with
  | (t, Some h) => (String.rev h +:+ "/", String.rev t)
  | (_, None) => (EmptyString, s)
  end.

(** [_splitparams(url)]: the parameters follow the first [;] of the last
    path segment. *)
Definition splitparams (url : string) : string * string :=
  let '(dir, tail) := cut_last_slash url in
  match cut_char ";" tail with
  | (t, Some p) => (dir +:+ t, p)
  | (_, None) => (url, EmptyString)
  end.

Record parse_result : Type := ParseResult {
  scheme : string; netloc : string; path : string;
  params : string; query : string; fragment : string }.

(** [urlparse(url, scheme)] *)
Definition urlparse (url default_scheme : string) : option parse_result :=
  match urlsplit url default_scheme with
  | None => None
  | Some r =>
      let '(url, params) :=
        if mem_str (s_scheme r) uses_params && contains ";" (s_path r)
        then splitparams (s_path r) else (s_path r, EmptyString) in
      Some (ParseResult (s_scheme r) (s_netloc r) url params
                        (s_query r) (s_fragment r))
  end.

(** [urlunsplit((scheme, netloc, url, query, fragment))] *)
Definition urlunsplit (scheme netloc url query fragment : string) : string :=
  let url :=
    if nonempty netloc
       || (nonempty scheme && mem_str scheme uses_netloc
           && negb (startswith "//" url))
    then
      let url := if nonempty url && negb (startswith "/" url)
                 then "/" +:+ url else url in
      "//" +:+ netloc +:+ url
    else url in
  let url := if nonempty scheme then scheme +:+ ":" +:+ url else url in
  let url := if nonempty query then url +:+ "?" +:+ query else url in
  if nonempty fragment then url +:+ "#" +:+ fragment else url.

(** [urlunparse((scheme, netloc, url, params, query, fragment))] *)
Definition urlunparse (scheme netloc url params query fragment : string)
  : string :=
  let url := if nonempty params then url +:+ ";" +:+ params else url in
  urlunsplit scheme netloc url query fragment.

(** [segments[1:-1] = filter(None, segments[1:-1])]: [filter_inner] works
    on the list after its first element and keeps its last element. *)
Fixpoint filter_inner (l : list string) : list string :=
  match l with
  | [] => []
  | [x] => [x]
  | x :: rest => if nonempty x then x :: filter_inner rest
                 else filter_inner rest
  end.

Definition filter_middle (segments : list string) : list string :=
  match segments with
  | [] => []
  | x :: rest => x :: filter_inner rest
  end.

(** The loop over [segments]; [resolved] is [resolved_path] reversed, so
    that [pop()] is [tail]. *)
Fixpoint resolve (segments resolved : list string) : list string :=
  match segments with
  | [] => rev resolved
  | seg :: rest =>
      if String.eqb seg ".." then resolve rest (tail resolved)
      else if String.eqb seg "." then resolve rest resolved
      else resolve rest (seg :: resolved)
  end.

Definition ends_with_dot_segment (segments : list string) : bool :=
  match last segments with
  | Some seg => String.eqb seg "." || String.eqb seg ".."
  | None => false
  end.

Definition drop_last_unless_empty (parts : list string) : list string :=
  match last parts with
  | Some EmptyString => parts
  | _ => removelast parts
  end.

(** [urljoin(base, url)] *)
Definition urljoin (base url : string) : option string :=
  if negb (nonempty base) then Some url
  else if negb (nonempty url) then Some base
  else
    match urlparse base EmptyString with
    | None => None
    | Some b =>
    match urlparse url (scheme b) with
    | None => None
    | Some u =>
      if negb (String.eqb (scheme u) (scheme b))
         || negb (mem_str (scheme u) uses_relative)
      then Some url
      else if mem_str (scheme u) uses_netloc && nonempty (netloc u)
      then Some (urlunparse (scheme u) (netloc u) (path u) (params u)
                            (query u) (fragment u))
      else
        let netloc' :=
          if mem_str (scheme u) uses_netloc then netloc b else netloc u in
        if negb (nonempty (path u)) && negb (nonempty (params u))
        then
          let query' := if nonempty (query u) then query u else query b in
          Some (urlunparse (scheme u) netloc' (path b) (params b)
                           query' (fragment u))
        else
          let base_parts := drop_last_unless_empty (split_char "/" (path b)) in
          let segments :=
            if startswith "/" (path u) then split_char "/" (path u)
            else filter_middle (base_parts ++ split_char "/" (path u)) in
          let resolved_path := resolve segments [] in
          let resolved_path :=
            if ends_with_dot_segment segments
            then resolved_path ++ [EmptyString] else resolved_path in
          let joined := join "/" resolved_path in
          Some (urlunparse (scheme u) netloc'
                  (if nonempty joined then joined else "/")
                  (params u) (query u) (fragment u))
    end
    end.


End Url.

(** ** The sites, as the specification speaks of them

    The sections that hold the articles of each publisher, read from the
    literals of [is_blog_post_url] and of the functions that list the
    articles, and the URLs of a site as paths of segments. *)

Module Sites.
Import PyStr Adapters.











End Sites.

(** ** The document tree

    A parsed page: elements with a tag name, attributes and ordered
    children, and text.  An attribute value is a string or, for the
    multi-valued attributes such as [class], a list of tokens.  Comments and
    the other special strings of the parser are not part of the model. *)

Module Dom.
Import PyStr.

Inductive attr_value : Type :=
| AttrStr (s : string)
| AttrList (tokens : list string).

#[warnings="-register-all"]
Inductive node : Type :=
| Text (s : string)
| Elem (name : string) (attrs : list (string * attr_value))
       (contents : list node).

(** A [Tag] of the parser: what [find], [find_all] and the loops over them
    hand to the normaliser. *)
Record element : Type := Element {
  name : string;
  attrs : list (string * attr_value);
  contents : list node }.

Definition to_node (e : element) : node :=
  Elem (name e) (attrs e) (contents e).

(** [element.descendants]: the nodes below a node, in document order. *)
Fixpoint descendants (n : node) : list node :=
  match n with
  | Text _ => []
  | Elem _ _ cs =>
      (fix below (l : list node) : list node :=
         match l with
         | [] => []
         | c :: l' => c :: descendants c ++ below l'
         end) cs
  end.

Fixpoint elements_of (ns : list node) : list element :=
  match ns with
  | [] => []
  | Text _ :: ns' => elements_of ns'
  | Elem nm ats cs :: ns' => Element nm ats cs :: elements_of ns'
  end.

(** The stripped, non-empty strings below a node: [_all_strings(True)]. *)
Fixpoint stripped_strings (ns : list node) : list string :=
  match ns with
  | [] => []
  | Text s :: ns' =>
      let t := strip s in
      if nonempty t then t :: stripped_strings ns' else stripped_strings ns'
  | Elem _ _ _ :: ns' => stripped_strings ns'
  end.

(** [element.get_text(strip=True)] *)
Definition get_text_strip (e : element) : string :=
  join "" (stripped_strings (descendants (to_node e))).

Definition name_in (names : list string) (e : element) : bool :=
  existsb (String.eqb (name e)) names.

(** [element.find_all(names)] *)
Definition find_all (names : list string) (e : element) : list element :=
  filter (fun d => name_in names d) (elements_of (descendants (to_node e))).

(** [element.find(name)] *)
Definition find (nm : string) (e : element) : option element :=
  head (find_all [nm] e).

(** [element.get(key)] *)
Fixpoint lookup_attr (key : string) (l : list (string * attr_value))
  : option attr_value :=
  match l with
  | [] => None
  | (k, v) :: l' => if String.eqb k key then Some v else lookup_attr key l'
  end.

Definition get (key : string) (e : element) : option attr_value :=
  lookup_attr key (attrs e).

(** truth value of [element.get(key)] *)
Definition truthy (v : option attr_value) : bool :=
  match v with
  | None => false
  | Some (AttrStr s) => nonempty s
  | Some (AttrList l) => match l with [] => false | _ => true end
  end.

End Dom.

(** ** [BaseScraper.extract_text_content]: the content normaliser *)

Module Normalizer.
Import PyStr PyOutcome Dom.

Definition lf : string := String (ascii_of_nat 10) EmptyString.
Definition tab : string := String (ascii_of_nat 9) EmptyString.

(** The branch [element.name == 'a' and with_links].  [urljoin] raises
    [TypeError] on an [href] that is not a string. *)
Definition render_link (base_url : string) (element : element)
  : outcome string :=
  let href := get "href" element in
  let text := get_text_strip element in
  if truthy href && nonempty text then
    match href with
    | Some (AttrStr h) =>
        match Url.urljoin base_url h with
        | Some target => Return ("[" +:+ text +:+ "](" +:+ target +:+ ")")
        | None => Raise ValueError
        end
    | _ => Raise TypeError
    end
  else Return text.

(** The loop over [element.contents] of the last branch.  The recursive
    call of the source is made on a child named [a] with [with_links] at
    its default [True]: it takes the link branch. *)
Fixpoint link_parts (base_url : string) (cs : list node)
  : outcome (list string) :=
  match cs with
  | [] => Return []
  | Text s :: rest =>
      let text := strip s in
      parts ← link_parts base_url rest;
      Return (if nonempty text then text :: parts else parts)
  | Elem nm ats ch :: rest =>
      if String.eqb nm "a" then
        part ← render_link base_url (Element nm ats ch);
        parts ← link_parts base_url rest;
        Return (part :: parts)
      else link_parts base_url rest
  end.

Definition table_rows (element : element) : list string :=
  map (fun row => join tab (map get_text_strip (find_all ["td"; "th"] row)))
      (find_all ["tr"] element).

Definition list_items (element : element) : list string :=
  omap (fun item =>
          let text := get_text_strip item in
          if nonempty text then Some ("- " +:+ text) else None)
       (find_all ["li"] element).

Definition is_some_element (o : option Dom.element) : bool :=
  match o with Some _ => true | None => false end.

(** [extract_text_content(self, element, with_links)]; [base_url] is
    [self.base_url].  The result [None] is Python's [None]. *)
Definition extract_text_content (base_url : string) (element : element)
    (with_links : bool) : outcome (option string) :=
  if String.eqb (name element) "table" then
    Return (Some (join lf (table_rows element)))
  else if name_in ["ul"; "ol"] element then
    Return (Some (join lf (list_items element)))
  else if String.eqb (name element) "blockquote" then
    let text := get_text_strip element in
    if nonempty text
    then Return (Some ("> " +:+ replace lf (lf +:+ "> ") text))
    else Return None
  else if name_in ["pre"; "code"] element then
    let text := get_text_strip element in
    if nonempty text
    then Return (Some ("```" +:+ lf +:+ text +:+ lf +:+ "```"))
    else Return None
  else if String.eqb (name element) "a" && with_links then
    text ← render_link base_url element;
    Return (Some text)
  else
    if with_links && is_some_element (find "a" element) then
      parts ← link_parts base_url (contents element);
      Return (Some (join " " parts))
    else Return (Some (get_text_strip element)).

End Normalizer.

(** ** [MetrScraper]: how a page's [content] field is assembled *)

Module MetrContent.
Import PyStr PyOutcome Dom Normalizer.

Definition home_tags : list string :=
  ["p"; "ul"; "ol"; "blockquote"; "pre"; "code"; "table"].

Definition post_tags : list string :=
  ["p"; "ul"; "ol"; "blockquote"; "pre"; "code"; "table"; "div"].

Definition skipped_classes : list string :=
  ["post-header"; "post-categories"; "post-authors"; "post-date";
   "caption"; "hide-over-950"; "show-over-950"; "breakout-wider"].

(** [content_elements.append(self.extract_text_content(element))] for
    every element of the list *)
Fixpoint render_all (base_url : string) (elements : list element)
  : outcome (list (option string)) :=
  match elements with
  | [] => Return []
  | e :: rest =>
      text ← extract_text_content base_url e true;
      texts ← render_all base_url rest;
      Return (text :: texts)
  end.

(** [sep.join(items)] raises [TypeError] when an item is [None]. *)
Fixpoint all_strings (items : list (option string)) : option (list string) :=
  match items with
  | [] => Some []
  | None :: _ => None
  | Some s :: rest => cons s <$> all_strings rest
  end.

Definition join_items (sep : string) (items : list (option string))
  : outcome string :=
  match all_strings items with
  | Some l => Return (join sep l)
  | None => Raise TypeError
  end.

(** [scrape_home_page], the lines that fill [content['content']] once
    [main_content] is found. *)
Definition scrape_home_page_content (base_url : string)
    (main_content : element) : outcome string :=
  content_elements ← render_all base_url (find_all home_tags main_content);
  join_items (lf +:+ lf) content_elements.

(** The test on [element.get('class')] in the loop of [scrape_blog_post]. *)
Definition has_skipped_class (e : element) : bool :=
  if truthy (get "class" e) then
    let classes :=
      match get "class" e with
      | Some (AttrList l) => l
      | Some (AttrStr s) => [s]
      | None => []
      end in
    existsb (fun c => Url.mem_str c skipped_classes) classes
  else false.

(** The loop of [scrape_blog_post] over the elements of [main_content];
    [content_elements] is the list built so far. *)
Fixpoint content_loop (base_url : string) (elements : list element)
    (content_elements : list string) : outcome (list string) :=
  match elements with
  | [] => Return content_elements
  | e :: rest =>
      if has_skipped_class e then content_loop base_url rest content_elements
      else
        text ← extract_text_content base_url e true;
        match text with
        | Some t =>
            if nonempty t && negb (Url.mem_str t content_elements)
            then content_loop base_url rest (content_elements ++ [t])
            else content_loop base_url rest content_elements
        | None => content_loop base_url rest content_elements
        end
  end.

(** [scrape_blog_post], the lines that fill [post_content['content']] once
    [main_content] is chosen: [content_elements] starts empty on every
    call. *)
Definition scrape_blog_post_content (base_url : string)
    (main_content : element) : outcome string :=
  content_elements ← content_loop base_url
                        (find_all post_tags main_content) [];
  Return (join (lf +:+ lf) content_elements).

(** *** What the specification asks of the caller

    The elements are rendered in document order; a fragment that is empty
    or that was already emitted for the page is skipped; the fragments
    kept are joined with a blank line. *)

(** Every string once, at its first place. *)
Fixpoint drop_repeats (l : list string) : list string :=
  match l with
  | [] => []
  | t :: rest => t :: filter (fun u => u <> t) (drop_repeats rest)
  end.

Definition non_empty_text (r : option string) : option string :=
  match r with
  | Some t => if nonempty t then Some t else None
  | None => None
  end.

Definition kept_fragments (rendered : list (option string)) : list string :=
  drop_repeats (omap non_empty_text rendered).

Definition assembled_content (base_url : string) (elements : list element)
  : outcome string :=
  rendered ← render_all base_url elements;
  Return (join (lf +:+ lf) (kept_fragments rendered)).

End MetrContent.

(** ** The crawl session: [scraped_urls], the Fetch Layer and
       [scrape_blog_post] of every adapter *)

Module Session.
Import PyStr PyOutcome Adapters.

Section Crawl.

(** A parsed page and an extracted page record. *)
Context {document record : Type}.

(** The network: what [session.get] followed by the parser answers to a
    request, [None] when [get_page] catches an exception.  The answer
    may depend on the requests made before. *)
Variable respond : list string -> string -> option document.

(** The publisher-specific lines of [scrape_blog_post] that follow a
    successful fetch: they build the record from the page, touch neither
    [scraped_urls] nor the network, and may return [None] or raise. *)
Variable extract : adapter -> string -> document -> outcome (option record).

(** The state of one scraper object.  [requests] is the log of the calls
    of [get_page], oldest first; [posts] collects what the loops over the
    discovered URLs append to [self.data]. *)
Record session : Type := MkSession {
  scraped_urls : gset string;
  requests : list string;
  posts : list record }.

(** [BaseScraper.__init__] *)
Definition init : session :=
  {| scraped_urls := ∅; requests := []; posts := [] |}.

(** [self.get_page(url)] *)
Definition get_page (s : session) (url : string)
  : option document * session :=
  (respond (requests s) url,
   {| scraped_urls := scraped_urls s;
      requests := requests s ++ [url];
      posts := posts s |}).

(** [self.scraped_urls.add(url)] *)
Definition mark (s : session) (url : string) : session :=
  {| scraped_urls := {[url]} ∪ scraped_urls s;
     requests := requests s;
     posts := posts s |}.

(** [soup = self.get_page(url); if not soup: return None], then the
    extraction. *)
Definition fetch_and_extract (a : adapter) (s : session) (url : string)
  : outcome (option record) * session :=
  let '(soup, s) := get_page s url in
  match soup with
  | None => (Return None, s)
  | Some page => (extract a url page, s)
  end.

(** The [scrape_blog_post] that tests [scraped_urls], then
    [is_blog_post_url]: Metr, Lakera, NistAisi, CanadianAisi, Apollo,
    DeepMind. *)
Definition checked_post (a : adapter) (s : session) (url : string)
  : outcome (option record) * session :=
  if bool_decide (url ∈ scraped_urls s) then (Return None, s)
  else if negb (is_blog_post_url a url) then (Return None, s)
  else fetch_and_extract a (mark s url) url.

(** The [scrape_blog_post] that tests [scraped_urls] only: Anthropic,
    CSER, and [AisiScraper.scrape_article]. *)
Definition unchecked_post (a : adapter) (s : session) (url : string)
  : outcome (option record) * session :=
  if bool_decide (url ∈ scraped_urls s) then (Return None, s)
  else fetch_and_extract a (mark s url) url.

(** [AisiScraper.scrape_article] *)
Definition scrape_article (s : session) (url : string)
  : outcome (option record) * session :=
  unchecked_post Aisi s url.

(** [urljoin(self.base_url, '/research')] and
    [urljoin(self.base_url, '/progress-report/')] of [CHAIScraper] *)
Definition chai_research_url : string :=
  "https://humancompatible.ai/research".
Definition chai_progress_url : string :=
  "https://humancompatible.ai/progress-report/".

(** [CHAIScraper.scrape_research_page] and [scrape_progress_report] *)
Definition scrape_research_page (s : session)
  : outcome (option record) * session :=
  fetch_and_extract CHAI s chai_research_url.

Definition scrape_progress_report (s : session)
  : outcome (option record) * session :=
  fetch_and_extract CHAI s chai_progress_url.

(** [scrape_blog_post] of each subclass *)
Definition scrape_blog_post (a : adapter) (s : session) (url : string)
  : outcome (option record) * session :=
  match a with
  | Metr => checked_post Metr s url
  | Aisi => scrape_article s url
  | Lakera => checked_post Lakera s url
  | NistAisi => checked_post NistAisi s url
  | CanadianAisi => checked_post CanadianAisi s url
  | Apollo => checked_post Apollo s url
  | Anthropic => unchecked_post Anthropic s url
  | DeepMind => checked_post DeepMind s url
  | CSER => unchecked_post CSER s url
  | CHAI =>
      if bool_decide (url ∈ scraped_urls s) then (Return None, s)
      else
        let s := mark s url in
        if contains "research" url then scrape_research_page s
        else if contains "progress-report" url
        then scrape_progress_report s
        else (Return None, s)
  end.

(** [self.data[...].append(post)] when the post is not [None] *)
Definition append_post (s : session) (post : option record) : session :=
  match post with
  | None => s
  | Some r =>
      {| scraped_urls := scraped_urls s;
         requests := requests s;
         posts := posts s ++ [r] |}
  end.

(** The loop every adapter runs over its discovered URLs:
    [for url in urls: post = self.scrape_blog_post(url);
     if post: self.data[...].append(post)]. *)
Fixpoint scrape_each (a : adapter) (s : session) (urls : list string)
  : outcome unit * session :=
  match urls with
  | [] => (Return (), s)
  | url :: rest =>
      let '(r, s) := scrape_blog_post a s url in
      match r with
      | Raise e => (Raise e, s)
      | Return post => scrape_each a (append_post s post) rest
      end
  end.

(** The adapters whose [scrape_blog_post] consults [is_blog_post_url]. *)
Definition checks_url (a : adapter) : bool :=
  match a with
  | Metr | Lakera | NistAisi | CanadianAisi | Apollo | DeepMind => true
  | Aisi | Anthropic | CSER | CHAI => false
  end.

(** The URLs an adapter's own loops hand to [scrape_blog_post]: for
    CHAI the two fixed URLs of [scrape_blog_posts]; for the others
    whatever the listing pages or the literal lists hold. *)
Definition discovered (a : adapter) (url : string) : Prop :=
  match a with
  | CHAI => url = chai_research_url \/ url = chai_progress_url
  | _ => True
  end.

(** What a call does once it is past its guards, in one expression: the
    URL is marked, one request is logged, and the result is that of the
    extraction, or [None] when the fetch failed. *)
Definition marked_and_fetched (a : adapter) (s : session) (url : string)
  : outcome (option record) * session :=
  (match respond (requests s) url with
   | None => Return None
   | Some page => extract a url page
   end,
   {| scraped_urls := {[url]} ∪ scraped_urls s;
      requests := requests s ++ [url];
      posts := posts s |}).

(** One step of a session: a call of [scrape_blog_post], or a call of
    [get_page] by one of the page scrapers. *)
Inductive step (a : adapter) : session -> session -> Prop :=
| step_post s url :
    step a s (scrape_blog_post a s url).2
| step_page s url :
    step a s (get_page s url).2.

End Crawl.

End Session.

(** ** JSON documents, as [json.load] returns them

    Numbers are integers: the documents the scraper writes hold strings,
    [null], arrays and objects only.  A [dict] keeps the order of its
    entries. *)

Module Json.

#[warnings="-register-all"]
Inductive json : Type :=
| JNull
| JBool (b : bool)
| JNum (z : Z)
| JStr (s : string)
| JList (items : list json)
| JDict (entries : list (string * json)).

(** [d.get(key)] *)
Fixpoint dict_get (key : string) (d : list (string * json)) : option json :=
  match d with
  | [] => None
  | (k, v) :: d' => if String.eqb k key then Some v else dict_get key d'
  end.

(** [d.pop(key, None)], for its effect on [d] *)
Definition dict_pop (key : string) (d : list (string * json))
  : list (string * json) :=
  filter (fun kv => negb (String.eqb kv.1 key)) d.

(** truth value of a JSON value *)
Definition truthy (v : json) : bool :=
  match v with
  | JNull => false
  | JBool b => b
  | JNum z => negb (z =? 0)%Z
  | JStr s => PyStr.nonempty s
  | JList l => match l with [] => false | _ => true end
  | JDict d => match d with [] => false | _ => true end
  end.

End Json.

(** ** [split_json.py] *)

Module SplitJson.
Import PyOutcome Json.

(** Object identity.  [json.load] builds a tree without sharing, so a list
    object is identified by its place in the document: the positions of
    the children on the way down from the root.  [obj is largest_array]
    becomes the equality of two places. *)
Definition place : Type := list nat.

(** A loop over the children of a node that threads a value, and a
    comprehension over them; [i] is the position of the first child. *)
Definition fold_indexed {A T : Type} (f : nat -> A -> T -> T)
  : nat -> list A -> T -> T :=
  fix go (i : nat) (l : list A) (acc : T) : T :=
    match l with
    | [] => acc
    | x :: l' => go (S i) l' (f i x acc)
    end.

Definition map_indexed {A B : Type} (f : nat -> A -> B)
  : nat -> list A -> list B :=
  fix go (i : nat) (l : list A) : list B :=
    match l with
    | [] => []
    | x :: l' => f i x :: go (S i) l'
    end.

(** [find_largest_array(obj, current_max)]; [here] is the place of [obj]. *)
Fixpoint find_largest_array (here : place) (obj : json)
    (current_max : option (place * list json))
  : option (place * list json) :=
  match obj with
  | JList items =>
      match current_max with
      | None => Some (here, items)
      | Some (_, m) =>
          if (length m <? length items)%nat then Some (here, items)
          else current_max
      end
  | JDict entries =>
      fold_indexed
        (fun i entry current_max =>
           find_largest_array (here ++ [i]) entry.2 current_max)
        0%nat entries current_max
  | _ => current_max
  end.

(** [replace_array_in_structure(obj, new_array)]; [largest] is the place
    of [largest_array] and [here] the place of [obj]. *)
Fixpoint replace_array_in_structure (largest here : place) (obj : json)
    (new_array : list json) : json :=
  match obj with
  | JList items =>
      if bool_decide (here = largest) then JList new_array
      else
        JList (map_indexed
                 (fun i item =>
                    replace_array_in_structure largest (here ++ [i])
                      item new_array)
                 0%nat items)
  | JDict entries =>
      JDict (map_indexed
               (fun i entry =>
                  (entry.1,
                   replace_array_in_structure largest (here ++ [i])
                     entry.2 new_array))
               0%nat entries)
  | _ => obj
  end.

(** [math.ceil(total_items / num_parts)] for a non-zero divisor: the
    quotient of two list lengths is far below the range where the
    floating-point division is inexact. *)
Definition ceil_div (a b : Z) : Z := (- ((- a) / b))%Z.

(** [largest_array[start_idx:end_idx]] for [0 <= start_idx] *)
Definition slice {A : Type} (l : list A) (start_idx end_idx : Z) : list A :=
  take (Z.to_nat (end_idx - start_idx)) (drop (Z.to_nat start_idx) l).

(** The slices the loop [for i in range(num_parts)] takes, with its
    [break]. *)
Fixpoint part_arrays (largest_array : list json) (items_per_part : Z)
    (indices : list nat) : list (list json) :=
  match indices with
  | [] => []
  | i :: rest =>
      let total_items := Z.of_nat (length largest_array) in
      let start_idx := (Z.of_nat i * items_per_part)%Z in
      let end_idx := Z.min ((Z.of_nat i + 1) * items_per_part) total_items in
      if (total_items <=? start_idx)%Z then []
      else slice largest_array start_idx end_idx
           :: part_arrays largest_array items_per_part rest
  end.

(** [split_json_file], from the loaded [data] to the documents it writes,
    [part1] first *)
Definition split_json_file (data : json) (num_parts : Z)
  : outcome (list json) :=
  match find_largest_array [] data None with
  | None => Raise ValueError
  | Some (largest, largest_array) =>
      if (num_parts =? 0)%Z then Raise ZeroDivisionError
      else
        let total_items := Z.of_nat (length largest_array) in
        let items_per_part := ceil_div total_items num_parts in
        Return (map (replace_array_in_structure largest [] data)
                    (part_arrays largest_array items_per_part
                       (seq 0 (Z.to_nat num_parts))))
  end.

(** The array found in a document at a place, the place being read from
    the node downwards. *)
Fixpoint array_at (rel : place) (obj : json) : option (list json) :=
  match rel, obj with
  | [], JList items => Some items
  | i :: rest, JList items => item ← items !! i; array_at rest item
  | i :: rest, JDict entries => entry ← entries !! i; array_at rest entry.2
  | _, _ => None
  end.

(** *** What the specification asks of the search *)

(** Every array of a document with its place, found depth first through
    the values of objects and the elements of arrays. *)
Fixpoint all_arrays (here : place) (obj : json) : list (place * list json) :=
  match obj with
  | JList items =>
      (here, items)
      :: concat (map_indexed (fun i item => all_arrays (here ++ [i]) item)
                             0%nat items)
  | JDict entries =>
      concat (map_indexed (fun i entry => all_arrays (here ++ [i]) entry.2)
                          0%nat entries)
  | _ => []
  end.

(** An array of the document that no other array of it exceeds in length. *)
Definition is_longest_array (data : json) (found : place * list json)
  : Prop :=
  found ∈ all_arrays [] data /\
  forall other, other ∈ all_arrays [] data ->
                (length other.2 <= length found.2)%nat.

(** The document holds an array. *)
Fixpoint has_array (obj : json) : bool :=
  match obj with
  | JList _ => true
  | JDict entries => existsb (fun entry => has_array entry.2) entries
  | _ => false
  end.

(** No array of the document lies in an element of an array: every array
    is the document itself or is reached through the values of objects. *)
Fixpoint arrays_at_values (obj : json) : bool :=
  match obj with
  | JList items => forallb (fun item => negb (has_array item)) items
  | JDict entries => forallb (fun entry => arrays_at_values entry.2) entries
  | _ => true
  end.

End SplitJson.

(** ** [split_json.py]: what the search compares *)

Module SplitJsonSearch.
Import Json SplitJson.

(** The arrays [find_largest_array] compares, in the order it meets them:
    the document itself when it is an array, and the arrays found through
    the values of objects.  The elements of an array are not entered. *)
Fixpoint compared_arrays (here : place) (obj : json)
  : list (place * list json) :=
  match obj with
  | JList items => [(here, items)]
  | JDict entries =>
      concat (map_indexed
                (fun i entry => compared_arrays (here ++ [i]) entry.2)
                0%nat entries)
  | _ => []
  end.

(** The test [current_max is None or len(obj) > len(current_max)] and the
    assignment it guards. *)
Definition keep_longer (current_max : option (place * list json))
    (found : place * list json) : option (place * list json) :=
  match current_max with
  | None => Some found
  | Some (_, m) =>
      if (length m <? length found.2)%nat then Some found else current_max
  end.

End SplitJsonSearch.

(** ** [filter_json.py]: the date cutoff of [filter_anthropic_data] *)

Module FilterJson.
Import PyStr PyOutcome Json.

(** A [datetime] at midnight. *)
Record date : Type := Date { year : Z; month : Z; day : Z }.

Definition month_names : list string :=
  ["Jan"; "Feb"; "Mar"; "Apr"; "May"; "Jun";
   "Jul"; "Aug"; "Sep"; "Oct"; "Nov"; "Dec"].

(** The text matched by [date_pattern], cut into its fields. *)
Record date_match : Type := DateMatch {
  m_month : string;       (* (?:Jan|...|Dec) *)
  m_space1 : string;      (* \s+ *)
  m_day : string;         (* \d{1,2} *)
  m_space2 : string;      (* \s+ after the comma *)
  m_year : string }.      (* \d{4} *)

(** [match.group()] *)
Definition group (m : date_match) : string :=
  m_month m +:+ m_space1 m +:+ m_day m +:+ "," +:+ m_space2 m +:+ m_year m.

(** The month name a string starts with. *)
Definition leading_month (s : string) : option string :=
  head (filter (fun name => startswith name s) month_names).

(** At most [n] leading digits. *)
Fixpoint leading_digits (n : nat) (s : string) : string * string :=
  match n, s with
  | S k, String c s' =>
      if Url.is_digit c
      then let '(d, rest) := leading_digits k s' in (String c d, rest)
      else (EmptyString, s)
  | _, _ => (EmptyString, s)
  end.

(** [date_pattern] matched at the start of a string.  [\s+] is greedy and
    a digit must follow it; [\d{1,2}] is greedy and a comma must follow
    it: the longest runs are the only ones that can match. *)
Definition match_here (s : string) : option date_match :=
  name ← leading_month s;
  let s := drop 3 s in
  let '(space1, s) := Url.span_chars is_space s in
  if negb (nonempty space1) then None else
  let '(dd, s) := leading_digits 2 s in
  if negb (nonempty dd) then None else
  match s with
  | String c s =>
      if negb (Ascii.eqb c ",") then None else
      let '(space2, s) := Url.span_chars is_space s in
      if negb (nonempty space2) then None else
      let '(yyyy, _) := leading_digits 4 s in
      if negb (String.length yyyy =? 4)%nat then None
      else Some (DateMatch name space1 dd space2 yyyy)
  | EmptyString => None
  end.

(** [re.search(date_pattern, content)]: the leftmost match *)
Fixpoint search (content : string) : option date_match :=
  match match_here content with
  | Some m => Some m
  | None =>
      match content with
      | EmptyString => None
      | String _ rest => search rest
      end
  end.

(** [int(digits)] *)
Fixpoint int_of_digits (acc : Z) (digits : string) : Z :=
  match digits with
  | EmptyString => acc
  | String c rest =>
      int_of_digits (10 * acc + (Z.of_N (N_of_ascii c) - 48))%Z rest
  end.

Fixpoint index_of (x : string) (l : list string) (i : Z) : option Z :=
  match l with
  | [] => None
  | y :: l' => if String.eqb x y then Some i else index_of x l' (i + 1)%Z
  end.

Definition is_leap (y : Z) : bool :=
  ((y mod 4 =? 0) && (negb (y mod 100 =? 0) || (y mod 400 =? 0)))%Z.

Definition days_in_month (y m : Z) : Z :=
  if (m =? 2)%Z then (if is_leap y then 29 else 28)%Z
  else if ((m =? 4) || (m =? 6) || (m =? 9) || (m =? 11))%Z then 30%Z
  else 31%Z.

(** [datetime.strptime(match.group(), '%b %d, %Y')] in the C locale, on a
    text that [date_pattern] matched: [%b], [%d] and [%Y] read the three
    fields again; [%d] takes 1 to 31 (a leading zero allowed), [%Y] four
    digits, and the date has to exist, from year 1 on.  [None] is the
    [ValueError]. *)
Definition strptime (m : date_match) : option date :=
  mo ← index_of (m_month m) month_names 1%Z;
  let d := int_of_digits 0 (m_day m) in
  let y := int_of_digits 0 (m_year m) in
  if ((1 <=? d) && (d <=? 31) && (1 <=? y) && (d <=? days_in_month y mo))%Z
  then Some (Date y mo d) else None.

(** [extract_date_from_content(content)] *)
Definition extract_date_from_content (content : string) : option date :=
  if negb (nonempty content) then None
  else
    match search content with
    | Some m => strptime m
    | None => None
    end.

(** [a >= b] on dates *)
Definition date_geb (a b : date) : bool :=
  ((year b <? year a)
   || ((year b =? year a)
       && ((month b <? month a)
           || ((month b =? month a) && (day b <=? day a)))))%Z.

(** [datetime(2024, 6, 1)] *)
Definition cutoff_date : date := Date 2024 6 1.

(** [filter_post(post)]; a [content] that is neither empty nor a string
    makes [re.search] raise [TypeError]. *)
Definition filter_post (post : list (string * json)) : outcome bool :=
  match dict_get "content" post with
  | None => Return false
  | Some content =>
      if negb (truthy content) then Return false
      else
        match content with
        | JStr text =>
            match extract_date_from_content text with
            | None => Return false
            | Some post_date => Return (date_geb post_date cutoff_date)
            end
        | _ => Raise TypeError
        end
  end.

(** The loop of [filter_anthropic_data] over the posts of a section; an
    entry that is not an object has no [get]. *)
Fixpoint filter_posts (posts : list json) : outcome (list json) :=
  match posts with
  | [] => Return []
  | JDict post :: rest =>
      keep ← filter_post post;
      kept ← filter_posts rest;
      Return (if (keep : bool)
              then JDict (dict_pop "timestamp" (dict_pop "links" post)) :: kept
              else kept)
  | _ :: _ => Raise AttributeError
  end.

(** *** What the specification calls a recognised date string *)

(** A text of the shape of [date_pattern]: the name of a month, white
    space, one or two digits, a comma, white space and four digits. *)
Definition is_written_date (m : date_match) : bool :=
  Url.mem_str (m_month m) month_names
  && nonempty (m_space1 m) && Url.all_chars is_space (m_space1 m)
  && ((String.length (m_day m) =? 1) || (String.length (m_day m) =? 2))%nat
  && Url.all_chars Url.is_digit (m_day m)
  && nonempty (m_space2 m) && Url.all_chars is_space (m_space2 m)
  && (String.length (m_year m) =? 4)%nat
  && Url.all_chars Url.is_digit (m_year m).

(** The date [m] is written in [content], after the text [before]. *)
Definition occurs (content before : string) (m : date_match) : Prop :=
  is_written_date m = true /\
  exists after, content = before +:+ group m +:+ after.

(** The date [m] is the first one written in [content]: no written date
    begins before it. *)
Definition first_written (content before : string) (m : date_match) : Prop :=
  occurs content before m /\
  forall before' m',
    occurs content before' m' ->
    (String.length before <= String.length before')%nat.

End FilterJson.

(** ** Sample inputs *)

Module Samples.
Import PyStr PyOutcome Adapters Dom Json.

(** A network that answers every request with a page, and one that
    answers none; an extraction that returns the URL as the record. *)
Definition network_up : list string -> string -> option unit :=
  fun _ _ => Some tt.
Definition network_down : list string -> string -> option unit :=
  fun _ _ => None.
Definition url_record : adapter -> string -> unit -> outcome (option string) :=
  fun _ url _ => Return (Some url).

(** Links found on a listing page, one of them twice. *)
Definition metr_links : list string :=
  ["https://metr.org/blog/2024-a/"; "https://metr.org/blog/2024-b/";
   "https://metr.org/blog/2024-a/"].

(** The first entry of [resource_urls] in [CSERScraper.scrape_blog_posts],
    joined to the base URL. *)
Definition cser_research_url : string :=
  "https://www.cser.ac.uk/research/risks-from-artificial-intelligence/".



Definition paragraph (text : string) : node := Elem "p" [] [Text text].

(** A content container with the same paragraph twice. *)
Definition twice_a : element :=
  Element "div" [("class", AttrList ["content"])]
    [paragraph "A"; paragraph "A"].

(** A content container with a quote that holds white space only. *)
Definition blank_quote : element :=
  Element "div" [("class", AttrList ["content"])]
    [paragraph "A"; Elem "blockquote" [] [Text "  "]].

(** A document the split utility can meet: the longest array, three
    posts, lies in an element of the array of sections. *)
Definition nested_posts : list json := [JStr "p1"; JStr "p2"; JStr "p3"].
Definition nested_doc : json :=
  JDict [("sections", JList [JDict [("posts", JList nested_posts)]])].

(** A scraped document with thirteen posts. *)
Definition thirteen_posts : list json :=
  map (fun i => JDict [("url", JNum (Z.of_nat i))]) (seq 0 13).
Definition thirteen_doc : json :=
  JDict [("metadata", JDict [("base_url", JStr "https://www.lakera.ai")]);
         ("home", JNull);
         ("tags", JList [JStr "a"; JList [JStr "b"; JStr "c"]]);
         ("blog_posts", JList thirteen_posts)].

(** A Lakera document: thirteen posts, and no array in an array. *)
Definition lakera_doc : json :=
  JDict [("metadata", JDict [("base_url", JStr "https://www.lakera.ai")]);
         ("home", JNull);
         ("blog_posts", JList thirteen_posts)].

(** A CHAI document as [CHAIScraper] writes it: the two blog posts, the
    research page with one research area of thirteen papers and the
    progress report.  The longest array of the document, the papers, lies
    in an element of [research_areas], itself in an element of
    [blog_posts]. *)
Definition thirteen_papers : list json :=
  map (fun i => JDict [("title", JStr (String (ascii_of_nat (65 + i)) ""));
                       ("url", JStr "https://humancompatible.ai/papers")])
      (seq 0 13).
Definition research_post : json :=
  JDict [("url", JStr "https://humancompatible.ai/research");
         ("headings", JList [JStr "Research"]);
         ("content", JStr "");
         ("research_areas",
          JList [JDict [("title", JStr "Value alignment");
                        ("description", JStr "");
                        ("papers", JList thirteen_papers)]])].
Definition progress_post : json :=
  JDict [("url", JStr "https://humancompatible.ai/progress-report/");
         ("headings", JList []);
         ("content", JStr "Progress report")].
Definition chai_papers_doc : json :=
  JDict [("metadata", JDict [("base_url", JStr "https://humancompatible.ai")]);
         ("blog_posts", JList [research_post; progress_post])].

(** Three news posts: dated on the cutoff day, dated the day before, and
    without a date in the content. *)
Definition post_on_cutoff : list (string * json) :=
  [("url", JStr "https://www.anthropic.com/news/a");
   ("timestamp", JStr "2025-01-05T10:00:00");
   ("title", JStr "A");
   ("content", JStr "AnnouncementsJun 1, 2024 A post.");
   ("links", JList [])].

Definition post_day_before : list (string * json) :=
  [("url", JStr "https://www.anthropic.com/news/b");
   ("timestamp", JStr "2025-01-05T10:00:01");
   ("title", JStr "B");
   ("content", JStr "AnnouncementsMay 31, 2024 A post.");
   ("links", JList [])].

(** A post updated the day before the cutoff and published on the cutoff
    day: the earlier date is written first. *)
Definition post_two_dates : list (string * json) :=
  [("url", JStr "https://www.anthropic.com/news/d");
   ("title", JStr "D");
   ("content", JStr "Updated May 31, 2024. First published Jun 1, 2024.")].

Definition post_undated : list (string * json) :=
  [("url", JStr "https://www.anthropic.com/news/c");
   ("timestamp", JStr "2025-01-05T10:00:02");
   ("title", JStr "C");
   ("content", JStr "A post of June 2024.");
   ("links", JList [])].

End Samples.

(** ** [filter_json.py]: [filter_anthropic_data] on a whole document *)

Module FilterData.
Import PyStr PyOutcome Json FilterJson.

(** [d[key] = value] *)
Fixpoint dict_set (key : string) (value : json) (d : list (string * json))
  : list (string * json) :=
  match d with
  | [] => [(key, value)]
  | (k, v) :: d' =>
      if String.eqb k key then (k, value) :: d'
      else (k, v) :: dict_set key value d'
  end.

(** The values [for x in v] runs through: the elements of an array, the
    keys of an object, the characters of a string; the other values are not
    iterable. *)
Definition iterate (v : json) : outcome (list json) :=
  match v with
  | JList items => Return items
  | JDict entries => Return (map (fun kv => JStr kv.1) entries)
  | JStr s =>
      Return (map (fun c => JStr (String c EmptyString))
                  (list_ascii_of_string s))
  | JNull | JBool _ | JNum _ => Raise TypeError
  end.

(** The block [if key in data: ...] of [filter_anthropic_data], the same
    for [research_posts] and for [news_posts]. *)
Definition filter_section (key : string) (data : list (string * json))
  : outcome (list (string * json)) :=
  match dict_get key data with
  | None => Return data
  | Some section =>
      posts ← iterate section;
      filtered ← filter_posts posts;
      Return (dict_set key (JList filtered) data)
  end.

(** [filter_anthropic_data(data)] *)
Definition filter_anthropic_data (data : list (string * json))
  : outcome (list (string * json)) :=
  data ← filter_section "research_posts" data;
  filter_section "news_posts" data.

(** A post as the scraper writes it: an object whose [content], when it
    has one, is a string or [null]. *)
Definition scraped_post (p : json) : Prop :=
  exists d, p = JDict d /\
            forall v, dict_get "content" d = Some v ->
                      v = JNull \/ exists s, v = JStr s.

(** A section as the scraper writes it: absent, or an array of such
    posts. *)
Definition scraped_section (key : string) (data : list (string * json))
  : Prop :=
  forall v, dict_get key data = Some v ->
            exists posts, v = JList posts /\ Forall scraped_post posts.

(** What the loop does to a post it keeps. *)
Definition without_links (post : list (string * json))
  : list (string * json) :=
  dict_pop "timestamp" (dict_pop "links" post).

(** *** [filter_cser_data] and [filter_chai_data] *)

(** [obj.pop(key, None)] on a value of the document: a [dict] loses the
    key, the [pop] of a [list] takes one argument, the other values have
    no [pop]. *)
Definition pop (key : string) (obj : json) : outcome json :=
  match obj with
  | JDict d => Return (JDict (dict_pop key d))
  | JList _ => Raise TypeError
  | JNull | JBool _ | JNum _ | JStr _ => Raise AttributeError
  end.

(** [obj.pop(key, None)] for the keys of a list, one after the other *)
Fixpoint pops (keys : list string) (obj : json) : outcome json :=
  match keys with
  | [] => Return obj
  | key :: rest => obj ← pop key obj; pops rest obj
  end.

(** The block [if key in data and data[key]: data[key].pop(...)] *)
Definition clean_page (keys : list string) (key : string)
    (data : list (string * json)) : outcome (list (string * json)) :=
  match dict_get key data with
  | None => Return data
  | Some page =>
      if truthy page
      then page ← pops keys page; Return (dict_set key page data)
      else Return data
  end.

(** A loop [for x in items] whose body changes [x] or fails: the values
    after the loop. *)
Fixpoint for_each (body : json -> outcome json) (items : list json)
  : outcome (list json) :=
  match items with
  | [] => Return []
  | x :: rest =>
      x ← body x;
      rest ← for_each body rest;
      Return (x :: rest)
  end.

(** What such a loop leaves of the value it ran through: the elements of
    an array are the changed ones; an object or a string that let the
    loop end is empty and stays as it is. *)
Definition updated (container : json) (items : list json) : json :=
  match container with
  | JList _ => JList items
  | _ => container
  end.

(** The block [if key in data: for x in data[key]: x.pop(...)]: the
    resources of [filter_cser_data], and in [filter_chai_data] the
    research areas of a post, where [data] is the post. *)
Definition pop_in_each (keys : list string) (key : string)
    (data : list (string * json)) : outcome (list (string * json)) :=
  match dict_get key data with
  | None => Return data
  | Some container =>
      items ← iterate container;
      items ← for_each (pops keys) items;
      Return (dict_set key (updated container items) data)
  end.

(** [filter_cser_data(data)] *)
Definition filter_cser_data (data : list (string * json))
  : outcome (list (string * json)) :=
  data ← clean_page ["links"; "timestamp"] "home" data;
  data ← clean_page ["links"; "timestamp"] "about" data;
  pop_in_each ["links"; "timestamp"] "resources" data.

(** The body of the loop of [filter_chai_data] over the blog posts.  On a
    string, [in] looks for a substring and the subscript that follows
    raises [TypeError]; on an array both the subscript and [pop] with two
    arguments raise [TypeError]; the other values are not containers. *)
Definition clean_post (post : json) : outcome json :=
  match post with
  | JDict d =>
      d ← pop_in_each ["papers"] "research_areas" d;
      Return (JDict (dict_pop "timestamp" d))
  | JStr s =>
      if contains "research_areas" s then Raise TypeError
      else Raise AttributeError
  | JList _ => Raise TypeError
  | JNull | JBool _ | JNum _ => Raise TypeError
  end.

(** [filter_chai_data(data)] *)
Definition filter_chai_data (data : list (string * json))
  : outcome (list (string * json)) :=
  data ← clean_page ["timestamp"] "home" data;
  data ← clean_page ["timestamp"] "about" data;
  match dict_get "blog_posts" data with
  | None => Return data
  | Some posts =>
      posts ← iterate posts;
      cleaned_posts ← for_each clean_post posts;
      Return (dict_set "blog_posts" (JList cleaned_posts) data)
  end.

(** An object without the keys of a list; any other value as it is. *)
Definition without (keys : list string) (v : json) : json :=
  match v with
  | JDict d => JDict (foldl (fun d key => dict_pop key d) d keys)
  | _ => v
  end.

(** The document after the block [clean_page], when the block ends. *)
Definition page_cleaned (keys : list string) (key : string)
    (data : list (string * json)) : list (string * json) :=
  match dict_get key data with
  | Some page => dict_set key (without keys page) data
  | None => data
  end.

(** The document after the block [pop_in_each], when the block ends. *)
Definition items_cleaned (keys : list string) (key : string)
    (data : list (string * json)) : list (string * json) :=
  match dict_get key data with
  | Some (JList items) => dict_set key (JList (without keys <$> items)) data
  | _ => data
  end.

(** A blog post after the body of the loop of [filter_chai_data], when
    the body ends. *)
Definition post_cleaned (post : list (string * json))
  : list (string * json) :=
  dict_pop "timestamp" (items_cleaned ["papers"] "research_areas" post).

(** A page entry the filters can clean: absent, false, or an object. *)
Definition cleanable_page (key : string) (data : list (string * json))
  : Prop :=
  forall v, dict_get key data = Some v -> truthy v = true ->
            exists d, v = JDict d.

(** An entry whose values the filters can clean one by one: absent, an
    array of objects, or an object or a string with nothing in it. *)
Definition cleanable_list (key : string) (data : list (string * json))
  : Prop :=
  forall v, dict_get key data = Some v ->
            (exists ds, v = JList (JDict <$> ds)) \/
            v = JDict [] \/ v = JStr "".

End FilterData.

(** ** [filter_json.py]: [filter_deepmind_data] *)

Module FilterDeepMind.
Import PyStr PyOutcome Json FilterJson FilterData.

(** *** [datetime.strptime] on the two formats of [filter_publication]

    [strptime] turns the format into a regular expression, compiled to
    ignore case, and matches it at the start of the text.  A piece of the
    expression is modelled by the ways it can match at the start of a
    string, in the order in which the matcher tries them, each with the
    value read and the rest of the string; a sequence of pieces tries the
    ways of the first piece in order and, for each, those of the pieces
    that follow. *)

Definition digit_value (c : ascii) : Z := (Z.of_N (N_of_ascii c) - 48)%Z.

Definition between (lo hi c : ascii) : bool :=
  ((N_of_ascii lo <=? N_of_ascii c) && (N_of_ascii c <=? N_of_ascii hi))%N.

(** A character of the format that stands for itself. *)
Definition literal (c : ascii) (s : string) : list (unit * string) :=
  match s with
  | String d rest => if Ascii.eqb d c then [(tt, rest)] else []
  | EmptyString => []
  end.

(** [%Y]: four digits *)
Definition year_field (s : string) : list (Z * string) :=
  match s with
  | String a (String b (String c (String d rest))) =>
      if Url.is_digit a && Url.is_digit b && Url.is_digit c && Url.is_digit d
      then [((1000 * digit_value a + 100 * digit_value b
              + 10 * digit_value c + digit_value d)%Z, rest)]
      else []
  | _ => []
  end.

(** Two characters, the first given and the second in a range, read as a
    number of two digits. *)
Definition two_digits (first lo hi : ascii) (s : string)
  : list (Z * string) :=
  match s with
  | String a (String b rest) =>
      if Ascii.eqb a first && between lo hi b
      then [((10 * digit_value a + digit_value b)%Z, rest)] else []
  | _ => []
  end.

(** One digit from 1 to 9. *)
Definition one_digit (s : string) : list (Z * string) :=
  match s with
  | String a rest =>
      if between "1" "9" a then [(digit_value a, rest)] else []
  | EmptyString => []
  end.

(** [%m]: one of 1[0-2], 0[1-9], [1-9] *)
Definition month_field (s : string) : list (Z * string) :=
  two_digits "1" "0" "2" s ++ two_digits "0" "1" "9" s ++ one_digit s.

(** [%d]: one of 3[0-1], [1-2]\d, 0[1-9], [1-9], and [1-9] after a
    space *)
Definition day_field (s : string) : list (Z * string) :=
  two_digits "3" "0" "1" s
  ++ two_digits "1" "0" "9" s ++ two_digits "2" "0" "9" s
  ++ two_digits "0" "1" "9" s
  ++ one_digit s
  ++ ('(_, rest) ← literal " " s; one_digit rest).

(** White space of the format: one or more white space characters, as
    many as possible first. *)
Fixpoint spaces (s : string) : list (unit * string) :=
  match s with
  | String c rest => if is_space c then spaces rest ++ [(tt, rest)] else []
  | EmptyString => []
  end.

(** [%b]: one of the twelve names, whatever the case of its letters; the
    value is the number of the month. *)
Definition month_name_field (s : string) : list (Z * string) :=
  omap (fun '(number, name) =>
          if String.eqb (lower (take 3 s)) (lower name)
          then Some (number, drop 3 s) else None)
       (zip (map Z.of_nat (seq 1 12)) month_names).

(** The format [%Y-%m-%d] *)
Definition iso_ways (s : string) : list (date * string) :=
  '(y, s) ← year_field s;
  '(_, s) ← literal "-" s;
  '(m, s) ← month_field s;
  '(_, s) ← literal "-" s;
  '(d, s) ← day_field s;
  [(Date y m d, s)].

(** The format [%b %d, %Y] *)
Definition text_ways (s : string) : list (date * string) :=
  '(m, s) ← month_name_field s;
  '(_, s) ← spaces s;
  '(d, s) ← day_field s;
  '(_, s) ← literal "," s;
  '(_, s) ← spaces s;
  '(y, s) ← year_field s;
  [(Date y m d, s)].

(** The date has to exist, from year 1 on. *)
Definition date_exists (d : date) : bool :=
  ((1 <=? year d) && (day d <=? days_in_month (year d) (month d)))%Z.

(** [datetime.strptime(text, format)], [None] for its [ValueError]: the
    text does not match, the match leaves a rest, or there is no such
    date. *)
Definition strptime_as (ways : string -> list (date * string))
    (text : string) : option date :=
  match ways text with
  | [] => None
  | (d, rest) :: _ =>
      if nonempty rest then None
      else if date_exists d then Some d else None
  end.

(** [datetime(2024, 1, 1)] *)
Definition publication_cutoff : date := Date 2024 1 1.

(** [filter_publication(pub)].  The exceptions of the [try] block are
    caught: a [date] that is not a string gives [TypeError], from [in] or
    from [strptime]. *)
Definition filter_publication (pub : list (string * json)) : bool :=
  match dict_get "date" pub with
  | None => false
  | Some date =>
      if negb (truthy date) then false
      else
        match date with
        | JStr text =>
            let pub_date :=
              if contains "-" text then strptime_as iso_ways text
              else strptime_as text_ways text in
            match pub_date with
            | Some d => date_geb d publication_cutoff
            | None => false
            end
        | _ => false
        end
  end.

(** The loop over the publications; an entry that is not an object has
    no [get]. *)
Fixpoint filter_publications (pubs : list json) : outcome (list json) :=
  match pubs with
  | [] => Return []
  | JDict pub :: rest =>
      kept ← filter_publications rest;
      Return (if filter_publication pub
              then JDict (without_links pub) :: kept else kept)
  | _ :: _ => Raise AttributeError
  end.

(** The block [if 'publications' in data: ...] *)
Definition filter_publications_block (data : list (string * json))
  : outcome (list (string * json)) :=
  match dict_get "publications" data with
  | None => Return data
  | Some section =>
      pubs ← iterate section;
      filtered ← filter_publications pubs;
      Return (dict_set "publications" (JList filtered) data)
  end.

(** [filter_deepmind_data(data)] *)
Definition filter_deepmind_data (data : list (string * json))
  : outcome (list (string * json)) :=
  data ← filter_publications_block data;
  data ← clean_page ["links"; "timestamp"] "home" data;
  clean_page ["links"; "timestamp"] "about" data.

End FilterDeepMind.

(** ** More sample inputs *)

Module MoreSamples.
Import PyStr PyOutcome Adapters Dom Json.

(** A document of the Anthropic scraper. *)
Definition anthropic_doc : list (string * json) :=
  [("metadata", JDict [("base_url", JStr "https://www.anthropic.com")]);
   ("home", JDict [("url", JStr "https://www.anthropic.com");
                   ("timestamp", JStr "2025-01-05T09:00:00");
                   ("links", JList [])]);
   ("about", JNull);
   ("blog_posts", JList []);
   ("research_posts", JList [JDict Samples.post_day_before]);
   ("news_posts", JList [JDict Samples.post_on_cutoff;
                         JDict Samples.post_undated])].

(** A paragraph whose link has a host that [urljoin] turns down, and a
    paragraph whose link lies inside an emphasis. *)
Definition broken_link_paragraph : element :=
  Element "p" []
    [Text "See "; Elem "a" [("href", AttrStr "//[x")] [Text "here"]].

Definition nested_link_paragraph : element :=
  Element "p" []
    [Text " Read "; Elem "strong" []
       [Text "the "; Elem "a" [("href", AttrStr "/report")] [Text "report"]]].

(** A document of the DeepMind scraper: publications dated on the
    cutoff day, the day before, with a time after the day, in words, and
    without a date. *)
Definition publication (url : string) (date : json) : json :=
  JDict [("url", JStr url); ("timestamp", JStr "2025-01-05T09:00:00");
         ("date", date); ("links", JList [])].

Definition deepmind_doc : list (string * json) :=
  [("metadata", JDict [("base_url", JStr "https://deepmind.google")]);
   ("home", JDict [("url", JStr "https://deepmind.google");
                   ("timestamp", JStr "2025-01-05T09:00:00");
                   ("links", JList [])]);
   ("about", JNull);
   ("blog_posts", JList []);
   ("publications",
    JList [publication "a" (JStr "2024-01-01");
           publication "b" (JStr "2023-12-31");
           publication "c" (JStr "2024-05-01T00:00:00Z");
           publication "d" (JStr "Jan 1, 2024");
           publication "e" JNull])].

(** A document of the CSER scraper and one of the CHAI scraper. *)
Definition cser_doc : list (string * json) :=
  [("metadata", JDict [("base_url", JStr "https://www.cser.ac.uk")]);
   ("home", JDict [("url", JStr "https://www.cser.ac.uk");
                   ("timestamp", JStr "2025-01-05T09:00:00");
                   ("content", JStr "Home");
                   ("links", JList [])]);
   ("about", JNull);
   ("blog_posts", JList []);
   ("resources",
    JList [JDict [("url", JStr "https://www.cser.ac.uk/resources/solving-x/");
                  ("timestamp", JStr "2025-01-05T09:00:01");
                  ("title", JStr "Solving X");
                  ("links", JList [])];
           JDict [("url", JStr "https://www.cser.ac.uk/resources/ai-issues-covid/");
                  ("timestamp", JStr "2025-01-05T09:00:02");
                  ("title", JStr "AI issues")]])].

Definition chai_doc : list (string * json) :=
  [("metadata", JDict [("base_url", JStr "https://humancompatible.ai")]);
   ("home", JDict [("url", JStr "https://humancompatible.ai");
                   ("timestamp", JStr "2025-01-05T09:00:00");
                   ("links", JList [JDict [("text", JStr "About");
                                           ("href", JStr "/about")]])]);
   ("about", JNull);
   ("blog_posts",
    JList [JDict [("url", JStr "https://humancompatible.ai/research");
                  ("timestamp", JStr "2025-01-05T09:00:01");
                  ("research_areas",
                   JList [JDict [("title", JStr "Value alignment");
                                 ("description", JStr "D");
                                 ("papers", JList [JStr "p"])]])]])].

End MoreSamples.

(** ** [scraper.py]: the registry, the command line and the name of the
       output file; [filter_json.py]: the names of its files *)

Module Registry.
Import PyStr PyOutcome Adapters.

(** [create_scraper(website_url)] *)
Definition create_scraper (website_url : string) : outcome adapter :=
  if contains "metr.org" website_url then Return Metr
  else if contains "aisi.gov.uk" website_url then Return Aisi
  else if contains "lakera.ai" website_url then Return Lakera
  else if contains "nist.gov/aisi" website_url then Return NistAisi
  else if contains "ised-isde.canada.ca" website_url then Return CanadianAisi
  else if contains "apolloresearch.ai" website_url then Return Apollo
  else if contains "anthropic.com" website_url then Return Anthropic
  else if contains "deepmind.google" website_url then Return DeepMind
  else if contains "cser.ac.uk" website_url then Return CSER
  else if contains "humancompatible.ai" website_url then Return CHAI
  else Raise ValueError.

(** The identifiers [create_scraper] looks for. *)
Definition identifiers : list string :=
  ["metr.org"; "aisi.gov.uk"; "lakera.ai"; "nist.gov/aisi";
   "ised-isde.canada.ca"; "apolloresearch.ai"; "anthropic.com";
   "deepmind.google"; "cser.ac.uk"; "humancompatible.ai"].

(** [websites], the default of the main block *)
Definition default_websites : list string :=
  ["https://metr.org";
   "https://www.aisi.gov.uk";
   "https://www.lakera.ai";
   "https://www.nist.gov/aisi";
   "https://ised-isde.canada.ca/site/ised/en/canadian-artificial-intelligence-safety-institute";
   "https://www.apolloresearch.ai";
   "https://www.anthropic.com";
   "https://deepmind.google";
   "https://www.cser.ac.uk";
   "https://humancompatible.ai"].

(** [s.lower()] on the characters below 256: the ASCII capitals and the
    capitals U+00C0..U+00DE, the multiplication sign apart. *)
Definition lower_char (c : ascii) : ascii :=
  let n := N_of_ascii c in
  if ((65 <=? n) && (n <=? 90)
      || (192 <=? n) && (n <=? 222) && negb (n =? 215))%N
  then ascii_of_N (n + 32) else c.

Fixpoint lower (s : string) : string :=
  match s with
  | EmptyString => EmptyString
  | String c s' => String (lower_char c) (lower s')
  end.

(** The main block: the websites scraped for the command line, its first
    argument given or not; [None] is [sys.exit(1)]. *)
Definition chosen_websites (argument : option string) : option (list string) :=
  match argument with
  | None => Some default_websites
  | Some argument =>
      let website := lower argument in
      if contains "metr" website then Some ["https://metr.org"]
      else if contains "aisi" website && negb (contains "nist" website)
              && negb (contains "canada" website)
      then Some ["https://www.aisi.gov.uk"]
      else if contains "lakera" website then Some ["https://www.lakera.ai"]
      else if contains "nist" website then Some ["https://www.nist.gov/aisi"]
      else if contains "canada" website || contains "ised" website
      then Some ["https://ised-isde.canada.ca/site/ised/en/canadian-artificial-intelligence-safety-institute"]
      else if contains "apollo" website
      then Some ["https://www.apolloresearch.ai"]
      else if contains "anthropic" website
      then Some ["https://www.anthropic.com"]
      else if contains "deepmind" website then Some ["https://deepmind.google"]
      else if contains "cser" website then Some ["https://www.cser.ac.uk"]
      else if contains "chai" website then Some ["https://humancompatible.ai"]
      else None
  end.

(** [s.split(sep)] for a separator that is not empty: the occurrences are
    taken from left to right, without overlap; [skip] counts the characters
    of a matched separator still to be dropped. *)
Fixpoint split_from (sep : string) (skip : nat) (s : string) : list string :=
  match s with
  | EmptyString => [EmptyString]
  | String c s' =>
      match skip with
      | S k => split_from sep k s'
      | O =>
          if String.prefix sep s
          then EmptyString :: split_from sep (String.length sep - 1) s'
          else match split_from sep 0 s' with
               | w :: ws => String c w :: ws
               | [] => [String c EmptyString]
               end
      end
  end.

Definition split_str (sep s : string) : list string := split_from sep 0 s.

(** [save_to_json(filename=None)]: the name of the file.  [None] is the
    [IndexError] of [split('//')[1]]. *)
Definition default_filename (base_url : string) : option string :=
  second ← split_str "//" base_url !! 1%nat;
  domain ← head (split_char "/" second);
  Some (replace "." "_" domain +:+ "_data.json").

(** [filter_json(source)]: the input file, the output file and the
    publisher whose document is filtered; an unknown source raises
    [ValueError] before any file is opened. *)
Definition filter_json_files (source : string)
  : outcome (string * string * adapter) :=
  let source := lower source in
  if String.eqb source "anthropic"
  then Return ("www_anthropic_com_data.json",
               "www_anthropic_com_data_filtered.json", Anthropic)
  else if String.eqb source "deepmind"
  then Return ("deepmind_google_data.json",
               "deepmind_google_data_filtered.json", DeepMind)
  else if String.eqb source "cser"
  then Return ("www_cser_ac_uk_data.json",
               "www_cser_ac_uk_data_filtered.json", CSER)
  else if String.eqb source "chai"
  then Return ("humancompatible_ai_data.json",
               "humancompatible_ai_data_filtered.json", CHAI)
  else Raise ValueError.

(** [input_file] of the main block of [split_json.py] *)
Definition split_json_input : string := "www_lakera_ai_data.json".

End Registry.

(** ** [MetrScraper]: the page scrapers, the listing page and the crawl *)

Module MetrCrawl.
Import PyStr PyOutcome Adapters Dom Normalizer Session.

Definition heading_tags : list string :=
  ["h1"; "h2"; "h3"; "h4"; "h5"; "h6"].

(** The test of the parser for [class_=cls]: one of the classes of the
    element is [cls], or its classes joined by a space are [cls]. *)
Definition class_matches (cls : string) (e : element) : bool :=
  match get "class" e with
  | Some (AttrList tokens) =>
      Url.mem_str cls tokens || String.eqb (join " " tokens) cls
  | Some (AttrStr s) => String.eqb s cls
  | None => false
  end.

(** [soup.find(name, class_=cls)] *)
Definition find_class (nm cls : string) (e : element) : option element :=
  head (filter (fun d => class_matches cls d) (find_all [nm] e)).

(** The record of the home page and of the about page.  The field
    [timestamp], read from the clock, is left out. *)
Record page : Type := Page {
  page_url : string;
  page_headings : list string;
  page_content : string }.

(** The lines of [scrape_home_page] and of [scrape_about_page] that follow
    the fetch. *)
Definition page_of (url : string) (soup : element) : outcome page :=
  let headings := map get_text_strip (find_all heading_tags soup) in
  match find_class "div" "content" soup with
  | Some main_content =>
      content ← MetrContent.scrape_home_page_content (base_url Metr)
                  main_content;
      Return (Page url headings content)
  | None => Return (Page url headings "")
  end.

(** [urljoin(self.base_url, '/about')] and [urljoin(self.base_url, '/blog')] *)
Definition about_url : string := "https://metr.org/about".
Definition blog_url : string := "https://metr.org/blog".

(** The loop of [scrape_blog_posts] over the links of the listing page;
    [blog_links] is the set built so far. *)
Fixpoint collect_links (links : list element) (blog_links : gset string)
  : outcome (gset string) :=
  match links with
  | [] => Return blog_links
  | link :: rest =>
      let href := get "href" link in
      if truthy href then
        match href with
        | Some (AttrStr h) =>
            match Url.urljoin (base_url Metr) h with
            | Some full_url =>
                collect_links rest
                  (if is_blog_post_url Metr full_url
                   then {[full_url]} ∪ blog_links else blog_links)
            | None => Raise ValueError
            end
        | _ => Raise TypeError
        end
      else collect_links rest blog_links
  end.

(** A URL that a link of a list points to: its [href], not empty, joined
    to the base URL. *)
Definition linked (links : list element) (url : string) : Prop :=
  exists link h,
    link ∈ links /\ get "href" link = Some (AttrStr h) /\ h <> "" /\
    Url.urljoin (base_url Metr) h = Some url.

(** What [scrape_all] hands to [save_to_json]. *)
Record data {record : Type} : Type := Data {
  home : option page;
  about : option page;
  blog_posts : list record }.
Arguments data : clear implicits.

Section Crawl.

Context {record : Type}.

(** The network and the extraction of a blog post, as in the session; a
    parsed page is the element at its root. *)
Variable respond : list string -> string -> option element.
Variable extract : adapter -> string -> element -> outcome (option record).

(** The order in which [for url in blog_links] runs through the set. *)
Variable order : gset string -> list string.

(** [scrape_home_page] and [scrape_about_page], the URL apart *)
Definition scrape_page (url : string) (s : @session record)
  : outcome (option page) * @session record :=
  let '(soup, s) := get_page respond s url in
  match soup with
  | None => (Return None, s)
  | Some soup => (page ← page_of url soup; Return (Some page), s)
  end.

Definition scrape_home_page (s : @session record)
  : outcome (option page) * @session record :=
  scrape_page (base_url Metr) s.

Definition scrape_about_page (s : @session record)
  : outcome (option page) * @session record :=
  scrape_page about_url s.

(** [scrape_blog_posts] *)
Definition scrape_blog_posts (s : @session record)
  : outcome unit * @session record :=
  let '(soup, s) := get_page respond s blog_url in
  match soup with
  | None => (Return (), s)
  | Some soup =>
      match collect_links (find_all ["a"] soup) ∅ with
      | Raise e => (Raise e, s)
      | Return blog_links =>
          scrape_each respond extract Metr s (order blog_links)
      end
  end.

(** [scrape_all]: the result [Return] is the document [save_to_json]
    writes; an exception leaves before anything is written. *)
Definition scrape_all (s : @session record)
  : outcome (data record) * @session record :=
  let '(home, s) := scrape_home_page s in
  match home with
  | Raise e => (Raise e, s)
  | Return home =>
      let '(about, s) := scrape_about_page s in
      match about with
      | Raise e => (Raise e, s)
      | Return about =>
          let '(done, s) := scrape_blog_posts s in
          match done with
          | Raise e => (Raise e, s)
          | Return _ => (Return (Data record home about (posts s)), s)
          end
      end
  end.

End Crawl.

(** Whether [scrape_blog_post] of an adapter goes on with a URL that is
    new. *)
Definition passes (a : adapter) (url : string) : bool :=
  negb (checks_url a) || is_blog_post_url a url.

End MetrCrawl.

From stdpp Require pretty.

(** ** [split_json.py]: the names of the files written *)

Module SplitNames.
Import stdpp.pretty.
Import PyStr PyOutcome Json SplitJson.

(** [p.rfind(c)] for a character [c]: the index of its last occurrence,
    [-1] when there is none; [i] is the index of the first character of
    [s], [last] what was found before it. *)
Fixpoint rfind_from (c : ascii) (s : string) (i last : Z) : Z :=
  match s with
  | EmptyString => last
  | String d s' =>
      rfind_from c s' (i + 1) (if Ascii.eqb d c then i else last)
  end.

Definition rfind (c : ascii) (s : string) : Z := rfind_from c s 0 (-1).

(** [os.path.splitext(p)] of [posixpath]: the extension starts at the
    last dot, when that dot lies after the last slash and after a
    character of the file name that is not a dot. *)
Definition splitext (p : string) : string * string :=
  let sepIndex := rfind "/" p in
  let dotIndex := rfind "." p in
  if (sepIndex <? dotIndex)%Z
     && negb (Url.all_chars (fun c => Ascii.eqb c ".")
                (substring (Z.to_nat (sepIndex + 1))
                           (Z.to_nat (dotIndex - (sepIndex + 1))) p))
  then (take (Z.to_nat dotIndex) p, drop (Z.to_nat dotIndex) p)
  else (p, EmptyString).

(** [output_file] in the iteration [i] of the loop; [pretty] is [str]. *)
Definition output_file (input_file : string) (i : nat) : string :=
  (splitext input_file).1 +:+ "_part" +:+ pretty (i + 1)%nat +:+ ".json".

(** The files the loop writes, each with its document, in the order of
    the loop. *)
Definition written_files (input_file : string) (data : json)
    (num_parts : Z) : outcome (list (string * json)) :=
  parts ← split_json_file data num_parts;
  Return (zip (output_file input_file <$> seq 0 (length parts)) parts).

End SplitNames.

(** ** [LakeraScraper.scrape_blog_posts]: the pages of the listing *)

Module LakeraCrawl.
Import stdpp.pretty.
Import PyStr PyOutcome Adapters Dom Normalizer Session.

(** [urljoin(self.base_url, '/blog')] *)
Definition blog_url : string := "https://www.lakera.ai/blog".

(** [page_url]; [pretty page] is [str(page)], the decimal digits of the
    number. *)
Definition page_url (page : nat) : string :=
  if (page =? 1)%nat then blog_url
  else blog_url +:+ "?665a46a9_page=" +:+ pretty page.

(** The test of the parser for an attribute and a string: the value is
    the string; for a value that is a list, one of its items is the
    string, or its items joined by a space are. *)
Definition attr_matches (key want : string) (e : element) : bool :=
  match get key e with
  | Some (AttrList tokens) =>
      Url.mem_str want tokens || String.eqb (join " " tokens) want
  | Some (AttrStr s) => String.eqb s want
  | None => false
  end.

(** [soup.find_all('div', {'role': 'listitem', 'class': 'w-dyn-item'})] *)
Definition blog_items (soup : element) : list element :=
  filter (fun d => attr_matches "role" "listitem" d
                   && attr_matches "class" "w-dyn-item" d)
         (find_all ["div"] soup).

(** [item.find('a', class_='blog_main-title-link')] *)
Definition title_link (item : element) : option element :=
  head (filter (fun d => attr_matches "class" "blog_main-title-link" d)
               (find_all ["a"] item)).

(** [soup.find('a', {'aria-label': 'Next Page'})] *)
Definition next_button (soup : element) : option element :=
  head (filter (fun d => attr_matches "aria-label" "Next Page" d)
               (find_all ["a"] soup)).

(** The loop over the items of a page; [blog_links] is the set built so
    far. *)
Fixpoint collect_items (items : list element) (blog_links : gset string)
  : outcome (gset string) :=
  match items with
  | [] => Return blog_links
  | item :: rest =>
      match title_link item with
      | Some link =>
          let href := get "href" link in
          if truthy href then
            match href with
            | Some (AttrStr h) =>
                match Url.urljoin (base_url Lakera) h with
                | Some full_url =>
                    collect_items rest
                      (if is_blog_post_url Lakera full_url
                       then {[full_url]} ∪ blog_links else blog_links)
                | None => Raise ValueError
                end
            | _ => Raise TypeError
            end
          else collect_items rest blog_links
      | None => collect_items rest blog_links
      end
  end.

(** [found_posts] after the loop over the items *)
Definition found_posts (soup : element) : bool :=
  match blog_items soup with [] => false | _ :: _ => true end.

(** Whether the [while] loop is left after the answer to the request of
    a page: the request failed, the loop over the items raised, the page
    has no item, or it has no button for the next page. *)
Definition ends_here (answer : option element) : bool :=
  match answer with
  | None => true
  | Some soup =>
      match collect_items (blog_items soup) ∅ with
      | Raise _ => true
      | Return _ =>
          negb (found_posts soup)
          || match next_button soup with None => true | Some _ => false end
      end
  end.

Section Crawl.

Context {record : Type}.
Variable respond : list string -> string -> option element.
Variable extract : adapter -> string -> element -> outcome (option record).
Variable order : gset string -> list string.

(** The loop [while True] of [scrape_blog_posts], run for at most [fuel]
    pages from page [page] on; [None] when the pages allowed are used up
    and the loop goes on. *)
Fixpoint scan_pages (fuel page : nat) (blog_links : gset string)
    (s : @session record)
  : option (outcome (gset string) * @session record) :=
  match fuel with
  | O => None
  | S fuel =>
      let '(soup, s) := get_page respond s (page_url page) in
      match soup with
      | None => Some (Return blog_links, s)
      | Some soup =>
          match collect_items (blog_items soup) blog_links with
          | Raise e => Some (Raise e, s)
          | Return blog_links =>
              if negb (found_posts soup) then Some (Return blog_links, s)
              else
                match next_button soup with
                | None => Some (Return blog_links, s)
                | Some _ => scan_pages fuel (S page) blog_links s
                end
          end
      end
  end.

(** [scrape_blog_posts], with the same bound on the pages *)
Definition scrape_blog_posts (fuel : nat) (s : @session record)
  : option (outcome unit * @session record) :=
  match scan_pages fuel 1 ∅ s with
  | None => None
  | Some (Raise e, s) => Some (Raise e, s)
  | Some (Return blog_links, s) =>
      Some (scrape_each respond extract Lakera s (order blog_links))
  end.

End Crawl.

End LakeraCrawl.

(** ** Sample sites *)

Module CrawlSamples.
Import PyStr PyOutcome Adapters Dom.

Definition anchor (href text : string) : node :=
  Elem "a" [("href", AttrStr href)] [Text text].

(** The listing page of a small site: two posts, one of them linked
    twice, a link to the listing itself and a link to the about page. *)
Definition listing_page : element :=
  Element "[document]" []
    [Elem "div" [("class", AttrList ["content"])]
       [anchor "/blog/2024-a/" "A"; anchor "/blog/2024-b/" "B";
        anchor "https://metr.org/blog/2024-a/" "A again";
        anchor "/blog" "All posts"; anchor "/about" "About"]].

Definition plain_page (text : string) : element :=
  Element "[document]" []
    [Elem "h1" [] [Text text];
     Elem "div" [("class", AttrList ["content"])] [Samples.paragraph text]].

(** A site that answers every request: the listing page for the listing
    URL, a plain page for the others. *)
Definition metr_site : list string -> string -> option element :=
  fun _ url =>
    if String.eqb url MetrCrawl.blog_url then Some listing_page
    else Some (plain_page url).

(** The same site with a home page that holds a blank quote. *)
Definition metr_site_blank_quote : list string -> string -> option element :=
  fun _ url =>
    if String.eqb url (base_url Metr)
    then Some (Element "[document]" [] [Dom.to_node Samples.blank_quote])
    else metr_site [] url.

Definition url_of_post
  : adapter -> string -> element -> outcome (option string) :=
  fun _ url _ => Return (Some url).

(** A listing of three pages with one post each, and a listing whose
    every page has a post and a button for the next page. *)
Definition lakera_item (href : string) : node :=
  Elem "div" [("role", AttrStr "listitem"); ("class", AttrList ["w-dyn-item"])]
    [Elem "a" [("class", AttrList ["blog_main-title-link"]);
               ("href", AttrStr href)] [Text "Post"]].

Definition next_page_button : node :=
  Elem "a" [("aria-label", AttrStr "Next Page"); ("href", AttrStr "?next")]
    [Text "Next"].

Definition lakera_page (href : string) (more : bool) : element :=
  Element "[document]" []
    (lakera_item href :: if more then [next_page_button] else []).

Definition lakera_three_pages : string -> option element :=
  fun url =>
    if String.eqb url (LakeraCrawl.page_url 1)
    then Some (lakera_page "/blog/one" true)
    else if String.eqb url (LakeraCrawl.page_url 2)
    then Some (lakera_page "/blog/two" true)
    else if String.eqb url (LakeraCrawl.page_url 3)
    then Some (lakera_page "/blog/three" false)
    else None.

Definition lakera_endless : string -> option element :=
  fun _ => Some (lakera_page "/blog/one" true).

(** An extraction that raises on the second of three posts. *)
Definition three_posts : list string :=
  ["https://metr.org/blog/2024-a/"; "https://metr.org/blog/2024-b/";
   "https://metr.org/blog/2024-c/"].

Definition second_post_raises
  : adapter -> string -> unit -> outcome (option string) :=
  fun _ url _ =>
    if String.eqb url "https://metr.org/blog/2024-b/" then Raise TypeError
    else Return (Some url).

End CrawlSamples.

(* ===================================================================== *)
(** * Part II: lemmas and theorems *)
(* ===================================================================== *)

(** ** Strings *)

Module PyStrFacts.
Import PyStr.

Lemma prefix_app (p s : string) : String.prefix p (p +:+ s) = true.
Proof.
  induction p as [|c p IH]; simpl.
  - by destruct s.
  - destruct (ascii_dec c c) as [_|Hne]; [exact IH | by destruct Hne].
Qed.

Lemma contains_unfold (sub s : string) :
  contains sub s =
  String.prefix sub s
  || match s with
     | EmptyString => false
     | String _ s' => contains sub s'
     end.
Proof. by destruct s. Qed.

Lemma contains_here (sub s : string) : contains sub (sub +:+ s) = true.
Proof. rewrite contains_unfold, prefix_app. reflexivity. Qed.


Lemma append_assoc (a b c : string) : (a +:+ b) +:+ c = a +:+ b +:+ c.
Proof.
  induction a as [|x a IH]; [reflexivity|].
  change (String x ((a +:+ b) +:+ c) = String x (a +:+ b +:+ c)).
  by f_equal.
Qed.

Lemma prefix_drop (p s : string) :
  String.prefix p s = true -> s = p +:+ drop (String.length p) s.
Proof.
  revert s. induction p as [|c p IH]; intros s H; simpl.
  - by destruct s.
  - destruct s as [|d s]; simpl in H; [discriminate H|].
    destruct (ascii_dec c d) as [->|]; [|discriminate H].
    change (String d s = String d (p +:+ drop (String.length p) s)).
    f_equal. by apply IH.
Qed.

Lemma append_cons (c : ascii) (a b : string) :
  String c a +:+ b = String c (a +:+ b).
Proof. reflexivity. Qed.

Lemma append_nil (b : string) : "" +:+ b = b.
Proof. reflexivity. Qed.

Lemma length_app (a b : string) :
  String.length (a +:+ b) = (String.length a + String.length b)%nat.
Proof.
  induction a as [|c a IH]; [reflexivity|].
  rewrite append_cons. simpl. by rewrite IH.
Qed.

Lemma drop_app (a b : string) : drop (String.length a) (a +:+ b) = b.
Proof.
  induction a as [|c a IH]; [by destruct b|]. by rewrite append_cons.
Qed.




Lemma all_chars_app (p : ascii -> bool) (a b : string) :
  Url.all_chars p (a +:+ b) = Url.all_chars p a && Url.all_chars p b.
Proof.
  induction a as [|d a IH]; [reflexivity|].
  rewrite append_cons. simpl. by rewrite IH, andb_assoc.
Qed.

(** *** Reversal, and stripping at the end *)








(** *** Prefixes *)





(** *** Splitting at a character *)





(** *** Directories: the texts between two slashes *)



End PyStrFacts.

(** ** [urljoin] on sample inputs, as CPython answers them *)

Module UrlFacts.
Import PyStr Url.

Lemma urljoin_samples :
  urljoin "https://x.org/blog/" "../about" = Some "https://x.org/about" /\
  urljoin "https://metr.org" "/blog" = Some "https://metr.org/blog" /\
  urljoin "https://metr.org" "about" = Some "https://metr.org/about" /\
  urljoin "https://www.nist.gov/aisi" "news/x"
  = Some "https://www.nist.gov/news/x" /\
  urljoin "https://metr.org/a/b/c?x#y" "../d;p?q#f"
  = Some "https://metr.org/a/d;p?q#f" /\
  urljoin "https://metr.org/a/b" "http://z.com/x" = Some "http://z.com/x" /\
  urljoin "https://metr.org/a/b" "//z.com/x" = Some "https://z.com/x" /\
  urljoin "https://metr.org/a/b" "mailto:x@y" = Some "mailto:x@y" /\
  urljoin "https://metr.org/a/b" "#top" = Some "https://metr.org/a/b#top" /\
  urljoin "https://metr.org/a/b" "?q=1" = Some "https://metr.org/a/b?q=1" /\
  urljoin "https://metr.org/a/b/" "./.." = Some "https://metr.org/a/" /\
  urljoin "https://metr.org/a/b/" "x//y/../../../../z"
  = Some "https://metr.org/z" /\
  urljoin "https://humancompatible.ai" "/research"
  = Some Session.chai_research_url /\
  urljoin "https://humancompatible.ai" "/progress-report/"
  = Some Session.chai_progress_url /\
  urljoin "https://www.cser.ac.uk"
    "/research/risks-from-artificial-intelligence/"
  = Some Samples.cser_research_url.
Proof. repeat split; by vm_compute. Qed.

(** Hosts between square brackets, as CPython answers them: an IPv6 or
    IPvFuture address is accepted, anything else raises.  A host with
    characters beyond ASCII is accepted. *)
Lemma urljoin_host_samples :
  urljoin "https://metr.org" "//café.example/x"
  = Some "https://café.example/x" /\
  urljoin "https://metr.org" "//[::1]/x" = Some "https://[::1]/x" /\
  urljoin "https://metr.org" "//u@[::ffff:1.2.3.4]:80/p"
  = Some "https://u@[::ffff:1.2.3.4]:80/p" /\
  urljoin "https://metr.org" "//[fe80::1%eth0]/" = Some "https://[fe80::1%eth0]/" /\
  urljoin "https://metr.org" "//[v1.x]/" = Some "https://[v1.x]/" /\
  urljoin "https://metr.org" "//[x" = None /\
  urljoin "https://metr.org" "//x]" = None /\
  urljoin "https://metr.org" "//[x]/y" = None /\
  urljoin "https://metr.org" "//[1.2.3.4]/" = None /\
  urljoin "https://metr.org" "//a[::1]/" = None /\
  urljoin "https://metr.org" "//[::1]x/" = None /\
  urljoin "https://[x" "about" = None.
Proof. repeat split; by vm_compute. Qed.

(** *** Without square brackets [urljoin] returns *)













End UrlFacts.

(** ** The adapters' URL predicates *)

Module AdapterFacts.
Import PyStr PyStrFacts Adapters Sites.



(** *** Paths and their URLs *)






















(** *** Each adapter on the paths of its site *)












(** *** [replace] and [strip] on the URL of a path *)




















End AdapterFacts.

(** ** The crawl session *)

Module SessionFacts.
Import PyStr PyOutcome Adapters Session.

Lemma chai_research_dispatch : contains "research" chai_research_url = true.
Proof. reflexivity. Qed.

Lemma chai_progress_dispatch :
  contains "research" chai_progress_url = false /\
  contains "progress-report" chai_progress_url = true.
Proof. split; reflexivity. Qed.

Section Facts.

Context {document record : Type}.
Variable respond : list string -> string -> option document.
Variable extract : adapter -> string -> document -> outcome (option record).

Abbreviation post := (scrape_blog_post respond extract).
Abbreviation each := (scrape_each respond extract).
Abbreviation worked := (marked_and_fetched respond extract).
Abbreviation session := (@session record).

Lemma fetch_and_extract_mark (a : adapter) (s : session) (url : string) :
  fetch_and_extract respond extract a (mark s url) url = worked a s url.
Proof.
  unfold fetch_and_extract, get_page, mark, marked_and_fetched. simpl.
  by destruct (respond (requests s) url).
Qed.

Ltac open_post :=
  unfold scrape_blog_post, scrape_article, checked_post, unchecked_post,
    scrape_research_page, scrape_progress_report.

(** A visited URL: nothing happens. *)
Lemma post_visited (a : adapter) (s : session) (url : string) :
  url ∈ scraped_urls s -> post a s url = (Return None, s).
Proof.
  intros Hin. destruct a; open_post; by rewrite bool_decide_true.
Qed.

(** A URL the predicate turns down, for the adapters that ask it. *)
Lemma post_rejected (a : adapter) (s : session) (url : string) :
  checks_url a = true -> is_blog_post_url a url = false ->
  post a s url = (Return None, s).
Proof.
  intros Hc Hr. destruct a; try discriminate Hc; open_post;
    rewrite Hr; by case_bool_decide.
Qed.

(** A new URL that passes the test, where there is one. *)
Lemma post_fresh (a : adapter) (s : session) (url : string) :
  discovered a url ->
  url ∉ scraped_urls s ->
  (checks_url a = true -> is_blog_post_url a url = true) ->
  post a s url = worked a s url.
Proof.
  intros Hd Hnew Hok.
  destruct a; open_post; rewrite bool_decide_false by done;
    try (rewrite (Hok eq_refl); simpl);
    try apply fetch_and_extract_mark.
  destruct Hd as [-> | ->].
  - rewrite chai_research_dispatch. apply fetch_and_extract_mark.
  - destruct chai_progress_dispatch as [-> ->].
    apply fetch_and_extract_mark.
Qed.

(** The adapters without the test work on any new URL. *)
Lemma post_fresh_unchecked (a : adapter) (s : session) (url : string) :
  a ∈ [Aisi; Anthropic; CSER] ->
  url ∉ scraped_urls s ->
  post a s url = worked a s url.
Proof.
  intros Ha Hnew.
  assert (Hd : discovered a url /\ checks_url a = false).
  { repeat (apply elem_of_cons in Ha as [->|Ha]; [by split|]).
    by apply elem_of_nil in Ha. }
  destruct Hd as [Hd Hc]. apply post_fresh; [done..|].
  rewrite Hc. discriminate.
Qed.

(** CHAI marks every new URL. *)
Lemma post_chai_marks (s : session) (url : string) :
  url ∉ scraped_urls s ->
  scraped_urls (post CHAI s url).2 = {[url]} ∪ scraped_urls s.
Proof.
  intros Hnew. open_post. rewrite bool_decide_false by done.
  unfold fetch_and_extract, get_page, mark. simpl.
  destruct (contains "research" url); simpl.
  - by destruct (respond _ _).
  - destruct (contains "progress-report" url); simpl; [|done].
    by destruct (respond _ _).
Qed.

Lemma discovered_unless_chai (a : adapter) (url : string) :
  a <> CHAI -> discovered a url.
Proof. by destruct a. Qed.

(** One call on a discovered URL: it changes nothing, or it works. *)
Lemma post_cases (a : adapter) (s : session) (url : string) :
  discovered a url ->
  post a s url = (Return None, s) \/
  ((url ∉ scraped_urls s) /\ post a s url = worked a s url).
Proof.
  intros Hd.
  destruct (decide (url ∈ scraped_urls s)) as [Hin|Hnew].
  { left. by apply post_visited. }
  destruct (checks_url a) eqn:Hc.
  - destruct (is_blog_post_url a url) eqn:Hu.
    + right. split; [done|]. by apply post_fresh.
    + left. by apply post_rejected.
  - right. split; [done|]. apply post_fresh; [done..|].
    rewrite Hc. discriminate.
Qed.

(** The visited set never shrinks. *)
Lemma post_visited_mono (a : adapter) (s : session) (url : string) :
  scraped_urls s ⊆ scraped_urls (post a s url).2.
Proof.
  destruct (decide (url ∈ scraped_urls s)) as [Hin|Hnew].
  { by rewrite post_visited. }
  destruct (decide (a = CHAI)) as [->|Hne].
  { rewrite post_chai_marks by done. set_solver. }
  destruct (post_cases a s url (discovered_unless_chai a url Hne))
    as [-> | [_ ->]]; simpl; set_solver.
Qed.

Lemma step_visited_mono (a : adapter) (s s' : session) :
  step respond extract a s s' -> scraped_urls s ⊆ scraped_urls s'.
Proof.
  intros [s0 url | s0 url].
  - apply post_visited_mono.
  - done.
Qed.

Lemma steps_visited_mono (a : adapter) (s s' : session) :
  rtc (step respond extract a) s s' -> scraped_urls s ⊆ scraped_urls s'.
Proof.
  induction 1 as [|s1 s2 s3 Hstep _ IH]; [done|].
  apply step_visited_mono in Hstep. set_solver.
Qed.

Lemma append_post_visited (s : session) (p : option record) :
  scraped_urls (append_post s p) = scraped_urls s /\
  requests (append_post s p) = requests s.
Proof. by destruct p. Qed.

(** The loop over the discovered URLs: the requests it adds are distinct,
    come from the list, were not visited before and are visited after. *)
Lemma scrape_each_requests (a : adapter) (urls : list string) :
  Forall (discovered a) urls ->
  forall s : session,
  exists fetched,
    requests (each a s urls).2 = requests s ++ fetched /\
    NoDup fetched /\
    scraped_urls s ⊆ scraped_urls (each a s urls).2 /\
    forall u, u ∈ fetched ->
              u ∈ urls /\ (u ∉ scraped_urls s)
              /\ u ∈ scraped_urls (each a s urls).2.
Proof.
  induction 1 as [|url urls Hd _ IH]; intros s.
  { exists []. simpl. rewrite app_nil_r.
    repeat split; [constructor | done | set_solver..]. }
  simpl.
  destruct (post_cases a s url Hd) as [Hsame | [Hnew Hwork]].
  - rewrite Hsame. simpl.
    destruct (IH s) as (f & Hreq & Hnd & Hsub & Hf).
    exists f. repeat split; try done; set_solver.
  - rewrite Hwork. unfold marked_and_fetched.
    destruct (match respond (requests s) url with
              | Some page => extract a url page
              | None => Return None
              end) as [e | p].
    + exists [url]. simpl.
      repeat split; [apply NoDup_singleton | set_solver..].
    + match goal with
      | |- context [each a ?s1 urls] =>
          destruct (IH s1) as (f & Hreq & Hnd & Hsub & Hf);
          destruct (append_post_visited
                      {| scraped_urls := {[url]} ∪ scraped_urls s;
                         requests := requests s ++ [url];
                         posts := posts s |} p) as [Hv Hr]
      end.
      rewrite Hv in Hsub, Hf. rewrite Hr in Hreq. simpl in *.
      exists (url :: f). rewrite Hreq, <- app_assoc. simpl.
      split; [done|]. split.
      { constructor; [|done]. intros Hin.
        destruct (Hf _ Hin) as (_ & Hnot & _). set_solver. }
      split; [set_solver|].
      intros u [->|Hin]%elem_of_cons.
      * set_solver.
      * destruct (Hf _ Hin) as (? & ? & ?). set_solver.
Qed.

(** C1.  Within one session, whatever the sequence of discovered URLs
    and however often a URL occurs in it, the loop over the sequence
    requests no URL twice: the requests it adds are pairwise distinct,
    are URLs of the sequence and were not visited before; from a new
    session the whole log is free of duplicates.  A URL of the visited
    set is never requested again: the call returns [None] and leaves the
    session as it is. *)
Theorem content_page_fetched_at_most_once
    (a : adapter) (urls : list string) (s0 : session) :
  Forall (discovered a) urls ->
  (exists fetched,
     requests (each a s0 urls).2 = requests s0 ++ fetched /\
     NoDup fetched /\
     forall u, u ∈ fetched -> u ∈ urls /\ (u ∉ scraped_urls s0)) /\
  NoDup (requests (each a init urls).2) /\
  (forall (s : session) u,
     u ∈ scraped_urls s -> post a s u = (Return None, s)).
Proof.
  intros Hd. split; [|split].
  - destruct (scrape_each_requests a urls Hd s0)
      as (f & Hreq & Hnd & _ & Hf).
    exists f. split; [done|]. split; [done|].
    intros u Hin. destruct (Hf u Hin) as (? & ? & _). done.
  - destruct (scrape_each_requests a urls Hd init)
      as (f & Hreq & Hnd & _). by rewrite Hreq.
  - intros s u. apply post_visited.
Qed.

(** C2, as the code has it.  For every adapter and URL, the call returns
    [None] and leaves the session untouched when the URL is in the
    visited set, and, for the adapters that ask [is_blog_post_url]
    (Metr, Lakera, NistAisi, CanadianAisi, Apollo, DeepMind), when the
    predicate turns the URL down.  Otherwise these adapters mark the
    URL, fetch it and extract the record.  Aisi, Anthropic and CSER do
    not ask the predicate: they mark, fetch and extract every URL that
    is new.  CHAI marks every new URL. *)
Theorem scrape_blog_post_guards (a : adapter) (s : session) (url : string) :
  (url ∈ scraped_urls s -> post a s url = (Return None, s)) /\
  (checks_url a = true -> is_blog_post_url a url = false ->
   post a s url = (Return None, s)) /\
  (checks_url a = true -> (url ∉ scraped_urls s) ->
   is_blog_post_url a url = true ->
   post a s url = worked a s url) /\
  (a ∈ [Aisi; Anthropic; CSER] -> (url ∉ scraped_urls s) ->
   post a s url = worked a s url) /\
  ((url ∉ scraped_urls s) ->
   scraped_urls (post CHAI s url).2 = {[url]} ∪ scraped_urls s).
Proof.
  split; [apply post_visited|].
  split; [apply post_rejected|].
  split; [|split; [apply post_fresh_unchecked | apply post_chai_marks]].
  intros Hc Hnew Hok. apply post_fresh; [|done..].
  apply discovered_unless_chai. by intros ->.
Qed.

(** C9.  When the fetch of a content URL fails, the URL has been put in
    the visited set before the request, the call returns [None], and no
    later call on that URL in the session, whatever happened in
    between, requests it again: it returns [None] and leaves the session
    as it is. *)
Theorem failed_fetch_never_retried
    (a : adapter) (s : session) (url : string) :
  discovered a url ->
  (url ∉ scraped_urls s) ->
  (checks_url a = true -> is_blog_post_url a url = true) ->
  respond (requests s) url = None ->
  (post a s url).1 = Return None /\
  requests (post a s url).2 = requests s ++ [url] /\
  url ∈ scraped_urls (post a s url).2 /\
  forall s2 : session,
    rtc (step respond extract a) (post a s url).2 s2 ->
    post a s2 url = (Return None, s2).
Proof.
  intros Hd Hnew Hok Hfail.
  rewrite (post_fresh a s url Hd Hnew Hok).
  unfold marked_and_fetched. rewrite Hfail. simpl.
  split; [done|]. split; [done|]. split; [set_solver|].
  intros s2 Hsteps. apply post_visited.
  apply steps_visited_mono in Hsteps. simpl in Hsteps. set_solver.
Qed.

End Facts.

Import Samples.

(** The witness of C1: three links of a Metr listing page, one of them
    twice, in a new session. *)
Lemma content_page_fetched_at_most_once_witness :
  Forall (discovered Metr) metr_links /\
  NoDup (requests (scrape_each network_up url_record Metr init metr_links).2).
Proof.
  assert (H : Forall (discovered Metr) metr_links)
    by (repeat constructor).
  split; [exact H|].
  exact (proj1 (proj2 (content_page_fetched_at_most_once
                         network_up url_record Metr metr_links init H))).
Defined.

(** The witness of C2: a Metr post URL in a new session. *)
Lemma scrape_blog_post_guards_witness :
  checks_url Metr = true /\
  ("https://metr.org/blog/2024-a/" ∉ scraped_urls (@init string)) /\
  is_blog_post_url Metr "https://metr.org/blog/2024-a/" = true /\
  scrape_blog_post network_up url_record Metr init
    "https://metr.org/blog/2024-a/"
  = marked_and_fetched network_up url_record Metr init
      "https://metr.org/blog/2024-a/".
Proof.
  assert (Hc : checks_url Metr = true) by reflexivity.
  assert (Hn : "https://metr.org/blog/2024-a/" ∉ scraped_urls (@init string))
    by (simpl; apply not_elem_of_empty).
  assert (Hu : is_blog_post_url Metr "https://metr.org/blog/2024-a/" = true)
    by (vm_compute; reflexivity).
  split; [exact Hc|]. split; [exact Hn|]. split; [exact Hu|].
  exact (proj1 (proj2 (proj2 (scrape_blog_post_guards
                                network_up url_record Metr init
                                "https://metr.org/blog/2024-a/")))
           Hc Hn Hu).
Defined.

(** C2 as stated fails: CSER's own list of resources holds a URL that
    [is_blog_post_url] turns down; in a new session [scrape_blog_post]
    marks it, requests it and returns its record. *)
Lemma rejected_url_is_fetched :
  is_blog_post_url CSER cser_research_url = false /\
  (scrape_blog_post network_up url_record CSER init cser_research_url).1
  = Return (Some cser_research_url) /\
  requests
    (scrape_blog_post network_up url_record CSER init cser_research_url).2
  = [cser_research_url] /\
  cser_research_url ∈ scraped_urls
    (scrape_blog_post network_up url_record CSER init cser_research_url).2.
Proof.
  split; [by vm_compute|].
  rewrite (post_fresh_unchecked network_up url_record CSER init
             cser_research_url).
  - simpl. split; [done|]. split; [done|]. set_solver.
  - apply list_elem_of_In. simpl. auto.
  - simpl. apply not_elem_of_empty.
Qed.

(** The witness of C9: the network is down when a Metr post is asked
    for. *)
Lemma failed_fetch_never_retried_witness :
  discovered Metr "https://metr.org/blog/2024-a/" /\
  ("https://metr.org/blog/2024-a/" ∉ scraped_urls (@init string)) /\
  network_down (requests (@init string)) "https://metr.org/blog/2024-a/"
  = None /\
  "https://metr.org/blog/2024-a/" ∈ scraped_urls
    (scrape_blog_post network_down url_record Metr init
       "https://metr.org/blog/2024-a/").2.
Proof.
  assert (Hd : discovered Metr "https://metr.org/blog/2024-a/")
    by exact I.
  assert (Hn : "https://metr.org/blog/2024-a/" ∉ scraped_urls (@init string))
    by (simpl; apply not_elem_of_empty).
  assert (Hu : checks_url Metr = true ->
               is_blog_post_url Metr "https://metr.org/blog/2024-a/" = true)
    by (intros _; vm_compute; reflexivity).
  assert (Hf : network_down (requests (@init string))
                 "https://metr.org/blog/2024-a/" = None) by reflexivity.
  split; [exact Hd|]. split; [exact Hn|]. split; [exact Hf|].
  exact (proj1 (proj2 (proj2 (failed_fetch_never_retried
                                network_down url_record Metr init
                                "https://metr.org/blog/2024-a/"
                                Hd Hn Hu Hf)))).
Defined.

(** The limit of C1 and C9 on CHAI: its [scrape_blog_post] requests a
    fixed page chosen by a substring of the URL, so two different URLs
    that no loop of the adapter produces can request one page twice. *)
Remark chai_same_page_for_two_urls :
  requests
    (scrape_each network_up url_record CHAI init
       ["https://humancompatible.ai/research";
        "https://humancompatible.ai/research/"]).2
  = [chai_research_url; chai_research_url].
Proof.
  unfold scrape_each.
  rewrite (post_fresh network_up url_record CHAI init
             "https://humancompatible.ai/research");
    [|by left | simpl; apply not_elem_of_empty | discriminate].
  simpl.
  unfold scrape_blog_post, scrape_research_page, fetch_and_extract,
    get_page, mark. simpl.
  rewrite bool_decide_false; [reflexivity|].
  intros Hin. apply elem_of_union in Hin as [Hin|Hin].
  - apply elem_of_singleton in Hin. discriminate Hin.
  - by apply not_elem_of_empty in Hin.
Qed.

End SessionFacts.

(** ** The content normaliser *)

Module NormalizerFacts.
Import PyStr PyOutcome Dom Normalizer.

Lemma nonempty_true (s : string) : nonempty s = true <-> s <> "".
Proof. destruct s; simpl; split; congruence. Qed.

Lemma nonempty_false (s : string) : nonempty s = false <-> s = "".
Proof. destruct s; simpl; split; congruence. Qed.







Lemma extract_blockquote (base_url : string) ats cs (with_links : bool) :
  extract_text_content base_url (Element "blockquote" ats cs) with_links
  = let text := get_text_strip (Element "blockquote" ats cs) in
    if nonempty text
    then Return (Some ("> " +:+ replace lf (lf +:+ "> ") text))
    else Return None.
Proof. reflexivity. Qed.

Lemma extract_pre (base_url : string) ats cs (with_links : bool) :
  extract_text_content base_url (Element "pre" ats cs) with_links
  = let text := get_text_strip (Element "pre" ats cs) in
    if nonempty text
    then Return (Some ("```" +:+ lf +:+ text +:+ lf +:+ "```"))
    else Return None.
Proof. reflexivity. Qed.

Lemma extract_code (base_url : string) ats cs (with_links : bool) :
  extract_text_content base_url (Element "code" ats cs) with_links
  = let text := get_text_strip (Element "code" ats cs) in
    if nonempty text
    then Return (Some ("```" +:+ lf +:+ text +:+ lf +:+ "```"))
    else Return None.
Proof. reflexivity. Qed.

Lemma quote_or_code_cases (e : element) :
  name_in ["blockquote"; "pre"; "code"] e = true ->
  name e = "blockquote" \/ name e = "pre" \/ name e = "code".
Proof.
  unfold name_in. simpl. rewrite !orb_true_iff, !String.eqb_eq.
  intros [H | [H | [H | H]]]; auto. discriminate H.
Qed.

Lemma empty_quote_or_code (base_url : string) (e : element)
    (with_links : bool) :
  name_in ["blockquote"; "pre"; "code"] e = true ->
  get_text_strip e = "" ->
  extract_text_content base_url e with_links = Return None.
Proof.
  intros Hname Htext.
  destruct e as [nm ats cs].
  destruct (quote_or_code_cases _ Hname) as [H | [H | H]];
    simpl in H; subst nm.
  - rewrite extract_blockquote. simpl. by rewrite Htext.
  - rewrite extract_pre. simpl. by rewrite Htext.
  - rewrite extract_code. simpl. by rewrite Htext.
Qed.

Lemma none_only_from_quote_or_code (base_url : string) (e : element)
    (with_links : bool) :
  extract_text_content base_url e with_links = Return None ->
  name_in ["blockquote"; "pre"; "code"] e = true /\ get_text_strip e = "".
Proof.
  unfold extract_text_content. intros H.
  destruct (String.eqb (name e) "table"); [discriminate H|].
  destruct (name_in ["ul"; "ol"] e); [discriminate H|].
  destruct (String.eqb (name e) "blockquote") eqn:Hq.
  { destruct (nonempty (get_text_strip e)) eqn:Ht; [discriminate H|].
    split; [|by apply nonempty_false].
    unfold name_in. simpl. by rewrite Hq. }
  destruct (name_in ["pre"; "code"] e) eqn:Hp.
  { destruct (nonempty (get_text_strip e)) eqn:Ht; [discriminate H|].
    split; [|by apply nonempty_false].
    unfold name_in in *. simpl in *. rewrite Hp. apply orb_true_r. }
  destruct (String.eqb (name e) "a" && with_links).
  { by destruct (render_link base_url e). }
  destruct (with_links && is_some_element (find "a" e)); [|discriminate H].
  by destruct (link_parts base_url (contents e)).
Qed.

(** C10.  The normaliser returns [None], not a string, exactly on a
    [blockquote], [pre] or [code] element whose stripped text is empty.  A
    caller has to guard the result before it joins: on a page with such
    an element the loop of [scrape_home_page], which does not, raises
    [TypeError], while the loop of [scrape_blog_post], which does, returns
    the content. *)
Theorem normalizer_returns_none
    (base_url : string) (e : element) (with_links : bool) :
  (extract_text_content base_url e with_links = Return None <->
   name_in ["blockquote"; "pre"; "code"] e = true /\ get_text_strip e = "")
  /\
  MetrContent.scrape_home_page_content "https://metr.org" Samples.blank_quote
  = Raise TypeError /\
  MetrContent.scrape_blog_post_content "https://metr.org" Samples.blank_quote
  = Return "A".
Proof.
  split; [split|].
  - apply none_only_from_quote_or_code.
  - intros [Hname Htext]. by apply empty_quote_or_code.
  - split; by vm_compute.
Qed.

(** The witness of C10: a quote that holds white space only. *)
Lemma normalizer_returns_none_witness :
  name_in ["blockquote"; "pre"; "code"]
    (Element "blockquote" [] [Text "  "]) = true /\
  get_text_strip (Element "blockquote" [] [Text "  "]) = "" /\
  extract_text_content "https://metr.org"
    (Element "blockquote" [] [Text "  "]) true = Return None.
Proof.
  assert (Hn : name_in ["blockquote"; "pre"; "code"]
                 (Element "blockquote" [] [Text "  "]) = true)
    by reflexivity.
  assert (Ht : get_text_strip (Element "blockquote" [] [Text "  "]) = "")
    by (vm_compute; reflexivity).
  split; [exact Hn|]. split; [exact Ht|].
  exact (proj2 (proj1 (normalizer_returns_none "https://metr.org"
                         (Element "blockquote" [] [Text "  "]) true))
           (conj Hn Ht)).
Defined.

End NormalizerFacts.

(** ** The assembly of a page's content *)

Module MetrContentFacts.
Import PyStr PyOutcome Dom Normalizer MetrContent.

Lemma mem_str_elem_of (x : string) (l : list string) :
  Url.mem_str x l = true <-> x ∈ l.
Proof.
  unfold Url.mem_str. rewrite existsb_exists. split.
  - intros (y & Hin & Heq). apply String.eqb_eq in Heq as ->.
    by apply list_elem_of_In.
  - intros Hin. exists x. split; [by apply list_elem_of_In|].
    apply String.eqb_refl.
Qed.

Lemma elem_of_drop_repeats (x : string) (l : list string) :
  x ∈ drop_repeats l <-> x ∈ l.
Proof.
  induction l as [|t rest IH]; simpl; [done|].
  rewrite !elem_of_cons, list_elem_of_filter, IH.
  destruct (decide (x = t)); naive_solver.
Qed.

Lemma NoDup_drop_repeats (l : list string) : NoDup (drop_repeats l).
Proof.
  induction l as [|t rest IH]; simpl; constructor.
  - rewrite list_elem_of_filter. naive_solver.
  - by apply NoDup_filter.
Qed.

(** What [kept_fragments] keeps: the non-empty renderings, each once. *)
Lemma kept_fragments_spec (rendered : list (option string)) :
  NoDup (kept_fragments rendered) /\
  forall t, t ∈ kept_fragments rendered <-> Some t ∈ rendered /\ t <> "".
Proof.
  split; [apply NoDup_drop_repeats|].
  intros t. unfold kept_fragments.
  rewrite elem_of_drop_repeats, list_elem_of_omap. split.
  - intros ([u|] & Hin & Hu); simpl in Hu; [|discriminate Hu].
    destruct (nonempty u) eqn:Hne; [|discriminate Hu].
    injection Hu as ->. split; [done|].
    by apply NormalizerFacts.nonempty_true.
  - intros [Hin Hne]. exists (Some t). split; [done|]. simpl.
    apply NormalizerFacts.nonempty_true in Hne. by rewrite Hne.
Qed.

Lemma filter_not_in_nil (l : list string) :
  filter (fun u => u ∉ @nil string) l = l.
Proof.
  induction l as [|x l IH]; [done|].
  rewrite filter_cons_True by apply not_elem_of_nil. by rewrite IH.
Qed.

Lemma filter_not_in_snoc (acc : list string) (t : string) (l : list string) :
  filter (fun u => u ∉ acc ++ [t]) l
  = filter (fun u => u ∉ acc) (filter (fun u => u <> t) l).
Proof.
  rewrite list_filter_filter. apply list_filter_iff.
  intros u. rewrite elem_of_app, list_elem_of_singleton. naive_solver.
Qed.

Lemma filter_not_in_absorbs (acc : list string) (t : string)
    (l : list string) :
  t ∈ acc ->
  filter (fun u => u ∉ acc) (filter (fun u => u <> t) l)
  = filter (fun u => u ∉ acc) l.
Proof.
  intros Hin. rewrite list_filter_filter. apply list_filter_iff.
  intros u. naive_solver.
Qed.

(** The loop of [scrape_blog_post], from any list built so far. *)
Lemma content_loop_spec (base_url : string) (elements : list element) :
  forall content_elements,
    content_loop base_url elements content_elements
    = (rendered ← render_all base_url
                    (filter (fun e => has_skipped_class e = false) elements);
       Return (content_elements
               ++ filter (fun u => u ∉ content_elements)
                    (kept_fragments rendered))).
Proof.
  induction elements as [|e rest IH]; intros acc.
  { simpl. by rewrite app_nil_r. }
  simpl content_loop. rewrite filter_cons.
  destruct (has_skipped_class e) eqn:Hskip.
  { rewrite decide_False by done. apply IH. }
  rewrite decide_True by done. simpl render_all.
  destruct (extract_text_content base_url e true) as [x | text];
    [reflexivity|].
  simpl.
  destruct (render_all base_url _) as [x | texts] eqn:Hrest; simpl.
  { destruct text as [t|]; [|by rewrite IH].
    by destruct (nonempty t && negb (Url.mem_str t acc)); rewrite IH. }
  unfold kept_fragments. simpl omap.
  destruct text as [t|]; simpl; [|by rewrite IH].
  destruct (nonempty t) eqn:Hne; simpl; [|by rewrite IH].
  destruct (Url.mem_str t acc) eqn:Hmem; simpl; rewrite IH; simpl;
    unfold kept_fragments; f_equal.
  - apply mem_str_elem_of in Hmem.
    rewrite filter_cons, decide_False by (intros Hn; by apply Hn).
    by rewrite filter_not_in_absorbs.
  - assert (Hnot : t ∉ acc).
    { intros Hin. apply mem_str_elem_of in Hin. congruence. }
    rewrite filter_cons, decide_True by done.
    rewrite <- app_assoc. simpl. f_equal. f_equal.
    apply filter_not_in_snoc.
Qed.

Lemma all_strings_some (texts : list string) :
  all_strings (map Some texts) = Some texts.
Proof.
  induction texts as [|t texts IH]; simpl; [done|]. by rewrite IH.
Qed.

(** C5, as the code has it.  The loop of [scrape_blog_post] walks the
    elements of the content container in document order, passes over the
    elements of the classes it skips, and of the others keeps the
    renderings that are not empty, each once, at its first place; it joins
    them with a blank line.  The list of what was emitted starts empty at
    every call: the content is a function of the page alone.  The loop of
    [scrape_home_page] joins every rendering, empty or repeated. *)
Theorem content_assembly (base_url : string) (main_content : element) :
  scrape_blog_post_content base_url main_content
  = assembled_content base_url
      (filter (fun e => has_skipped_class e = false)
              (find_all post_tags main_content))
  /\
  (forall rendered,
     NoDup (kept_fragments rendered) /\
     forall t, t ∈ kept_fragments rendered <->
               Some t ∈ rendered /\ t <> "")
  /\
  (forall texts,
     render_all base_url (find_all home_tags main_content)
     = Return (map Some texts) ->
     scrape_home_page_content base_url main_content
     = Return (join (lf +:+ lf) texts)).
Proof.
  split; [|split].
  - unfold scrape_blog_post_content, assembled_content.
    rewrite content_loop_spec.
    destruct (render_all base_url _) as [x | rendered]; [reflexivity|].
    simpl. f_equal. f_equal. apply filter_not_in_nil.
  - apply kept_fragments_spec.
  - intros texts H. unfold scrape_home_page_content. rewrite H. simpl.
    unfold join_items. by rewrite all_strings_some.
Qed.

(** The witness of C5: a container with two paragraphs. *)
Lemma content_assembly_witness :
  render_all "https://metr.org" (find_all home_tags Samples.twice_a)
  = Return (map Some ["A"; "A"]) /\
  scrape_home_page_content "https://metr.org" Samples.twice_a
  = Return (join (lf +:+ lf) ["A"; "A"]).
Proof.
  assert (H : render_all "https://metr.org"
                (find_all home_tags Samples.twice_a)
              = Return (map Some ["A"; "A"])) by (vm_compute; reflexivity).
  split; [exact H|].
  exact (proj2 (proj2 (content_assembly "https://metr.org" Samples.twice_a))
           ["A"; "A"] H).
Defined.

(** C5 as stated fails on the home page: a paragraph that occurs twice is
    emitted twice, where the rule of the specification keeps it once. *)
Lemma home_page_repeats_fragments :
  scrape_home_page_content "https://metr.org" Samples.twice_a
  = Return ("A" +:+ lf +:+ lf +:+ "A") /\
  assembled_content "https://metr.org"
    (find_all home_tags Samples.twice_a) = Return "A" /\
  scrape_home_page_content "https://metr.org" Samples.twice_a
  <> assembled_content "https://metr.org"
       (find_all home_tags Samples.twice_a).
Proof.
  split; [by vm_compute|]. split; [by vm_compute|].
  by vm_compute.
Qed.

End MetrContentFacts.

(** ** [split_json.py] *)

Module SplitJsonFacts.
Import PyOutcome Json SplitJson SplitJsonSearch.

(** Induction on documents, through arrays and objects. *)
Lemma json_induction (P : json -> Prop) :
  P JNull -> (forall b, P (JBool b)) -> (forall z, P (JNum z)) ->
  (forall s, P (JStr s)) ->
  (forall items, Forall P items -> P (JList items)) ->
  (forall entries, Forall (fun kv => P kv.2) entries -> P (JDict entries)) ->
  forall j, P j.
Proof.
  intros Hnull Hbool Hnum Hstr Hlist Hdict.
  exact (fix IH (j : json) : P j :=
           match j with
           | JNull => Hnull
           | JBool b => Hbool b
           | JNum z => Hnum z
           | JStr s => Hstr s
           | JList items =>
               Hlist items
                 ((fix all (l : list json) : Forall P l :=
                     match l with
                     | [] => List.Forall_nil P
                     | x :: l' => @List.Forall_cons _ P x l' (IH x) (all l')
                     end) items)
           | JDict entries =>
               Hdict entries
                 ((fix all (l : list (string * json))
                     : Forall (fun kv => P kv.2) l :=
                     match l with
                     | [] => List.Forall_nil _
                     | kv :: l' =>
                         @List.Forall_cons _ (fun kv => P kv.2) kv l'
                           (IH kv.2) (all l')
                     end) entries)
           end).
Qed.

Lemma map_indexed_lookup {A B : Type} (f : nat -> A -> B) (l : list A) :
  forall i j, map_indexed f i l !! j = f (i + j)%nat <$> l !! j.
Proof.
  induction l as [|x l IH]; intros i j; [done|].
  destruct j as [|j]; simpl.
  - by rewrite Nat.add_0_r.
  - rewrite IH. by rewrite Nat.add_succ_r.
Qed.

Lemma map_indexed_id {A : Type} (f : nat -> A -> A) (l : list A) :
  forall i,
    (forall j x, l !! j = Some x -> f (i + j)%nat x = x) ->
    map_indexed f i l = l.
Proof.
  induction l as [|x l IH]; intros i H; [done|]. simpl. f_equal.
  - specialize (H 0%nat x eq_refl). by rewrite Nat.add_0_r in H.
  - apply IH. intros j y Hj. specialize (H (S j) y Hj).
    by rewrite Nat.add_succ_r in H.
Qed.

Lemma map_indexed_compose {A B C : Type} (g : nat -> B -> C)
    (f : nat -> A -> B) (l : list A) :
  forall i,
    map_indexed g i (map_indexed f i l)
    = map_indexed (fun j x => g j (f j x)) i l.
Proof.
  induction l as [|x l IH]; intros i; [done|]. simpl. by rewrite IH.
Qed.

Lemma not_prefix_snoc (here largest : place) (i : nat) :
  ~ here `prefix_of` largest -> ~ (here ++ [i]) `prefix_of` largest.
Proof.
  intros Hn [k Hk]. apply Hn. exists ([i] ++ k).
  by rewrite Hk, <- app_assoc.
Qed.

(** Away from the way to the target, nothing is replaced. *)
Lemma replace_outside (largest : place) (new_array : list json)
    (obj : json) :
  forall here,
    ~ here `prefix_of` largest ->
    replace_array_in_structure largest here obj new_array = obj.
Proof.
  induction obj as [| | | |items IH|entries IH] using json_induction;
    intros here Hn; try reflexivity; simpl.
  - rewrite bool_decide_false by (intros ->; by apply Hn).
    f_equal. apply map_indexed_id. intros j x Hj. simpl.
    rewrite Forall_forall in IH. apply IH.
    + by eapply list_elem_of_lookup_2.
    + by apply not_prefix_snoc.
  - f_equal. apply map_indexed_id. intros j [k v] Hj. simpl. f_equal.
    rewrite Forall_forall in IH.
    apply (IH (k, v)).
    + by eapply list_elem_of_lookup_2.
    + by apply not_prefix_snoc.
Qed.

Lemma sibling_not_prefix (here rel : place) (i j : nat) :
  i <> j -> ~ (here ++ [j]) `prefix_of` (here ++ i :: rel).
Proof.
  intros Hne [k Hk]. rewrite <- app_assoc in Hk.
  apply app_inv_head in Hk. simpl in Hk. congruence.
Qed.

Lemma here_not_below (here rel : place) (i : nat) : here <> here ++ i :: rel.
Proof.
  intros H. apply (f_equal length) in H.
  rewrite length_app in H. simpl in H. lia.
Qed.

(** Putting the old array back restores the document. *)
Lemma replace_back (rel : place) :
  forall (obj : json) (here : place) (new_array old : list json),
    array_at rel obj = Some old ->
    replace_array_in_structure (here ++ rel) here
      (replace_array_in_structure (here ++ rel) here obj new_array) old
    = obj.
Proof.
  induction rel as [|i rel IH]; intros obj here new_array old Hat.
  - destruct obj; simpl in Hat; try discriminate Hat.
    injection Hat as ->. simpl.
    rewrite app_nil_r, bool_decide_true by done. simpl.
    by rewrite bool_decide_true.
  - destruct obj as [| | | |items|entries]; simpl in Hat;
      try discriminate Hat; simpl;
      try rewrite bool_decide_false by apply here_not_below; simpl;
      try rewrite bool_decide_false by apply here_not_below;
      f_equal; rewrite map_indexed_compose; apply map_indexed_id.
    + intros j x Hj. simpl.
      destruct (decide (i = j)) as [<-|Hne].
      * rewrite Hj in Hat. simpl in Hat.
        replace (here ++ i :: rel) with ((here ++ [i]) ++ rel)
          by (by rewrite <- app_assoc).
        by apply IH.
      * rewrite !replace_outside by (by apply sibling_not_prefix). done.
    + intros j [k v] Hj. simpl. f_equal.
      destruct (decide (i = j)) as [<-|Hne].
      * rewrite Hj in Hat. simpl in Hat.
        replace (here ++ i :: rel) with ((here ++ [i]) ++ rel)
          by (by rewrite <- app_assoc).
        by apply IH.
      * rewrite !replace_outside by (by apply sibling_not_prefix). done.
Qed.

(** After the replacement the new array stands at the target. *)
Lemma replace_at (rel : place) :
  forall (obj : json) (here : place) (new_array old : list json),
    array_at rel obj = Some old ->
    array_at rel
      (replace_array_in_structure (here ++ rel) here obj new_array)
    = Some new_array.
Proof.
  induction rel as [|i rel IH]; intros obj here new_array old Hat.
  - destruct obj; simpl in Hat; try discriminate Hat. simpl.
    by rewrite app_nil_r, bool_decide_true.
  - destruct obj as [| | | |items|entries]; simpl in Hat;
      try discriminate Hat; simpl;
      try rewrite bool_decide_false by apply here_not_below; simpl;
      rewrite map_indexed_lookup; simpl.
    + destruct (items !! i) as [item|]; simpl in *; [|discriminate Hat].
      replace (here ++ i :: rel) with ((here ++ [i]) ++ rel)
        by (by rewrite <- app_assoc).
      by eapply IH.
    + destruct (entries !! i) as [[k v]|]; simpl in *; [|discriminate Hat].
      replace (here ++ i :: rel) with ((here ++ [i]) ++ rel)
        by (by rewrite <- app_assoc).
      by eapply IH.
Qed.

(** The loop over the values of an object. *)
Lemma fold_values_found (here p : place) (arr : list json)
    (entries : list (string * json)) :
  Forall (fun kv =>
            forall here cm,
              find_largest_array here kv.2 cm = Some (p, arr) ->
              cm = Some (p, arr) \/
              exists rel, p = here ++ rel /\ array_at rel kv.2 = Some arr)
         entries ->
  forall i cm,
    fold_indexed
      (fun i entry current_max =>
         find_largest_array (here ++ [i]) entry.2 current_max)
      i entries cm = Some (p, arr) ->
    cm = Some (p, arr) \/
    exists j entry rel,
      entries !! j = Some entry /\ p = here ++ (i + j)%nat :: rel /\
      array_at rel entry.2 = Some arr.
Proof.
  induction 1 as [|kv entries Hkv _ IH]; intros i cm Hfold; simpl in Hfold.
  { by left. }
  destruct (IH _ _ Hfold) as [Hcm | (j & entry & rel & Hj & Hp & Hat)].
  - destruct (Hkv _ _ Hcm) as [Hcm' | (rel & Hp & Hat)]; [by left|].
    right. exists 0%nat, kv, rel. split; [done|]. split; [|done].
    by rewrite Nat.add_0_r, Hp, <- app_assoc.
  - right. exists (S j), entry, rel. split; [done|]. split; [|done].
    by rewrite Nat.add_succ_r.
Qed.

(** What the search returns is the running maximum it was given, or an
    array of the document, at the place it reports. *)
Lemma find_largest_array_found (p : place) (arr : list json) (obj : json) :
  forall here cm,
    find_largest_array here obj cm = Some (p, arr) ->
    cm = Some (p, arr) \/
    exists rel, p = here ++ rel /\ array_at rel obj = Some arr.
Proof.
  induction obj as [| | | |items _|entries IH] using json_induction;
    intros here cm Hfind; simpl in Hfind; try by left.
  - assert (Hhere : Some (here, items) = Some (p, arr) ->
                    exists rel, p = here ++ rel /\
                                array_at rel (JList items) = Some arr).
    { intros [= <- <-]. exists []. by rewrite app_nil_r. }
    destruct cm as [[q m]|]; [|right; by apply Hhere].
    destruct (length m <? length items)%nat; [right; by apply Hhere|].
    by left.
  - destruct (fold_values_found here p arr entries IH _ _ Hfind)
      as [Hcm | (j & entry & rel & Hj & Hp & Hat)]; [by left|].
    right. exists (j :: rel). split; [done|]. simpl. by rewrite Hj.
Qed.

Lemma largest_array_at (data : json) (largest : place) (arr : list json) :
  find_largest_array [] data None = Some (largest, arr) ->
  array_at largest data = Some arr.
Proof.
  intros H. apply find_largest_array_found in H as [H | (rel & -> & H)].
  - discriminate H.
  - done.
Qed.

Lemma fold_values_as_foldl (here : place) (entries : list (string * json)) :
  Forall (fun kv => forall here cm,
            find_largest_array here kv.2 cm
            = foldl keep_longer cm (compared_arrays here kv.2)) entries ->
  forall i cm,
    fold_indexed
      (fun i entry current_max =>
         find_largest_array (here ++ [i]) entry.2 current_max)
      i entries cm
    = foldl keep_longer cm
        (concat (map_indexed
                   (fun i entry => compared_arrays (here ++ [i]) entry.2)
                   i entries)).
Proof.
  induction 1 as [|kv entries Hkv _ IH]; intros i cm; [reflexivity|].
  simpl. rewrite foldl_app, <- Hkv. apply IH.
Qed.

(** The search is one pass over the arrays it compares. *)
Lemma find_largest_array_as_foldl (obj : json) :
  forall here cm,
    find_largest_array here obj cm
    = foldl keep_longer cm (compared_arrays here obj).
Proof.
  induction obj as [| | | |items _|entries IH] using json_induction;
    intros here cm; try reflexivity.
  simpl. by apply fold_values_as_foldl.
Qed.

Lemma keep_longer_some cm x :
  exists c, keep_longer cm x = Some c /\
            (length x.2 <= length c.2)%nat /\
            (forall c0, cm = Some c0 -> (length c0.2 <= length c.2)%nat).
Proof.
  destruct cm as [[q m]|]; simpl.
  - destruct (length m <? length x.2)%nat eqn:Hlt.
    + exists x. apply Nat.ltb_lt in Hlt. split; [done|]. split; [lia|].
      intros c0 [= <-]. simpl. lia.
    + exists (q, m). apply Nat.ltb_ge in Hlt. split; [done|].
      split; [done|]. by intros c0 [= <-].
  - exists x. split; [done|]. split; [lia|]. intros c0 H. discriminate H.
Qed.

(** One pass of [keep_longer]: the result is the first of the longest. *)
Lemma foldl_keep_longer (l : list (place * list json)) :
  forall cm,
    match foldl keep_longer cm l with
    | None => cm = None /\ l = []
    | Some r =>
        (cm = Some r /\ Forall (fun o => (length o.2 <= length r.2)%nat) l)
        \/
        (exists before after,
           l = before ++ r :: after /\
           Forall (fun o => (length o.2 < length r.2)%nat) before /\
           (forall c, cm = Some c -> (length c.2 < length r.2)%nat) /\
           Forall (fun o => (length o.2 <= length r.2)%nat) after)
    end.
Proof.
  induction l as [|x l IH]; intros cm; simpl.
  { destruct cm as [r|]; [left|]; by split. }
  specialize (IH (keep_longer cm x)).
  destruct (keep_longer_some cm x) as (c & Hc & Hx & Hcm).
  destruct (foldl keep_longer (keep_longer cm x) l) as [r|].
  2:{ destruct IH as [Hnone _]. congruence. }
  destruct IH as [[Heq Hall] | (before & after & -> & Hb & Hlt & Ha)].
  - rewrite Hc in Heq. injection Heq as ->.
    destruct cm as [[q m]|]; simpl in Hc.
    + destruct (length m <? length x.2)%nat eqn:Hm.
      * injection Hc as ->. right. exists [], l. split; [done|].
        split; [constructor|]. split; [|done].
        intros c0 [= <-]. simpl. by apply Nat.ltb_lt.
      * injection Hc as <-. left. split; [done|].
        constructor; [|done]. simpl. by apply Nat.ltb_ge.
    + injection Hc as ->. right. exists [], l. split; [done|].
      split; [constructor|]. split; [|done]. intros c0 H. discriminate H.
  - right. exists (x :: before), after. split; [done|].
    specialize (Hlt c Hc). split; [constructor; [lia|done]|].
    split; [|done]. intros c0 H0. specialize (Hcm c0 H0). lia.
Qed.

(** *** Documents without an array in an array *)

Lemma concat_map_indexed_ext {A B : Type} (f g : nat -> A -> list B)
    (l : list A) :
  Forall (fun x => forall j, f j x = g j x) l ->
  forall i, concat (map_indexed f i l) = concat (map_indexed g i l).
Proof.
  induction 1 as [|x l Hx _ IH]; intros i; [reflexivity|].
  simpl. by rewrite Hx, IH.
Qed.

Lemma concat_map_indexed_nil {A B : Type} (f : nat -> A -> list B)
    (l : list A) :
  Forall (fun x => forall j, f j x = []) l ->
  forall i, concat (map_indexed f i l) = [].
Proof.
  induction 1 as [|x l Hx _ IH]; intros i; [reflexivity|].
  simpl. by rewrite Hx, IH.
Qed.

Lemma no_array_no_arrays (obj : json) :
  forall here, has_array obj = false -> all_arrays here obj = [].
Proof.
  induction obj as [| | | |items _|entries IH] using json_induction;
    intros here H; try reflexivity; [discriminate H|].
  simpl in H |- *. apply concat_map_indexed_nil.
  rewrite Forall_forall in IH |- *. intros entry Hin j.
  apply IH; [done|].
  destruct (has_array entry.2) eqn:Hentry; [|done].
  assert (Hex : existsb (fun e => has_array e.2) entries = true).
  { apply existsb_exists. exists entry. split; [|done].
    by apply list_elem_of_In. }
  by rewrite Hex in H.
Qed.

(** In such a document the search compares every array. *)
Lemma arrays_all_compared (obj : json) :
  forall here,
    arrays_at_values obj = true ->
    all_arrays here obj = compared_arrays here obj.
Proof.
  induction obj as [| | | |items _|entries IH] using json_induction;
    intros here H; try reflexivity; simpl in H |- *.
  - f_equal. apply concat_map_indexed_nil.
    apply Forall_forall. intros item Hin j.
    apply no_array_no_arrays. apply negb_true_iff.
    rewrite forallb_forall in H. apply H. by apply list_elem_of_In.
  - apply concat_map_indexed_ext.
    rewrite Forall_forall in IH |- *. intros entry Hin j.
    apply IH; [done|].
    rewrite forallb_forall in H. apply H. by apply list_elem_of_In.
Qed.

(** ... and returns one of the longest. *)
Lemma search_finds_longest (data : json) (found : place * list json) :
  arrays_at_values data = true ->
  is_longest_array data found ->
  exists largest arr,
    find_largest_array [] data None = Some (largest, arr) /\
    is_longest_array data (largest, arr) /\
    length arr = length found.2.
Proof.
  intros Hflat [Hin Hmax]. unfold is_longest_array.
  rewrite (arrays_all_compared data [] Hflat) in Hin, Hmax |- *.
  rewrite find_largest_array_as_foldl.
  pose proof (foldl_keep_longer (compared_arrays [] data) None) as H.
  destruct (foldl keep_longer None (compared_arrays [] data))
    as [[largest arr]|].
  - destruct H as [[H _] | (before & after & Heq & Hb & _ & Ha)];
      [discriminate H|].
    assert (Hr : (largest, arr) ∈ compared_arrays [] data).
    { rewrite Heq. apply elem_of_app. right. apply elem_of_cons. by left. }
    assert (Hall : forall other, other ∈ compared_arrays [] data ->
                                 (length other.2 <= length arr)%nat).
    { intros other Ho. rewrite Heq in Ho.
      apply elem_of_app in Ho as [Ho | Ho].
      - rewrite Forall_forall in Hb. specialize (Hb _ Ho). simpl in Hb. lia.
      - apply elem_of_cons in Ho as [-> | Ho]; [done|].
        rewrite Forall_forall in Ha. exact (Ha _ Ho). }
    exists largest, arr. split; [done|]. split; [by split|].
    specialize (Hall _ Hin). specialize (Hmax _ Hr). simpl in Hmax. lia.
  - destruct H as [_ H]. rewrite H in Hin. by apply elem_of_nil in Hin.
Qed.

(** Splitting in 5 parts on an array of 13 items that the search
    returned: five documents, with 3, 3, 3, 3 and 1 items at the place of
    the array. *)
Lemma split_found_thirteen
    (data : json) (largest : place) (arr : list json) :
  find_largest_array [] data None = Some (largest, arr) ->
  length arr = 13%nat ->
  exists chunks,
    split_json_file data 5
    = Return (map (replace_array_in_structure largest [] data) chunks) /\
    map length chunks = [3; 3; 3; 3; 1]%nat /\
    concat chunks = arr /\
    Forall (fun chunk =>
              let part := replace_array_in_structure largest [] data chunk in
              array_at largest part = Some chunk /\
              replace_array_in_structure largest [] part arr = data)
           chunks.
Proof.
  intros Hfind Hlen.
  pose proof (largest_array_at _ _ _ Hfind) as Hat.
  do 13 (destruct arr as [|? arr]; [discriminate Hlen|]).
  destruct arr as [|? arr]; [|discriminate Hlen].
  eexists. split.
  { unfold split_json_file. rewrite Hfind. reflexivity. }
  split; [reflexivity|]. split; [reflexivity|].
  apply Forall_forall. intros chunk _. split.
  - by apply (replace_at largest data [] chunk _ Hat).
  - by apply (replace_back largest data [] chunk _ Hat).
Qed.

Lemma thirteen_papers_longest :
  is_longest_array Samples.chai_papers_doc
    ([1; 0; 3; 0; 2]%nat, Samples.thirteen_papers).
Proof.
  split.
  - apply list_elem_of_In. vm_compute. auto 10.
  - intros other Hin. apply list_elem_of_In in Hin.
    change (length (Samples.thirteen_papers)) with 13%nat.
    repeat (destruct Hin as [<- | Hin]; [simpl; lia|]). destruct Hin.
Qed.

Lemma thirteen_posts_longest :
  is_longest_array Samples.lakera_doc ([2%nat], Samples.thirteen_posts).
Proof.
  split.
  - apply list_elem_of_In. vm_compute. auto 10.
  - intros other Hin. apply list_elem_of_In in Hin.
    change (length (Samples.thirteen_posts)) with 13%nat.
    repeat (destruct Hin as [<- | Hin]; [simpl; lia|]). destruct Hin.
Qed.

(** C7 on the code.  In the document [chai_papers_doc] the largest array
    has 13 items, the papers of a research area.  It lies in an element of
    an array, where the search does not look (the defect of C6): the
    search returns [blog_posts], of 2 items, and splitting in 5 parts
    writes two documents, one blog post each, the first with all 13
    papers.  No choice of chunks of 3, 3, 3, 3 and 1 papers gives what is
    written.  In a document where no array lies in an element of an array
    and the largest array has 13 items, a largest array is split and five
    documents are written; the arrays they hold at the place of the target
    have 3, 3, 3, 3 and 1 items and are the original array when put end to
    end, and each part is the source document once the original array is
    put back. *)
Theorem thirteen_papers_not_split :
  is_longest_array Samples.chai_papers_doc
    ([1; 0; 3; 0; 2]%nat, Samples.thirteen_papers) /\
  length Samples.thirteen_papers = 13%nat /\
  arrays_at_values Samples.chai_papers_doc = false /\
  find_largest_array [] Samples.chai_papers_doc None
  = Some ([1%nat], [Samples.research_post; Samples.progress_post]) /\
  split_json_file Samples.chai_papers_doc 5
  = Return
      [JDict [("metadata",
               JDict [("base_url", JStr "https://humancompatible.ai")]);
              ("blog_posts", JList [Samples.research_post])];
       JDict [("metadata",
               JDict [("base_url", JStr "https://humancompatible.ai")]);
              ("blog_posts", JList [Samples.progress_post])]] /\
  ~ (exists chunks,
       map length chunks = [3; 3; 3; 3; 1]%nat /\
       split_json_file Samples.chai_papers_doc 5
       = Return (map (replace_array_in_structure [1; 0; 3; 0; 2]%nat []
                        Samples.chai_papers_doc) chunks)) /\
  (forall data found,
     arrays_at_values data = true ->
     is_longest_array data found ->
     length found.2 = 13%nat ->
     exists largest arr chunks,
       is_longest_array data (largest, arr) /\
       length arr = 13%nat /\
       split_json_file data 5
       = Return (map (replace_array_in_structure largest [] data) chunks) /\
       map length chunks = [3; 3; 3; 3; 1]%nat /\
       concat chunks = arr /\
       Forall (fun chunk =>
                 let part :=
                   replace_array_in_structure largest [] data chunk in
                 array_at largest part = Some chunk /\
                 replace_array_in_structure largest [] part arr = data)
              chunks).
Proof.
  split; [exact thirteen_papers_longest|].
  split; [reflexivity|]. split; [reflexivity|]. split; [reflexivity|].
  split; [by vm_compute|].
  split.
  - intros (chunks & Hsizes & Hsplit).
    replace (split_json_file Samples.chai_papers_doc 5)
      with (Return
              [replace_array_in_structure [1%nat] [] Samples.chai_papers_doc
                 [Samples.research_post];
               replace_array_in_structure [1%nat] [] Samples.chai_papers_doc
                 [Samples.progress_post]]) in Hsplit by (by vm_compute).
    injection Hsplit as Hparts.
    apply (f_equal length) in Hparts, Hsizes.
    rewrite length_map in Hparts, Hsizes. simpl in Hparts, Hsizes. lia.
  - intros data found Hflat Hfound Hlen.
    destruct (search_finds_longest data found Hflat Hfound)
      as (largest & arr & Hfind & Hlongest & Harr).
    rewrite Hlen in Harr.
    destruct (split_found_thirteen data largest arr Hfind Harr)
      as (chunks & Hsplit & Hsizes & Hcat & Hparts).
    by exists largest, arr, chunks.
Qed.

(** The witness of C7: a scraped document with thirteen posts and no
    array in an array. *)
Lemma thirteen_papers_not_split_witness :
  arrays_at_values Samples.lakera_doc = true /\
  is_longest_array Samples.lakera_doc ([2%nat], Samples.thirteen_posts) /\
  length Samples.thirteen_posts = 13%nat /\
  exists largest arr chunks,
    is_longest_array Samples.lakera_doc (largest, arr) /\
    length arr = 13%nat /\
    split_json_file Samples.lakera_doc 5
    = Return (map (replace_array_in_structure largest [] Samples.lakera_doc)
                  chunks) /\
    map length chunks = [3; 3; 3; 3; 1]%nat /\
    concat chunks = arr.
Proof.
  assert (Hflat : arrays_at_values Samples.lakera_doc = true)
    by reflexivity.
  assert (Hl : length Samples.thirteen_posts = 13%nat) by reflexivity.
  split; [exact Hflat|]. split; [exact thirteen_posts_longest|].
  split; [exact Hl|].
  destruct (proj2 (proj2 (proj2 (proj2 (proj2 (proj2
              thirteen_papers_not_split)))))
              Samples.lakera_doc ([2%nat], Samples.thirteen_posts)
              Hflat thirteen_posts_longest Hl)
    as (largest & arr & chunks & Hlong & Hlen & Hsplit & Hsizes & Hcat & _).
  exists largest, arr, chunks.
  split; [exact Hlong|]. split; [exact Hlen|]. split; [exact Hsplit|].
  split; [exact Hsizes|exact Hcat].
Defined.

(** C6 on the code: the search does not look into the elements of an
    array.  In [nested_doc] the longest array, three posts, lies in an
    element of the array of sections; the search returns the array of
    sections, which has one element. *)
Theorem find_largest_array_misses_nested :
  find_largest_array [] Samples.nested_doc None
  = Some ([0%nat], [JDict [("posts", JList Samples.nested_posts)]]) /\
  is_longest_array Samples.nested_doc
    ([0; 0; 0]%nat, Samples.nested_posts) /\
  ~ is_longest_array Samples.nested_doc
      ([0%nat], [JDict [("posts", JList Samples.nested_posts)]]) /\
  split_json_file Samples.nested_doc 5 = Return [Samples.nested_doc].
Proof.
  split; [reflexivity|]. split; [|split; [|reflexivity]].
  - split.
    + apply list_elem_of_In. simpl. auto.
    + intros other Hin. apply list_elem_of_In in Hin. simpl in Hin.
      destruct Hin as [<- | [<- | []]]; simpl; lia.
  - intros [_ Hmax].
    specialize (Hmax ([0; 0; 0]%nat, Samples.nested_posts)).
    simpl in Hmax. enough (3 <= 1)%nat by lia. apply Hmax.
    apply list_elem_of_In. simpl. auto.
Qed.

End SplitJsonFacts.

(** ** [filter_json.py] *)

Module FilterJsonFacts.
Import PyStr PyStrFacts PyOutcome Json FilterJson.

(** [date_geb] is the order of the calendar. *)
Lemma date_geb_spec (a b : date) :
  date_geb a b = true <->
  (year b < year a \/
   (year b = year a /\
    (month b < month a \/ (month b = month a /\ day b <= day a))))%Z.
Proof.
  unfold date_geb.
  rewrite !orb_true_iff, !andb_true_iff, !orb_true_iff, !andb_true_iff.
  rewrite !Z.ltb_lt, !Z.eqb_eq, Z.leb_le. tauto.
Qed.

Lemma dated_content_nonempty (text : string) (d : date) :
  extract_date_from_content text = Some d -> nonempty text = true.
Proof.
  unfold extract_date_from_content. by destruct (nonempty text).
Qed.

Lemma filter_post_dated (post : list (string * json)) (text : string)
    (d : date) :
  dict_get "content" post = Some (JStr text) ->
  extract_date_from_content text = Some d ->
  filter_post post = Return (date_geb d cutoff_date).
Proof.
  intros Hget Hdate. unfold filter_post. rewrite Hget. simpl.
  rewrite (dated_content_nonempty _ _ Hdate). simpl. by rewrite Hdate.
Qed.

Lemma filter_post_undated (post : list (string * json)) (text : string) :
  dict_get "content" post = Some (JStr text) ->
  search text = None ->
  filter_post post = Return false.
Proof.
  intros Hget Hnone. unfold filter_post. rewrite Hget. simpl.
  destruct (nonempty text) eqn:Hne; simpl; [|done].
  unfold extract_date_from_content. by rewrite Hne, Hnone.
Qed.

(** The model of [date_pattern] and [re.search]: what is matched is a
    piece of the content, and the fields have the shape of the pattern. *)
Lemma span_chars_app (p : ascii -> bool) (s a b : string) :
  Url.span_chars p s = (a, b) -> s = a +:+ b.
Proof.
  revert a b. induction s as [|c s IH]; intros a b H; simpl in H.
  - by injection H as <- <-.
  - destruct (p c).
    + destruct (Url.span_chars p s) as [a' b'].
      injection H as <- <-.
      change (String c s = String c (a' +:+ b')). f_equal. by apply IH.
    + by injection H as <- <-.
Qed.

Lemma leading_digits_app (n : nat) (s d r : string) :
  leading_digits n s = (d, r) -> s = d +:+ r.
Proof.
  revert s d r. induction n as [|n IH]; intros s d r H; simpl in H.
  - by injection H as <- <-.
  - destruct s as [|c s]; [by injection H as <- <-|].
    destruct (Url.is_digit c).
    + destruct (leading_digits n s) as [d' r'] eqn:Hrec.
      injection H as <- <-.
      change (String c s = String c (d' +:+ r')). f_equal. by apply IH.
    + by injection H as <- <-.
Qed.

Lemma leading_month_spec (s name : string) :
  leading_month s = Some name ->
  name ∈ month_names /\ String.length name = 3%nat /\
  String.prefix name s = true.
Proof.
  intros H. apply head_Some_elem_of, list_elem_of_filter in H as [Hp Hin].
  split; [done|]. split.
  - unfold month_names in Hin.
    repeat (apply elem_of_cons in Hin as [->|Hin]; [reflexivity|]).
    by apply elem_of_nil in Hin.
  - unfold startswith in Hp. by apply Is_true_true.
Qed.

Lemma match_here_prefix (s : string) (m : date_match) :
  match_here s = Some m -> exists rest, s = group m +:+ rest.
Proof.
  unfold match_here. intros H.
  destruct (leading_month s) as [name|] eqn:Hname; [|discriminate H].
  cbn [negb mbind option_bind] in H.
  apply leading_month_spec in Hname as (_ & Hlen & Hpre).
  apply PyStrFacts.prefix_drop in Hpre. rewrite Hlen in Hpre.
  destruct (Url.span_chars is_space (drop 3 s)) as [space1 s1] eqn:H1.
  apply span_chars_app in H1.
  destruct (nonempty space1); [|discriminate H]. cbn [negb mbind option_bind] in H.
  destruct (leading_digits 2 s1) as [dd s2] eqn:H2.
  apply leading_digits_app in H2.
  destruct (nonempty dd); [|discriminate H]. cbn [negb mbind option_bind] in H.
  destruct s2 as [|c s3]; [discriminate H|].
  destruct (Ascii.eqb c ",") eqn:Hc; [|discriminate H]. cbn [negb mbind option_bind] in H.
  apply Ascii.eqb_eq in Hc as ->.
  destruct (Url.span_chars is_space s3) as [space2 s4] eqn:H3.
  apply span_chars_app in H3.
  destruct (nonempty space2); [|discriminate H]. cbn [negb mbind option_bind] in H.
  destruct (leading_digits 4 s4) as [yyyy rest] eqn:H4.
  apply leading_digits_app in H4.
  destruct (String.length yyyy =? 4)%nat; [|discriminate H]. cbn [negb mbind option_bind] in H.
  injection H as <-. exists rest. unfold group. simpl.
  rewrite Hpre, H1, H2, H3, H4.
  rewrite !PyStrFacts.append_assoc. reflexivity.
Qed.

Lemma search_occurs (content : string) (m : date_match) :
  search content = Some m -> contains (group m) content = true.
Proof.
  induction content as [|c content IH]; intros H.
  - vm_compute in H. discriminate H.
  - change (match match_here (String c content) with
            | Some m' => Some m'
            | None => search content
            end = Some m) in H.
    destruct (match_here (String c content)) as [m'|] eqn:Hm.
    + injection H as ->. apply match_here_prefix in Hm as [rest ->].
      apply PyStrFacts.contains_here.
    + rewrite PyStrFacts.contains_unfold, (IH H). apply orb_true_r.
Qed.

(** *** The pattern, read as a description of texts *)

Lemma prefix_same_length (a b x : string) :
  String.prefix a (b +:+ x) = true -> String.length a = String.length b ->
  a = b.
Proof.
  revert b. induction a as [|c a IH]; intros b Hpre Hlen.
  - by destruct b.
  - destruct b as [|d b]; [discriminate Hlen|].
    rewrite append_cons in Hpre. simpl in Hpre.
    destruct (ascii_dec c d) as [->|]; [|discriminate Hpre].
    f_equal. apply IH; [exact Hpre|]. by injection Hlen.
Qed.

Lemma month_name_length (name : string) :
  Url.mem_str name month_names = true -> String.length name = 3%nat.
Proof.
  unfold Url.mem_str, month_names. simpl.
  rewrite !orb_true_iff, !String.eqb_eq.
  intros H. repeat (destruct H as [-> | H]; [reflexivity|]). done.
Qed.

Lemma drop_month_name (name x : string) :
  Url.mem_str name month_names = true -> drop 3 (name +:+ x) = x.
Proof.
  intros H. rewrite <- (month_name_length _ H). apply drop_app.
Qed.

Lemma month_name_elem (name : string) :
  Url.mem_str name month_names = true <-> name ∈ month_names.
Proof.
  unfold Url.mem_str. rewrite existsb_exists. split.
  - intros (x & Hin & ->%String.eqb_eq). by apply list_elem_of_In.
  - intros Hin. exists name. split; [by apply list_elem_of_In|].
    apply String.eqb_refl.
Qed.

Lemma leading_month_app (name x : string) :
  Url.mem_str name month_names = true ->
  leading_month (name +:+ x) = Some name.
Proof.
  intros Hname.
  destruct (leading_month (name +:+ x)) as [found|] eqn:Hfound.
  - apply leading_month_spec in Hfound as (_ & Hlen & Hpre).
    f_equal. apply (prefix_same_length found name x Hpre).
    by rewrite (month_name_length _ Hname).
  - apply head_None in Hfound.
    assert (Hin : name ∈ filter (fun n => startswith n (name +:+ x))
                           month_names).
    { apply list_elem_of_filter. split; [|by apply month_name_elem].
      unfold startswith. rewrite PyStrFacts.prefix_app. done. }
    rewrite Hfound in Hin. by apply elem_of_nil in Hin.
Qed.

Lemma span_chars_all (p : ascii -> bool) (s a b : string) :
  Url.span_chars p s = (a, b) -> Url.all_chars p a = true.
Proof.
  revert a b. induction s as [|c s IH]; intros a b H; simpl in H.
  - by injection H as <- <-.
  - destruct (p c) eqn:Hc.
    + destruct (Url.span_chars p s) as [a' b'].
      injection H as <- <-. simpl. rewrite Hc. by eapply IH.
    + by injection H as <- <-.
Qed.

Lemma span_chars_exact (p : ascii -> bool) (a b : string) :
  Url.all_chars p a = true -> Url.first_char_is p b = false ->
  Url.span_chars p (a +:+ b) = (a, b).
Proof.
  intros Ha Hb. induction a as [|c a IH].
  - rewrite append_nil. destruct b as [|d b]; [reflexivity|].
    simpl in Hb |- *. by rewrite Hb.
  - simpl in Ha. apply andb_true_iff in Ha as [Hc Ha].
    rewrite append_cons. simpl. by rewrite Hc, (IH Ha).
Qed.

Lemma leading_digits_all (n : nat) (s d r : string) :
  leading_digits n s = (d, r) ->
  Url.all_chars Url.is_digit d = true /\ (String.length d <= n)%nat.
Proof.
  revert s d r. induction n as [|n IH]; intros s d r H; simpl in H.
  - injection H as <- <-. split; [reflexivity|simpl; lia].
  - destruct s as [|c s]; [injection H as <- <-; split; [done|simpl; lia]|].
    destruct (Url.is_digit c) eqn:Hc.
    + destruct (leading_digits n s) as [d' r'] eqn:Hrec.
      injection H as <- <-. destruct (IH _ _ _ Hrec) as [Hall Hlen].
      split; [simpl; by rewrite Hc|simpl; lia].
    + injection H as <- <-. split; [done|simpl; lia].
Qed.

Lemma leading_digits_exact (n : nat) (d r : string) :
  Url.all_chars Url.is_digit d = true -> (String.length d <= n)%nat ->
  (String.length d = n \/ Url.first_char_is Url.is_digit r = false) ->
  leading_digits n (d +:+ r) = (d, r).
Proof.
  revert n. induction d as [|c d IH]; intros n Hall Hlen Hend.
  - rewrite append_nil. destruct n as [|n]; [by destruct r|].
    destruct r as [|x r]; [reflexivity|].
    destruct Hend as [Hend | Hend]; [discriminate Hend|].
    simpl in Hend |- *. by rewrite Hend.
  - simpl in Hall. apply andb_true_iff in Hall as [Hc Hall].
    destruct n as [|n]; [simpl in Hlen; lia|].
    rewrite append_cons. simpl. rewrite Hc.
    rewrite (IH n Hall); [reflexivity|simpl in Hlen; lia|].
    destruct Hend as [Hend | Hend]; [left; simpl in Hend; lia|by right].
Qed.

Lemma digit_not_space (c : ascii) :
  Url.is_digit c = true -> is_space c = false.
Proof.
  destruct c as [[|] [|] [|] [|] [|] [|] [|] [|]]; vm_compute;
    intros H; (reflexivity || discriminate H).
Qed.

Lemma first_digit_not_space (d r : string) :
  d <> "" -> Url.all_chars Url.is_digit d = true ->
  Url.first_char_is is_space (d +:+ r) = false.
Proof.
  destruct d as [|c d]; [done|]. intros _ Hall. simpl in Hall.
  apply andb_true_iff in Hall as [Hc _]. rewrite append_cons. simpl.
  by apply digit_not_space.
Qed.

Lemma length_nonempty (s : string) :
  nonempty s = true <-> (0 < String.length s)%nat.
Proof. destruct s; simpl; split; (done || lia). Qed.

(** What [match_here] returns has the shape of the pattern. *)
Lemma match_here_written (s : string) (m : date_match) :
  match_here s = Some m -> is_written_date m = true.
Proof.
  unfold match_here. intros H.
  destruct (leading_month s) as [name|] eqn:Hname; [|discriminate H].
  cbn [negb mbind option_bind] in H.
  apply leading_month_spec in Hname as (Hin & _ & _).
  apply month_name_elem in Hin.
  destruct (Url.span_chars is_space (drop 3 s)) as [space1 s1] eqn:H1.
  apply span_chars_all in H1.
  destruct (nonempty space1) eqn:Hn1; [|discriminate H].
  cbn [negb mbind option_bind] in H.
  destruct (leading_digits 2 s1) as [dd s2] eqn:H2.
  apply leading_digits_all in H2 as [H2 Hlen2].
  destruct (nonempty dd) eqn:Hn2; [|discriminate H].
  cbn [negb mbind option_bind] in H.
  destruct s2 as [|c s3]; [discriminate H|].
  destruct (Ascii.eqb c ","); [|discriminate H].
  cbn [negb mbind option_bind] in H.
  destruct (Url.span_chars is_space s3) as [space2 s4] eqn:H3.
  apply span_chars_all in H3.
  destruct (nonempty space2) eqn:Hn3; [|discriminate H].
  cbn [negb mbind option_bind] in H.
  destruct (leading_digits 4 s4) as [yyyy rest] eqn:H4.
  apply leading_digits_all in H4 as [H4 _].
  destruct (String.length yyyy =? 4)%nat eqn:Hlen4; [|discriminate H].
  cbn [negb mbind option_bind] in H.
  injection H as <-. unfold is_written_date.
  cbn [m_month m_space1 m_day m_space2 m_year].
  rewrite Hin, Hn1, H1, H2, Hn3, H3, Hlen4, H4.
  rewrite !andb_true_r. cbn [andb]. apply length_nonempty in Hn2.
  apply orb_true_iff. rewrite !Nat.eqb_eq. lia.
Qed.

(** A text of the shape of the pattern is matched where it begins. *)
Lemma match_here_complete (m : date_match) (rest : string) :
  is_written_date m = true -> match_here (group m +:+ rest) = Some m.
Proof.
  destruct m as [mo s1 dd s2 yy]. unfold is_written_date, group.
  cbn [m_month m_space1 m_day m_space2 m_year]. intros H.
  apply andb_true_iff in H as [H Hyy].
  apply andb_true_iff in H as [H Hyl]. apply Nat.eqb_eq in Hyl.
  apply andb_true_iff in H as [H Hs2].
  apply andb_true_iff in H as [H Hn2].
  apply andb_true_iff in H as [H Hdd].
  apply andb_true_iff in H as [H Hlen].
  apply andb_true_iff in H as [H Hs1].
  apply andb_true_iff in H as [Hmo Hn1].
  apply orb_true_iff in Hlen. rewrite !Nat.eqb_eq in Hlen.
  rewrite !PyStrFacts.append_assoc. unfold match_here.
  rewrite (leading_month_app _ _ Hmo). cbn [mbind option_bind].
  rewrite (drop_month_name _ _ Hmo).
  assert (Hdd_ne : dd <> "") by (intros ->; simpl in Hlen; lia).
  assert (Hyy_ne : yy <> "") by (intros ->; discriminate Hyl).
  rewrite (span_chars_exact is_space s1 _ Hs1
             (first_digit_not_space dd _ Hdd_ne Hdd)).
  rewrite Hn1. cbn [negb].
  rewrite (leading_digits_exact 2 dd _ Hdd); [|lia|by right].
  assert (Hdd_n : nonempty dd = true) by (by destruct dd).
  rewrite Hdd_n. cbn [negb].
  rewrite append_cons, append_nil. rewrite Ascii.eqb_refl. cbn [negb].
  rewrite (span_chars_exact is_space s2 _ Hs2
             (first_digit_not_space yy _ Hyy_ne Hyy)).
  rewrite Hn2. cbn [negb].
  rewrite (leading_digits_exact 4 yy rest Hyy); [|lia|by left].
  rewrite Hyl. reflexivity.
Qed.

Lemma search_cons (c : ascii) (s : string) :
  search (String c s)
  = match match_here (String c s) with
    | Some m => Some m
    | None => search s
    end.
Proof. reflexivity. Qed.

Lemma search_nonempty (s : string) (m : date_match) :
  search s = Some m -> nonempty s = true.
Proof. destruct s; [|done]. intros H. vm_compute in H. discriminate H. Qed.

Lemma occurs_here (s : string) (m : date_match) :
  occurs s "" m -> match_here s = Some m.
Proof. intros [Hm [after ->]]. by apply match_here_complete. Qed.

Lemma occurs_cons (c : ascii) (s before : string) (m : date_match) :
  occurs s before m -> occurs (String c s) (String c before) m.
Proof. intros [Hm [after ->]]. split; [exact Hm|]. by exists after. Qed.

Lemma occurs_tail (c : ascii) (s before : string) (m : date_match) :
  occurs (String c s) (String c before) m -> occurs s before m.
Proof.
  intros [Hm [after Heq]]. split; [exact Hm|]. exists after.
  rewrite append_cons in Heq. by injection Heq.
Qed.

(** [re.search] returns the first date written in the content. *)
Lemma search_first (content before : string) (m : date_match) :
  first_written content before m -> search content = Some m.
Proof.
  revert content. induction before as [|c before IH];
    intros content [Hocc Hmin].
  - pose proof (occurs_here _ _ Hocc) as Hm.
    destruct content as [|d content].
    + vm_compute in Hm. discriminate Hm.
    + by rewrite search_cons, Hm.
  - destruct Hocc as [Hm [after ->]]. rewrite append_cons, search_cons.
    destruct (match_here (String c (before +:+ group m +:+ after)))
      as [m'|] eqn:Hhere.
    + pose proof (match_here_written _ _ Hhere) as Hm'.
      apply match_here_prefix in Hhere as [rest Hrest].
      assert (Hocc' : occurs (String c before +:+ group m +:+ after) "" m').
      { split; [exact Hm'|]. exists rest. by rewrite append_cons, Hrest. }
      specialize (Hmin _ _ Hocc'). simpl in Hmin. lia.
    + apply IH. split; [split; [exact Hm|by exists after]|].
      intros before' m' Hocc'.
      specialize (Hmin _ _ (occurs_cons c _ _ _ Hocc')). simpl in Hmin. lia.
Qed.

(** ... and [None] when no date is written in it. *)
Lemma search_none (content : string) :
  (forall before m, ~ occurs content before m) -> search content = None.
Proof.
  induction content as [|c content IH]; intros Hno.
  - by vm_compute.
  - rewrite search_cons.
    destruct (match_here (String c content)) as [m|] eqn:Hhere.
    + exfalso. apply (Hno "" m). split; [by eapply match_here_written|].
      apply match_here_prefix in Hhere as [rest Hrest]. by exists rest.
    + apply IH. intros before m Hocc.
      exact (Hno _ _ (occurs_cons c _ _ _ Hocc)).
Qed.

Lemma filter_post_first_written (post : list (string * json))
    (text before : string) (m : date_match) :
  dict_get "content" post = Some (JStr text) ->
  first_written text before m ->
  filter_post post
  = Return (match strptime m with
            | Some post_date => date_geb post_date cutoff_date
            | None => false
            end).
Proof.
  intros Hget Hfirst. apply search_first in Hfirst.
  unfold filter_post. rewrite Hget. simpl.
  unfold extract_date_from_content.
  rewrite (search_nonempty _ _ Hfirst), Hfirst. simpl.
  by destruct (strptime m).
Qed.

Lemma filter_post_unwritten (post : list (string * json)) (text : string) :
  dict_get "content" post = Some (JStr text) ->
  (forall before m, ~ occurs text before m) ->
  filter_post post = Return false.
Proof.
  intros Hget Hno. apply (filter_post_undated post text Hget).
  by apply search_none.
Qed.

(** [%d] reads [1] and [01] alike, and the white space is free. *)
Lemma strptime_fields (m : date_match) (mo dd yy : string) (d : date) :
  m_month m = mo -> m_day m = dd -> m_year m = yy ->
  strptime (DateMatch mo " " dd " " yy) = Some d ->
  strptime m = Some d.
Proof.
  destruct m as [mo' s1 dd' s2 yy']. simpl. by intros -> -> ->.
Qed.

(** The first date written in the content of [post_on_cutoff]. *)
Lemma first_written_on_cutoff :
  first_written "AnnouncementsJun 1, 2024 A post." "Announcements"
    (DateMatch "Jun" " " "1" " " "2024").
Proof.
  split; [split; [reflexivity|by exists " A post."]|].
  intros before' m' [Hm' [after Heq]].
  destruct (decide (13 <= String.length before')%nat) as [|Hlt]; [done|].
  exfalso.
  assert (Hhere : match_here (drop (String.length before')
                                "AnnouncementsJun 1, 2024 A post.")
                  = Some m').
  { rewrite Heq, drop_app. by apply match_here_complete. }
  clear Heq. remember (String.length before') as n eqn:Hn. clear Hn.
  do 13 (destruct n as [|n]; [vm_compute in Hhere; discriminate Hhere|]).
  lia.
Qed.

(** C8, as the code has it.  The cutoff of the filter is inclusive, and
    the first date written in the content decides: a post whose content is
    a string is kept exactly when the first text of the shape of the
    pattern in it is a date of the calendar on or after 1 June 2024.  So
    a post whose first written date is [Jun 1, 2024] is kept and one whose
    first written date is [May 31, 2024] is dropped, whatever the white
    space and whether the day is written [1] or [01]; a post in whose
    content no date is written is dropped, and so is a post without
    content, or whose content is [null] or empty.  The loop over a section
    keeps the one and drops the others, and takes [links] and [timestamp]
    out of what it keeps. *)
Theorem first_written_date_decides :
  (forall post text before m,
     dict_get "content" post = Some (JStr text) ->
     first_written text before m ->
     filter_post post
     = Return (match strptime m with
               | Some post_date => date_geb post_date cutoff_date
               | None => false
               end)) /\
  (forall post text before m,
     dict_get "content" post = Some (JStr text) ->
     first_written text before m ->
     m_month m = "Jun" -> m_day m = "1" \/ m_day m = "01" ->
     m_year m = "2024" ->
     filter_post post = Return true) /\
  (forall post text before m,
     dict_get "content" post = Some (JStr text) ->
     first_written text before m ->
     m_month m = "May" -> m_day m = "31" -> m_year m = "2024" ->
     filter_post post = Return false) /\
  (forall d, date_geb d cutoff_date = true <->
             (2024 < year d \/
              (2024 = year d /\
               (6 < month d \/ (6 = month d /\ 1 <= day d))))%Z) /\
  (forall post text,
     dict_get "content" post = Some (JStr text) ->
     (forall before m, ~ occurs text before m) ->
     filter_post post = Return false) /\
  (forall post,
     dict_get "content" post = None \/
     dict_get "content" post = Some JNull \/
     dict_get "content" post = Some (JStr "") ->
     filter_post post = Return false) /\
  filter_post Samples.post_on_cutoff = Return true /\
  filter_post Samples.post_day_before = Return false /\
  filter_post Samples.post_undated = Return false /\
  filter_posts [JDict Samples.post_on_cutoff; JDict Samples.post_day_before;
                JDict Samples.post_undated]
  = Return [JDict [("url", JStr "https://www.anthropic.com/news/a");
                   ("title", JStr "A");
                   ("content", JStr "AnnouncementsJun 1, 2024 A post.")]].
Proof.
  split; [exact filter_post_first_written|].
  split.
  { intros post text before m Hget Hfirst Hmo Hdd Hyy.
    rewrite (filter_post_first_written _ _ _ _ Hget Hfirst).
    destruct Hdd as [Hdd | Hdd].
    - by rewrite (strptime_fields m "Jun" "1" "2024" (Date 2024 6 1)
                    Hmo Hdd Hyy eq_refl).
    - by rewrite (strptime_fields m "Jun" "01" "2024" (Date 2024 6 1)
                    Hmo Hdd Hyy eq_refl). }
  split.
  { intros post text before m Hget Hfirst Hmo Hdd Hyy.
    rewrite (filter_post_first_written _ _ _ _ Hget Hfirst).
    by rewrite (strptime_fields m "May" "31" "2024" (Date 2024 5 31)
                  Hmo Hdd Hyy eq_refl). }
  split; [intros d; apply (date_geb_spec d cutoff_date)|].
  split; [exact filter_post_unwritten|].
  split.
  { intros post [H | [H | H]]; unfold filter_post; by rewrite H. }
  repeat split; by vm_compute.
Qed.

(** The witness of C8: the post dated on the cutoff day. *)
Lemma first_written_date_decides_witness :
  dict_get "content" Samples.post_on_cutoff
  = Some (JStr "AnnouncementsJun 1, 2024 A post.") /\
  first_written "AnnouncementsJun 1, 2024 A post." "Announcements"
    (DateMatch "Jun" " " "1" " " "2024") /\
  filter_post Samples.post_on_cutoff = Return true.
Proof.
  assert (Hg : dict_get "content" Samples.post_on_cutoff
               = Some (JStr "AnnouncementsJun 1, 2024 A post."))
    by reflexivity.
  split; [exact Hg|]. split; [exact first_written_on_cutoff|].
  exact (proj1 (proj2 first_written_date_decides) Samples.post_on_cutoff
           _ _ _ Hg first_written_on_cutoff eq_refl (or_introl eq_refl)
           eq_refl).
Defined.

(** C8 as stated fails: the content of [post_two_dates] holds the date of
    the cutoff day, written as the pattern has it, and the post is
    dropped, because the date written before it is a day earlier. *)
Lemma cutoff_date_after_another_dropped :
  dict_get "content" Samples.post_two_dates
  = Some (JStr "Updated May 31, 2024. First published Jun 1, 2024.") /\
  occurs "Updated May 31, 2024. First published Jun 1, 2024."
    "Updated May 31, 2024. First published "
    (DateMatch "Jun" " " "1" " " "2024") /\
  strptime (DateMatch "Jun" " " "1" " " "2024") = Some cutoff_date /\
  filter_post Samples.post_two_dates = Return false /\
  ~ (forall post text before m,
       dict_get "content" post = Some (JStr text) ->
       occurs text before m ->
       strptime m = Some cutoff_date ->
       filter_post post = Return true).
Proof.
  assert (Hocc : occurs "Updated May 31, 2024. First published Jun 1, 2024."
                   "Updated May 31, 2024. First published "
                   (DateMatch "Jun" " " "1" " " "2024"))
    by (split; [reflexivity|by exists "."]).
  split; [reflexivity|]. split; [exact Hocc|]. split; [reflexivity|].
  split; [by vm_compute|].
  intros H. specialize (H Samples.post_two_dates _ _ _ eq_refl Hocc eq_refl).
  vm_compute in H. discriminate H.
Qed.

End FilterJsonFacts.

(** ** [split_json.py]: the search and the split in general *)

Module SplitJsonMoreFacts.
Import PyOutcome Json SplitJson SplitJsonSearch SplitJsonFacts.

(** The search finds nothing exactly when there is nothing to compare. *)
Lemma find_largest_array_none (data : json) :
  find_largest_array [] data None = None <-> compared_arrays [] data = [].
Proof.
  rewrite find_largest_array_as_foldl.
  pose proof (foldl_keep_longer (compared_arrays [] data) None) as H.
  destruct (foldl keep_longer None (compared_arrays [] data)) as [r|].
  - split; [intros E; discriminate E|]. intros E.
    destruct H as [[E' _] | (b & a & E' & _)]; [discriminate E'|].
    rewrite E in E'. by destruct b.
  - by destruct H as [_ H].
Qed.

(** X3.  What the search returns.  It returns [None] exactly when the
    document has no array that can be reached through the values of objects
    alone.  Otherwise it returns one of those arrays, with its place: the
    first, in document order, of the longest among them. *)
Theorem find_largest_array_first_longest (data : json) :
  (find_largest_array [] data None = None <-> compared_arrays [] data = [])
  /\
  (forall p arr,
     find_largest_array [] data None = Some (p, arr) ->
     exists before after,
       compared_arrays [] data = before ++ (p, arr) :: after /\
       Forall (fun o => (length o.2 < length arr)%nat) before /\
       Forall (fun o => (length o.2 <= length arr)%nat) after).
Proof.
  rewrite find_largest_array_as_foldl.
  pose proof (foldl_keep_longer (compared_arrays [] data) None) as H.
  destruct (foldl keep_longer None (compared_arrays [] data)) as [r|].
  - split.
    + split; [intros E; discriminate E|]. intros E.
      destruct H as [[E' _] | (b & a & E' & _)]; [discriminate E'|].
      rewrite E in E'. by destruct b.
    + intros p arr [= ->].
      destruct H as [[E' _] | (b & a & E' & Hb & _ & Ha)]; [discriminate E'|].
      by exists b, a.
  - destruct H as [_ H]. split; [done|]. intros p arr E. discriminate E.
Qed.

(** The witness of X3: the document with thirteen posts. *)
Lemma find_largest_array_first_longest_witness :
  find_largest_array [] Samples.thirteen_doc None
  = Some ([3%nat], Samples.thirteen_posts) /\
  exists before after,
    compared_arrays [] Samples.thirteen_doc
    = before ++ ([3%nat], Samples.thirteen_posts) :: after /\
    Forall (fun o => (length o.2 < length Samples.thirteen_posts)%nat) before /\
    Forall (fun o => (length o.2 <= length Samples.thirteen_posts)%nat) after.
Proof.
  assert (H : find_largest_array [] Samples.thirteen_doc None
              = Some ([3%nat], Samples.thirteen_posts)) by reflexivity.
  split; [exact H|].
  exact (proj2 (find_largest_array_first_longest Samples.thirteen_doc) _ _ H).
Defined.

(** [math.ceil(n / parts)] for [0 <= n] and [0 < parts]: the least [k] with
    [n <= parts * k]. *)
Lemma ceil_div_bounds (n parts : Z) :
  (0 <= n)%Z -> (0 < parts)%Z ->
  (n <= parts * ceil_div n parts /\ parts * ceil_div n parts < n + parts)%Z.
Proof.
  intros Hn Hp. unfold ceil_div.
  pose proof (Z.div_mod (- n) parts ltac:(lia)) as Hdm.
  pose proof (Z.mod_pos_bound (- n) parts Hp) as Hr.
  nia.
Qed.

Lemma slice_chunk (arr : list json) (i k : nat) :
  (0 < k)%nat -> (i * k < length arr)%nat ->
  slice arr (Z.of_nat i * Z.of_nat k)
    (Z.min ((Z.of_nat i + 1) * Z.of_nat k) (Z.of_nat (length arr)))
  = take k (drop (i * k) arr).
Proof.
  intros Hk Hlt. unfold slice.
  replace (Z.to_nat (Z.of_nat i * Z.of_nat k)) with (i * k)%nat by lia.
  destruct (decide (k <= length arr - i * k)%nat) as [Hle|Hgt].
  - f_equal. lia.
  - rewrite (take_ge _ k) by (rewrite length_drop; lia).
    apply take_ge. rewrite length_drop. lia.
Qed.

(** The slices of the loop, chunk by chunk. *)
Lemma part_arrays_chunks (arr : list json) (k : nat) :
  (0 < k)%nat ->
  forall m i,
    concat (part_arrays arr (Z.of_nat k) (seq i m))
    = take (m * k) (drop (i * k) arr) /\
    (length (part_arrays arr (Z.of_nat k) (seq i m)) <= m)%nat /\
    forall j c,
      part_arrays arr (Z.of_nat k) (seq i m) !! j = Some c ->
      ((i + j) * k < length arr)%nat /\
      c = take k (drop ((i + j) * k) arr).
Proof.
  intros Hk. induction m as [|m IH]; intros i.
  { simpl. split; [done|]. split; [done|]. intros j c H. discriminate H. }
  simpl seq. simpl part_arrays.
  destruct (Z.of_nat (length arr) <=? Z.of_nat i * Z.of_nat k)%Z eqn:Hstop.
  - apply Z.leb_le in Hstop. simpl.
    rewrite drop_ge by lia. rewrite take_nil.
    split; [done|]. split; [lia|]. intros j c H. discriminate H.
  - apply Z.leb_gt in Hstop.
    assert (Hlt : (i * k < length arr)%nat) by lia.
    rewrite slice_chunk by done.
    destruct (IH (S i)) as (Hcat & Hlen & Hpos). simpl.
    split; [|split; [lia|]].
    + rewrite Hcat.
      replace (S i * k)%nat with (i * k + k)%nat by lia.
      rewrite <- drop_drop. apply take_take_drop.
    + intros [|j] c Hj; simpl in Hj.
      * injection Hj as <-. by rewrite Nat.add_0_r.
      * destruct (Hpos j c Hj) as [Hb Hc].
        replace (i + S j)%nat with (S i + j)%nat by lia. done.
Qed.

(** The whole run, for a positive number of parts. *)
Lemma split_chunks (arr : list json) (num_parts : Z) :
  (0 < num_parts)%Z ->
  let k := Z.to_nat (ceil_div (Z.of_nat (length arr)) num_parts) in
  let chunks :=
    part_arrays arr (ceil_div (Z.of_nat (length arr)) num_parts)
      (seq 0 (Z.to_nat num_parts)) in
  concat chunks = arr /\
  (Z.of_nat (length chunks) <= num_parts)%Z /\
  forall j c,
    chunks !! j = Some c ->
    (j * k < length arr)%nat /\ c = take k (drop (j * k) arr) /\
    length c = Nat.min k (length arr - j * k) /\ c <> [].
Proof.
  intros Hp k chunks.
  destruct (ceil_div_bounds (Z.of_nat (length arr)) num_parts) as [Hlo Hhi];
    [lia..|].
  destruct (decide (length arr = 0)%nat) as [Hz|Hnz].
  { destruct arr; [|discriminate Hz]. subst chunks.
    destruct (Z.to_nat num_parts) as [|n] eqn:Hn; [lia|].
    simpl. split; [done|]. split; [lia|]. intros j c H. discriminate H. }
  assert (Hk : (0 < k)%nat) by (subst k; nia).
  assert (Hkz : ceil_div (Z.of_nat (length arr)) num_parts = Z.of_nat k)
    by (subst k; lia).
  subst chunks. rewrite Hkz.
  destruct (part_arrays_chunks arr k Hk (Z.to_nat num_parts) 0)
    as (Hcat & Hlen & Hpos).
  split; [|split; [lia|]].
  - rewrite Hcat. simpl. rewrite drop_0. apply take_ge. nia.
  - intros j c Hj. destruct (Hpos j c Hj) as [Hb Hc].
    change (0 + j)%nat with j in Hb, Hc. subst c.
    split; [done|]. split; [done|].
    assert (Hl : length (take k (drop (j * k) arr))
                 = Nat.min k (length arr - j * k))
      by (by rewrite length_take, length_drop).
    split; [done|]. intros E. rewrite E in Hl. simpl in Hl. lia.
Qed.

(** X1.  The split loses nothing.  For every document in which the search
    finds an array and every positive number of parts, the parts written
    hold consecutive slices of that array which, put end to end, are the
    array; each part has its slice at the place of the array, and is the
    source document again once the whole array is put back.  The two
    numbers are below [2 ^ 53], where the division of the source, done on
    floating-point numbers, rounds up to the exact quotient. *)
Theorem split_is_lossless
    (data : json) (num_parts : Z) (largest : place) (arr : list json) :
  find_largest_array [] data None = Some (largest, arr) ->
  (0 < num_parts < 2 ^ 53)%Z ->
  (Z.of_nat (length arr) < 2 ^ 53)%Z ->
  exists chunks,
    split_json_file data num_parts
    = Return (map (replace_array_in_structure largest [] data) chunks) /\
    concat chunks = arr /\
    Forall (fun chunk =>
              let part := replace_array_in_structure largest [] data chunk in
              array_at largest part = Some chunk /\
              replace_array_in_structure largest [] part arr = data)
           chunks.
Proof.
  intros Hfind [Hp _] _.
  pose proof (largest_array_at _ _ _ Hfind) as Hat.
  destruct (split_chunks arr num_parts Hp) as (Hcat & _).
  eexists. split.
  { unfold split_json_file. rewrite Hfind.
    destruct (num_parts =? 0)%Z eqn:Hz; [lia|]. reflexivity. }
  split; [exact Hcat|].
  apply Forall_forall. intros chunk _. split.
  - by apply (replace_at largest data [] chunk _ Hat).
  - by apply (replace_back largest data [] chunk _ Hat).
Qed.

(** The witness of X1: thirteen posts in four parts. *)
Lemma split_is_lossless_witness :
  find_largest_array [] Samples.thirteen_doc None
  = Some ([3%nat], Samples.thirteen_posts) /\
  (0 < 4 < 2 ^ 53)%Z /\
  (Z.of_nat (length Samples.thirteen_posts) < 2 ^ 53)%Z /\
  exists chunks,
    split_json_file Samples.thirteen_doc 4
    = Return (map (replace_array_in_structure [3%nat] [] Samples.thirteen_doc)
                  chunks) /\
    concat chunks = Samples.thirteen_posts.
Proof.
  assert (Hf : find_largest_array [] Samples.thirteen_doc None
               = Some ([3%nat], Samples.thirteen_posts)) by reflexivity.
  assert (Hp : (0 < 4 < 2 ^ 53)%Z) by (split; reflexivity).
  assert (Hl : (Z.of_nat (length Samples.thirteen_posts) < 2 ^ 53)%Z)
    by reflexivity.
  split; [exact Hf|]. split; [exact Hp|]. split; [exact Hl|].
  destruct (split_is_lossless Samples.thirteen_doc 4 [3%nat]
              Samples.thirteen_posts Hf Hp Hl) as (chunks & Hs & Hc & _).
  exists chunks. split; [exact Hs | exact Hc].
Defined.

(** X2.  The sizes of the parts.  With [k] the quotient of the length of
    the array by the number of parts, rounded up, part [j] holds the [k]
    items from position [j * k] on, fewer when the array ends before: no
    part is empty, every part but the last has exactly [k] items, and there
    are at most as many parts as were asked for.  The two numbers are below
    [2 ^ 53], as in X1. *)
Theorem split_part_sizes
    (data : json) (num_parts : Z) (largest : place) (arr : list json) :
  find_largest_array [] data None = Some (largest, arr) ->
  (0 < num_parts < 2 ^ 53)%Z ->
  (Z.of_nat (length arr) < 2 ^ 53)%Z ->
  let k := Z.to_nat (ceil_div (Z.of_nat (length arr)) num_parts) in
  exists chunks,
    split_json_file data num_parts
    = Return (map (replace_array_in_structure largest [] data) chunks) /\
    (Z.of_nat (length chunks) <= num_parts)%Z /\
    forall j c,
      chunks !! j = Some c ->
      c = take k (drop (j * k) arr) /\
      c <> [] /\
      length c = Nat.min k (length arr - j * k) /\
      (S j < length chunks -> length c = k)%nat.
Proof.
  intros Hfind [Hp _] _ k.
  destruct (split_chunks arr num_parts Hp) as (_ & Hlen & Hpos).
  eexists. split.
  { unfold split_json_file. rewrite Hfind.
    destruct (num_parts =? 0)%Z eqn:Hz; [lia|]. reflexivity. }
  split; [exact Hlen|].
  intros j c Hj. destruct (Hpos j c Hj) as (Hb & Hc & Hl & Hne).
  split; [exact Hc|]. split; [exact Hne|]. split; [exact Hl|].
  intros Hnext. fold k in Hl. rewrite Hl.
  destruct (lookup_lt_is_Some_2 _ (S j) Hnext) as [c' Hj'].
  destruct (Hpos (S j) c' Hj') as (Hb' & _). fold k in Hb'. lia.
Qed.

(** The witness of X2: thirteen posts in ten parts. *)
Lemma split_part_sizes_witness :
  find_largest_array [] Samples.thirteen_doc None
  = Some ([3%nat], Samples.thirteen_posts) /\
  (0 < 10 < 2 ^ 53)%Z /\
  (Z.of_nat (length Samples.thirteen_posts) < 2 ^ 53)%Z /\
  exists chunks,
    split_json_file Samples.thirteen_doc 10
    = Return (map (replace_array_in_structure [3%nat] [] Samples.thirteen_doc)
                  chunks) /\
    (Z.of_nat (length chunks) <= 10)%Z.
Proof.
  assert (Hf : find_largest_array [] Samples.thirteen_doc None
               = Some ([3%nat], Samples.thirteen_posts)) by reflexivity.
  assert (Hp : (0 < 10 < 2 ^ 53)%Z) by (split; reflexivity).
  assert (Hl : (Z.of_nat (length Samples.thirteen_posts) < 2 ^ 53)%Z)
    by reflexivity.
  split; [exact Hf|]. split; [exact Hp|]. split; [exact Hl|].
  destruct (split_part_sizes Samples.thirteen_doc 10 [3%nat]
              Samples.thirteen_posts Hf Hp Hl) as (chunks & Hs & Hn & _).
  exists chunks. split; [exact Hs | exact Hn].
Defined.

(** X4.  When nothing is written.  A document without an array that the
    search can reach makes the split raise [ValueError]; with such an
    array, zero parts make it raise [ZeroDivisionError], a negative number
    of parts writes nothing, and so does an empty array, whatever the
    number of parts. *)
Theorem split_edge_cases (data : json) (num_parts : Z) :
  (compared_arrays [] data = [] ->
   split_json_file data num_parts = Raise ValueError) /\
  (compared_arrays [] data <> [] ->
   split_json_file data 0 = Raise ZeroDivisionError) /\
  (compared_arrays [] data <> [] -> (num_parts < 0)%Z ->
   split_json_file data num_parts = Return []) /\
  (forall largest,
     find_largest_array [] data None = Some (largest, []) ->
     num_parts <> 0%Z ->
     split_json_file data num_parts = Return []).
Proof.
  pose proof (find_largest_array_none data) as Hnone.
  unfold split_json_file.
  destruct (find_largest_array [] data None) as [[largest arr]|] eqn:Hfind.
  - assert (Hsome : compared_arrays [] data <> []).
    { intros E. apply Hnone in E. discriminate E. }
    split; [done|]. split; [done|]. split.
    + intros _ Hneg. destruct (num_parts =? 0)%Z eqn:Hz; [lia|].
      by replace (Z.to_nat num_parts) with 0%nat by lia.
    + intros l [= _ ->] Hnz.
      destruct (num_parts =? 0)%Z eqn:Hz; [lia|].
      by destruct (Z.to_nat num_parts).
  - split; [done|].
    assert (Hempty : compared_arrays [] data = []) by (by apply Hnone).
    split; [done|]. split; [done|]. intros l E. discriminate E.
Qed.

(** The witness of X4: an object without an array, and the document with
    thirteen posts. *)
Lemma split_edge_cases_witness :
  compared_arrays [] (JDict [("home", JNull)]) = [] /\
  split_json_file (JDict [("home", JNull)]) 5 = Raise ValueError /\
  compared_arrays [] Samples.thirteen_doc <> [] /\
  split_json_file Samples.thirteen_doc 0 = Raise ZeroDivisionError.
Proof.
  assert (H1 : compared_arrays [] (JDict [("home", JNull)]) = [])
    by reflexivity.
  assert (H2 : compared_arrays [] Samples.thirteen_doc <> [])
    by (vm_compute; discriminate).
  split; [exact H1|]. split.
  - exact (proj1 (split_edge_cases (JDict [("home", JNull)]) 5) H1).
  - split; [exact H2|].
    exact (proj1 (proj2 (split_edge_cases Samples.thirteen_doc 5)) H2).
Defined.

End SplitJsonMoreFacts.

(** ** [filter_json.py]: the filter of the Anthropic document *)

Module FilterDataFacts.
Import PyStr PyOutcome Json FilterJson FilterData.

Lemma dict_pop_cons (key k0 : string) (v : json) (d : list (string * json)) :
  dict_pop key ((k0, v) :: d)
  = if String.eqb k0 key then dict_pop key d else (k0, v) :: dict_pop key d.
Proof.
  unfold dict_pop. destruct (String.eqb k0 key) eqn:Hk.
  - apply filter_cons_False. simpl. rewrite Hk. simpl. tauto.
  - apply filter_cons_True. simpl. by rewrite Hk.
Qed.

Lemma dict_get_pop_ne (k key : string) (d : list (string * json)) :
  k <> key -> dict_get k (dict_pop key d) = dict_get k d.
Proof.
  intros Hne. induction d as [|[k0 v] d IH]; [done|].
  rewrite dict_pop_cons. simpl.
  destruct (String.eqb k0 key) eqn:Hk; simpl.
  - apply String.eqb_eq in Hk as ->.
    destruct (String.eqb key k) eqn:Hkk; [|done].
    apply String.eqb_eq in Hkk. congruence.
  - by rewrite IH.
Qed.

Lemma dict_get_pop_eq (key : string) (d : list (string * json)) :
  dict_get key (dict_pop key d) = None.
Proof.
  induction d as [|[k0 v] d IH]; [done|].
  rewrite dict_pop_cons.
  destruct (String.eqb k0 key) eqn:Hk; simpl; [done|]. by rewrite Hk.
Qed.

Lemma dict_pop_idem (key : string) (d : list (string * json)) :
  dict_pop key (dict_pop key d) = dict_pop key d.
Proof.
  unfold dict_pop. rewrite list_filter_filter. apply list_filter_iff.
  intros x. tauto.
Qed.

Lemma dict_pop_comm (k1 k2 : string) (d : list (string * json)) :
  dict_pop k1 (dict_pop k2 d) = dict_pop k2 (dict_pop k1 d).
Proof.
  unfold dict_pop. rewrite !list_filter_filter. apply list_filter_iff.
  intros x. tauto.
Qed.

Lemma without_links_idem (post : list (string * json)) :
  without_links (without_links post) = without_links post.
Proof.
  unfold without_links.
  rewrite (dict_pop_comm "links" "timestamp"). by rewrite !dict_pop_idem.
Qed.

(** A kept post loses [links] and [timestamp] and nothing else. *)
Lemma without_links_get (post : list (string * json)) (k : string) :
  dict_get k (without_links post)
  = if bool_decide (k = "links" \/ k = "timestamp") then None
    else dict_get k post.
Proof.
  unfold without_links. case_bool_decide as Hk.
  - destruct Hk as [-> | ->].
    + rewrite dict_get_pop_ne by discriminate. apply dict_get_pop_eq.
    + apply dict_get_pop_eq.
  - rewrite !dict_get_pop_ne by (intros ->; tauto). done.
Qed.

Lemma filter_post_without_links (post : list (string * json)) :
  filter_post (without_links post) = filter_post post.
Proof.
  unfold filter_post. by rewrite without_links_get.
Qed.

Lemma dict_get_set_eq (key : string) (v : json) (d : list (string * json)) :
  dict_get key (dict_set key v d) = Some v.
Proof.
  induction d as [|[k0 x] d IH]; simpl.
  - by rewrite String.eqb_refl.
  - destruct (String.eqb k0 key) eqn:Hk; simpl; by rewrite Hk.
Qed.

Lemma dict_get_set_ne (k key : string) (v : json) (d : list (string * json)) :
  k <> key -> dict_get k (dict_set key v d) = dict_get k d.
Proof.
  intros Hne. induction d as [|[k0 x] d IH]; simpl.
  - destruct (String.eqb key k) eqn:Hk; [|done].
    apply String.eqb_eq in Hk. congruence.
  - destruct (String.eqb k0 key) eqn:Hk; simpl.
    + apply String.eqb_eq in Hk as ->.
      destruct (String.eqb key k) eqn:Hkk; [|done].
      apply String.eqb_eq in Hkk. congruence.
    + by rewrite IH.
Qed.

Lemma dict_set_same (key : string) (v : json) (d : list (string * json)) :
  dict_get key d = Some v -> dict_set key v d = d.
Proof.
  induction d as [|[k0 x] d IH]; simpl; [done|].
  destruct (String.eqb k0 key) eqn:Hk.
  - by intros [= ->].
  - intros H. by rewrite IH.
Qed.

Lemma dict_set_keys (key : string) (v : json) (d : list (string * json)) :
  is_Some (dict_get key d) -> (dict_set key v d).*1 = d.*1.
Proof.
  induction d as [|[k0 x] d IH]; simpl.
  - by intros [? ?].
  - destruct (String.eqb k0 key) eqn:Hk; simpl; [done|].
    intros H. f_equal. exact (IH H).
Qed.

Lemma filter_posts_unfold (post : list (string * json)) (rest : list json) :
  filter_posts (JDict post :: rest)
  = (keep ← filter_post post;
     kept ← filter_posts rest;
     Return (if (keep : bool) then JDict (without_links post) :: kept
             else kept)).
Proof. reflexivity. Qed.

(** The loop over a section, post by post. *)
Lemma filter_posts_cons (post : list (string * json)) (rest kept : list json) :
  filter_posts (JDict post :: rest) = Return kept ->
  exists keep kept',
    filter_post post = Return keep /\ filter_posts rest = Return kept' /\
    kept = if keep then JDict (without_links post) :: kept' else kept'.
Proof.
  rewrite filter_posts_unfold.
  destruct (filter_post post) as [e|keep]; [discriminate|].
  destruct (filter_posts rest) as [e|kept']; [discriminate|].
  intros [= <-]. by exists keep, kept'.
Qed.

Lemma filter_posts_idem (posts kept : list json) :
  filter_posts posts = Return kept -> filter_posts kept = Return kept.
Proof.
  revert kept. induction posts as [|p posts IH]; intros kept H.
  { simpl in H. by injection H as <-. }
  destruct p as [| | | | |post]; try discriminate H.
  apply filter_posts_cons in H as (keep & kept' & Hk & Hrest & ->).
  specialize (IH _ Hrest). destruct keep; [|done].
  rewrite filter_posts_unfold, filter_post_without_links, Hk, IH.
  cbn [mbind outcome_bind]. by rewrite without_links_idem.
Qed.


Lemma filter_posts_scraped (posts : list json) :
  Forall scraped_post posts -> exists kept, filter_posts posts = Return kept.
Proof.
  induction 1 as [|p posts (d & -> & Hc) _ [kept IH]]; [by exists []|].
  simpl. rewrite IH.
  assert (exists keep, filter_post d = Return keep) as [keep ->].
  { unfold filter_post. destruct (dict_get "content" d) as [v|]; [|by eexists].
    destruct (Hc v eq_refl) as [-> | [s ->]]; simpl; [by eexists|].
    destruct (nonempty s); simpl; [|by eexists].
    destruct (extract_date_from_content s); by eexists. }
  simpl. by eexists.
Qed.

(** One section: what [filter_section] returns. *)
Lemma filter_section_cases (key : string) (data data' : list (string * json)) :
  filter_section key data = Return data' ->
  (dict_get key data = None /\ data' = data) \/
  (exists section posts kept,
     dict_get key data = Some section /\ iterate section = Return posts /\
     filter_posts posts = Return kept /\
     data' = dict_set key (JList kept) data).
Proof.
  unfold filter_section.
  destruct (dict_get key data) as [section|]; [|intros [= <-]; by left].
  destruct (iterate section) as [e|posts] eqn:Hit; [discriminate|]. simpl.
  destruct (filter_posts posts) as [e|kept] eqn:Hf; [discriminate|]. simpl.
  intros [= <-]. right. by exists section, posts, kept.
Qed.

Lemma filter_section_other (key k : string)
    (data data' : list (string * json)) :
  filter_section key data = Return data' -> k <> key ->
  dict_get k data' = dict_get k data.
Proof.
  intros H Hne.
  apply filter_section_cases in H
    as [[_ ->] | (section & posts & kept & _ & _ & _ & ->)]; [done|].
  by apply dict_get_set_ne.
Qed.


(** A section that was filtered is left as it is by the next run. *)
Lemma filter_section_fixed (key : string) (data : list (string * json)) :
  (dict_get key data = None \/
   exists kept, dict_get key data = Some (JList kept) /\
                filter_posts kept = Return kept) ->
  filter_section key data = Return data.
Proof.
  unfold filter_section. intros [-> | (kept & Hget & Hf)]; [done|].
  rewrite Hget. simpl. rewrite Hf. simpl. by rewrite dict_set_same.
Qed.

Lemma filter_section_result (key : string) (data data' : list (string * json)) :
  filter_section key data = Return data' ->
  dict_get key data' = None \/
  exists kept, dict_get key data' = Some (JList kept) /\
               filter_posts kept = Return kept.
Proof.
  intros H.
  apply filter_section_cases in H
    as [[Hn ->] | (section & posts & kept & _ & _ & Hf & ->)]; [by left|].
  right. exists kept. split; [apply dict_get_set_eq|].
  by eapply filter_posts_idem.
Qed.

Lemma filter_anthropic_data_steps (data data' : list (string * json)) :
  filter_anthropic_data data = Return data' ->
  exists data1,
    filter_section "research_posts" data = Return data1 /\
    filter_section "news_posts" data1 = Return data'.
Proof.
  unfold filter_anthropic_data.
  destruct (filter_section "research_posts" data) as [e|data1];
    [discriminate|].
  simpl. intros H. by exists data1.
Qed.

(** X5.  Filtering twice is filtering once: a document the filter has
    returned is returned unchanged when it is filtered again. *)
Theorem filter_anthropic_data_idempotent (data data' : list (string * json)) :
  filter_anthropic_data data = Return data' ->
  filter_anthropic_data data' = Return data'.
Proof.
  intros H. apply filter_anthropic_data_steps in H as (data1 & H1 & H2).
  pose proof (filter_section_result _ _ _ H1) as R1.
  pose proof (filter_section_result _ _ _ H2) as R2.
  assert (R1' : dict_get "research_posts" data' = None \/
                exists kept, dict_get "research_posts" data' = Some (JList kept)
                             /\ filter_posts kept = Return kept).
  { by rewrite (filter_section_other _ "research_posts" _ _ H2). }
  unfold filter_anthropic_data.
  rewrite (filter_section_fixed _ _ R1'). simpl.
  by apply filter_section_fixed.
Qed.

(** The witness of X5: the sample document. *)
Lemma filter_anthropic_data_idempotent_witness :
  exists data',
    filter_anthropic_data MoreSamples.anthropic_doc = Return data' /\
    filter_anthropic_data data' = Return data'.
Proof.
  eexists. split; [by vm_compute|].
  apply (filter_anthropic_data_idempotent MoreSamples.anthropic_doc).
  by vm_compute.
Defined.

(** X6.  The filter returns on every document the scraper writes: when
    each of the two sections is absent or an array of objects whose
    [content] is absent, [null] or a string, no exception leaves it. *)
Theorem filter_anthropic_data_returns (data : list (string * json)) :
  scraped_section "research_posts" data ->
  scraped_section "news_posts" data ->
  exists data', filter_anthropic_data data = Return data'.
Proof.
  intros Hr Hn.
  assert (Hsec : forall key d, scraped_section key d ->
                               exists d', filter_section key d = Return d').
  { intros key d Hs. unfold filter_section.
    destruct (dict_get key d) as [v|] eqn:Hget; [|by eexists].
    destruct (Hs v) as (posts & -> & Hall); [done|]. simpl.
    destruct (filter_posts_scraped posts Hall) as [kept ->]. simpl.
    by eexists. }
  destruct (Hsec _ _ Hr) as [data1 H1].
  unfold filter_anthropic_data. rewrite H1. simpl.
  apply Hsec. intros v Hv. apply Hn.
  by rewrite <- (filter_section_other _ "news_posts" _ _ H1).
Qed.

(** The witness of X6: the sample document. *)
Lemma filter_anthropic_data_returns_witness :
  scraped_section "research_posts" MoreSamples.anthropic_doc /\
  scraped_section "news_posts" MoreSamples.anthropic_doc /\
  exists data', filter_anthropic_data MoreSamples.anthropic_doc = Return data'.
Proof.
  assert (Hpost : forall d s,
            dict_get "content" d = Some (JStr s) -> scraped_post (JDict d)).
  { intros d s Hd. exists d. split; [done|]. intros v Hv. right. exists s.
    congruence. }
  assert (Hr : scraped_section "research_posts" MoreSamples.anthropic_doc).
  { intros v [= <-]. eexists. split; [done|].
    repeat constructor. by eapply Hpost. }
  assert (Hn : scraped_section "news_posts" MoreSamples.anthropic_doc).
  { intros v [= <-]. eexists. split; [done|].
    repeat constructor; by eapply Hpost. }
  split; [exact Hr|]. split; [exact Hn|].
  exact (filter_anthropic_data_returns MoreSamples.anthropic_doc Hr Hn).
Defined.



End FilterDataFacts.

(** ** The registry, the command line and the file names *)

Module RegistryFacts.
Import PyStr PyOutcome Adapters Registry.

Lemma create_scraper_base_url (a : adapter) :
  create_scraper (base_url a) = Return a.
Proof. destruct a; by vm_compute. Qed.

Lemma create_scraper_raises (url : string) :
  create_scraper url = Raise ValueError <->
  Forall (fun id => contains id url = false) identifiers.
Proof.
  unfold create_scraper, identifiers. split.
  - intros H.
    repeat match type of H with
           | (if contains ?id url then _ else _) = _ =>
               destruct (contains id url) eqn:?; [discriminate H|]
           end.
    repeat (constructor; [assumption|]). constructor.
  - intros H. repeat (apply Forall_cons in H as [-> H]). reflexivity.
Qed.

Lemma create_scraper_first (url : string) (a : adapter) :
  create_scraper url = Return a ->
  exists before id after,
    identifiers = before ++ id :: after /\
    contains id url = true /\ contains id (base_url a) = true /\
    Forall (fun id' => contains id' url = false) before.
Proof.
  unfold create_scraper, identifiers. intros H.
  repeat match type of H with
         | (if contains ?id url then _ else _) = _ =>
             let E := fresh "E" in
             destruct (contains id url) eqn:E;
             [ injection H as <-;
               match goal with
               | |- exists before id' after,
                      ?l = _ /\ _ =>
                   let rec go pre l :=
                     lazymatch l with
                     | id :: ?tl => exists pre, id, tl
                     | ?x :: ?tl => go (pre ++ [x]) tl
                     end in
                   go (@nil string) l
               end;
               split; [reflexivity|]; split; [exact E|];
               split; [by vm_compute|]; repeat constructor; assumption
             | ]
         end.
  discriminate H.
Qed.

(** X8.  The registry.  The scraper made for the base URL of an adapter is
    that adapter.  The scraper made for any URL is the adapter of the
    first of the ten identifiers, in the order of the source, that occurs
    in it; when none occurs, and only then, [create_scraper] raises
    [ValueError]. *)
Theorem create_scraper_registry :
  (forall a, create_scraper (base_url a) = Return a) /\
  (forall url a,
     create_scraper url = Return a ->
     exists before id after,
       identifiers = before ++ id :: after /\
       contains id url = true /\ contains id (base_url a) = true /\
       Forall (fun id' => contains id' url = false) before) /\
  (forall url,
     create_scraper url = Raise ValueError <->
     Forall (fun id => contains id url = false) identifiers) /\
  (forall url e, create_scraper url = Raise e -> e = ValueError).
Proof.
  split; [exact create_scraper_base_url|].
  split; [exact create_scraper_first|].
  split; [exact create_scraper_raises|].
  intros url e. unfold create_scraper.
  repeat match goal with
         | |- (if ?c then _ else _) = _ -> _ => destruct c; [discriminate|]
         end.
  by intros [= <-].
Qed.

(** The witness of X8: a URL of the second publisher. *)
Lemma create_scraper_registry_witness :
  create_scraper "https://www.aisi.gov.uk/work" = Return Aisi /\
  exists before id after,
    identifiers = before ++ id :: after /\
    contains id "https://www.aisi.gov.uk/work" = true /\
    contains id (base_url Aisi) = true /\
    Forall (fun id' => contains id' "https://www.aisi.gov.uk/work" = false)
           before.
Proof.
  assert (H : create_scraper "https://www.aisi.gov.uk/work" = Return Aisi)
    by (vm_compute; reflexivity).
  split; [exact H|].
  exact (proj1 (proj2 create_scraper_registry) _ _ H).
Defined.

(** X9.  The command line and the registry agree.  Whatever argument the
    main block accepts, it scrapes one website, and for that website
    [create_scraper] returns an adapter whose base URL the website starts
    with; without an argument it scrapes ten websites, and the registry
    makes of them the ten adapters, each once. *)
Theorem command_line_websites_supported :
  (forall argument websites,
     chosen_websites (Some argument) = Some websites ->
     exists website a,
       websites = [website] /\ website ∈ default_websites /\
       create_scraper website = Return a /\
       startswith (base_url a) website = true) /\
  chosen_websites None = Some default_websites /\
  create_scraper <$> default_websites
  = [Return Metr; Return Aisi; Return Lakera; Return NistAisi;
     Return CanadianAisi; Return Apollo; Return Anthropic; Return DeepMind;
     Return CSER; Return CHAI].
Proof.
  split; [|split; [reflexivity | by vm_compute]].
  intros argument websites. unfold chosen_websites.
  repeat match goal with
         | |- (if ?c then _ else _) = _ -> _ =>
             destruct c;
             [ intros [= <-]; eexists _, _; split; [reflexivity|];
               split; [apply list_elem_of_In; simpl; tauto|];
               split; by vm_compute
             | ]
         end.
  discriminate.
Qed.

(** The witness of X9: the argument [NIST.gov/aisi]. *)
Lemma command_line_websites_supported_witness :
  chosen_websites (Some "NIST.gov/aisi") = Some ["https://www.nist.gov/aisi"]
  /\
  exists website a,
    ["https://www.nist.gov/aisi"] = [website] /\
    website ∈ default_websites /\
    create_scraper website = Return a /\
    startswith (base_url a) website = true.
Proof.
  assert (H : chosen_websites (Some "NIST.gov/aisi")
              = Some ["https://www.nist.gov/aisi"]) by (vm_compute; reflexivity).
  split; [exact H|].
  exact (proj1 command_line_websites_supported _ _ H).
Defined.

Lemma split_from_here (sep : string) (c : ascii) (s : string) :
  split_from sep 0 (String c s)
  = if String.prefix sep (String c s)
    then "" :: split_from sep (String.length sep - 1) s
    else match split_from sep 0 s with
         | w :: ws => String c w :: ws
         | [] => [String c ""]
         end.
Proof. reflexivity. Qed.

Lemma split_from_nonempty (sep : string) (s : string) :
  forall skip, split_from sep skip s <> [].
Proof.
  induction s as [|c s IH]; intros skip; [by destruct skip|].
  destruct skip as [|k]; [|apply IH].
  rewrite split_from_here.
  destruct (String.prefix sep (String c s)); [done|].
  by destruct (split_from sep 0 s).
Qed.

Lemma split_str_without (sep s : string) :
  contains sep s = false -> split_str sep s = [s].
Proof.
  unfold split_str. induction s as [|c s IH]; intros H; [done|].
  rewrite PyStrFacts.contains_unfold in H.
  apply orb_false_iff in H as [Hp Hc]. rewrite split_from_here.
  rewrite Hp. by rewrite (IH Hc).
Qed.

Lemma split_str_with (sep s : string) :
  sep <> "" -> contains sep s = true ->
  exists a b rest, split_str sep s = a :: b :: rest.
Proof.
  intros Hsep. unfold split_str. induction s as [|c s IH]; intros H.
  - rewrite PyStrFacts.contains_unfold in H.
    apply orb_true_iff in H as [H|H]; [|discriminate H].
    by destruct sep.
  - rewrite PyStrFacts.contains_unfold in H. rewrite split_from_here.
    destruct (String.prefix sep (String c s)) eqn:Hp.
    + destruct (split_from sep (String.length sep - 1) s) as [|b rest] eqn:E.
      * by apply split_from_nonempty in E.
      * by exists "", b, rest.
    + simpl in H. destruct (IH H) as (a & b & rest & ->).
      by exists (String c a), b, rest.
Qed.

Lemma split_char_head (c : ascii) (s : string) :
  exists w ws, split_char c s = w :: ws /\ mem_char c w = false.
Proof.
  induction s as [|d s (w & ws & IH & Hw)]; simpl.
  - by exists "", [].
  - destruct (Ascii.eqb d c) eqn:Hd.
    + by exists "", (split_char c s).
    + rewrite IH. exists (String d w), ws. split; [done|]. simpl.
      rewrite Hw, orb_false_r. rewrite Ascii.eqb_sym. exact Hd.
Qed.

Lemma prefix_single (o c : ascii) (s : string) :
  String.prefix (String o "") (String c s) = Ascii.eqb o c.
Proof.
  simpl. destruct (ascii_dec o c) as [->|Hne].
  - rewrite Ascii.eqb_refl. by destruct s.
  - symmetry. by apply Ascii.eqb_neq.
Qed.

Lemma replace_from_single (o c : ascii) (new s : string) :
  replace_from (String o "") new 0 (String c s)
  = if Ascii.eqb o c then new +:+ replace_from (String o "") new 0 s
    else String c (replace_from (String o "") new 0 s).
Proof.
  change (replace_from (String o "") new 0 (String c s))
    with (if String.prefix (String o "") (String c s)
          then new +:+ replace_from (String o "") new 0 s
          else String c (replace_from (String o "") new 0 s)).
  by rewrite prefix_single.
Qed.

(** Replacing the dots: none is left, and no slash comes in. *)
Lemma replace_dots (s : string) :
  mem_char "."%char (replace "." "_" s) = false /\
  (mem_char "/"%char s = false ->
   mem_char "/"%char (replace "." "_" s) = false).
Proof.
  change (replace "." "_" s) with (replace_from "." "_" 0 s).
  induction s as [|c s [IH1 IH2]]; [done|].
  rewrite replace_from_single.
  destruct (Ascii.eqb "." c) eqn:E.
  - apply Ascii.eqb_eq in E as <-.
    split; [exact IH1|]. intros H. simpl in H. exact (IH2 H).
  - split.
    + change (mem_char "." (String c (replace_from "." "_" 0 s)))
        with (Ascii.eqb "." c || mem_char "." (replace_from "." "_" 0 s)).
      by rewrite E, IH1.
    + intros H.
      change (mem_char "/" (String c s))
        with (Ascii.eqb "/" c || mem_char "/" s) in H.
      apply orb_false_iff in H as [Hc Hs].
      change (mem_char "/" (String c (replace_from "." "_" 0 s)))
        with (Ascii.eqb "/" c || mem_char "/" (replace_from "." "_" 0 s)).
      by rewrite Hc, (IH2 Hs).
Qed.

Lemma default_filename_none (base : string) :
  default_filename base = None <-> contains "//" base = false.
Proof.
  unfold default_filename. split.
  - intros H. destruct (contains "//" base) eqn:Hc; [|done].
    destruct (split_str_with "//" base) as (a & b & rest & E);
      [discriminate | done |].
    rewrite E in H. change ((a :: b :: rest) !! 1%nat) with (Some b) in H.
    cbn [mbind option_bind] in H.
    destruct (split_char_head "/" b) as (w & ws & Hw & _).
    rewrite Hw in H. discriminate H.
  - intros H. by rewrite (split_str_without _ _ H).
Qed.

Lemma default_filename_shape (base f : string) :
  default_filename base = Some f ->
  exists domain,
    f = domain +:+ "_data.json" /\
    mem_char "/"%char domain = false /\ mem_char "."%char domain = false.
Proof.
  unfold default_filename.
  destruct (split_str "//" base !! 1%nat) as [second|]; [|discriminate].
  cbn [mbind option_bind].
  destruct (split_char_head "/" second) as (w & ws & -> & Hw).
  cbn [head mbind option_bind]. intros [= <-].
  exists (replace "." "_" w). split; [done|].
  destruct (replace_dots w) as [Hdot Hslash]. split; [by apply Hslash|done].
Qed.

(** X10.  The name of the output file.  [save_to_json] without a file name
    fails, with the [IndexError] of [split('//')[1]], exactly when the base
    URL holds no [//].  Otherwise the name is the domain followed by
    [_data.json], and the domain part holds neither a slash, so that the
    file lies in the working directory, nor a dot.  The ten adapters all
    have a name. *)
Theorem default_filename_safe :
  (forall base, default_filename base = None <-> contains "//" base = false)
  /\
  (forall base f,
     default_filename base = Some f ->
     exists domain,
       f = domain +:+ "_data.json" /\
       mem_char "/"%char domain = false /\ mem_char "."%char domain = false)
  /\
  (forall a, is_Some (default_filename (base_url a))).
Proof.
  split; [exact default_filename_none|].
  split; [exact default_filename_shape|].
  intros a. destruct a; vm_compute; eexists; reflexivity.
Qed.

(** The witness of X10: the base URL of the NIST adapter, which has a
    path. *)
Lemma default_filename_safe_witness :
  default_filename "https://www.nist.gov/aisi" = Some "www_nist_gov_data.json"
  /\
  exists domain,
    "www_nist_gov_data.json" = domain +:+ "_data.json" /\
    mem_char "/"%char domain = false /\ mem_char "."%char domain = false.
Proof.
  assert (H : default_filename "https://www.nist.gov/aisi"
              = Some "www_nist_gov_data.json") by (vm_compute; reflexivity).
  split; [exact H|].
  exact (proj1 (proj2 default_filename_safe) _ _ H).
Defined.

(** X11.  The tools read the files the scraper writes.  For each source
    [filter_json] accepts, whatever its case, the input file is the file
    [save_to_json] writes by default for that publisher, and the output
    file is that name with [_filtered] before the extension; any other
    source raises [ValueError].  The input of the main block of
    [split_json.py] is the default file of the Lakera adapter. *)
Theorem tools_read_scraper_files :
  (forall source input output a,
     filter_json_files source = Return (input, output, a) ->
     default_filename (base_url a) = Some input /\
     exists stem, input = stem +:+ ".json" /\
                  output = stem +:+ "_filtered.json") /\
  (forall source,
     filter_json_files source = Raise ValueError <->
     lower source ∉ ["anthropic"; "deepmind"; "cser"; "chai"]) /\
  default_filename (base_url Lakera) = Some split_json_input.
Proof.
  split; [|split; [|by vm_compute]].
  - intros source input output a. unfold filter_json_files. cbv zeta.
    destruct (String.eqb (lower source) "anthropic").
    { intros [= <- <- <-]. split; [by vm_compute|].
      exists "www_anthropic_com_data". by split. }
    destruct (String.eqb (lower source) "deepmind").
    { intros [= <- <- <-]. split; [by vm_compute|].
      exists "deepmind_google_data". by split. }
    destruct (String.eqb (lower source) "cser").
    { intros [= <- <- <-]. split; [by vm_compute|].
      exists "www_cser_ac_uk_data". by split. }
    destruct (String.eqb (lower source) "chai").
    { intros [= <- <- <-]. split; [by vm_compute|].
      exists "humancompatible_ai_data". by split. }
    intros H. discriminate H.
  - intros source. unfold filter_json_files. cbv zeta.
    rewrite !not_elem_of_cons.
    destruct (String.eqb (lower source) "anthropic") eqn:E1.
    { apply String.eqb_eq in E1. split; [discriminate|]. tauto. }
    destruct (String.eqb (lower source) "deepmind") eqn:E2.
    { apply String.eqb_eq in E2. split; [discriminate|]. tauto. }
    destruct (String.eqb (lower source) "cser") eqn:E3.
    { apply String.eqb_eq in E3. split; [discriminate|]. tauto. }
    destruct (String.eqb (lower source) "chai") eqn:E4.
    { apply String.eqb_eq in E4. split; [discriminate|]. tauto. }
    apply String.eqb_neq in E1, E2, E3, E4.
    split; [|done]. intros _. repeat split; try done. apply not_elem_of_nil.
Qed.

(** The witness of X11: the source [DeepMind]. *)
Lemma tools_read_scraper_files_witness :
  filter_json_files "DeepMind"
  = Return ("deepmind_google_data.json",
            "deepmind_google_data_filtered.json", DeepMind) /\
  default_filename (base_url DeepMind) = Some "deepmind_google_data.json".
Proof.
  assert (H : filter_json_files "DeepMind"
              = Return ("deepmind_google_data.json",
                        "deepmind_google_data_filtered.json", DeepMind))
    by (vm_compute; reflexivity).
  split; [exact H|].
  exact (proj1 (proj1 tools_read_scraper_files _ _ _ _ H)).
Defined.

End RegistryFacts.

(** ** The content normaliser: exceptions and nested links *)

Module NormalizerMoreFacts.
Import PyStr PyOutcome Dom Normalizer.

(** When the link branch raises: [href] and text are not empty, and the
    [href] is not a string or cannot be joined to the base URL. *)
Lemma render_link_raises (base_url : string) (link : element) (err : exn) :
  render_link base_url link = Raise err ->
  truthy (get "href" link) = true /\ get_text_strip link <> "" /\
  ((err = TypeError /\ exists tokens, get "href" link = Some (AttrList tokens))
   \/ (err = ValueError /\
       exists h, get "href" link = Some (AttrStr h) /\
                 Url.urljoin base_url h = None)).
Proof.
  unfold render_link.
  destruct (truthy (get "href" link)) eqn:Ht; simpl; [|discriminate].
  destruct (nonempty (get_text_strip link)) eqn:Hn; [|discriminate].
  apply NormalizerFacts.nonempty_true in Hn.
  destruct (get "href" link) as [[h|tokens]|]; [| |discriminate Ht].
  - destruct (Url.urljoin base_url h) eqn:Hj; [discriminate|].
    intros [= <-]. split; [done|]. split; [done|]. right. eauto.
  - intros [= <-]. split; [done|]. split; [done|]. left. eauto.
Qed.

(** The loop over the children raises when one of its links does. *)
Lemma link_parts_raises (base_url : string) (cs : list node) (err : exn) :
  link_parts base_url cs = Raise err ->
  exists ats ch,
    Elem "a" ats ch ∈ cs /\
    render_link base_url (Element "a" ats ch) = Raise err.
Proof.
  induction cs as [|c cs IH]; [discriminate|].
  destruct c as [s|nm ats ch]; simpl.
  - destruct (link_parts base_url cs) eqn:Hrest; simpl; [|discriminate].
    intros [= <-]. destruct (IH eq_refl) as (ats & ch & Hin & Hr).
    exists ats, ch. split; [by apply list_elem_of_further|done].
  - destruct (String.eqb nm "a") eqn:Hnm.
    + apply String.eqb_eq in Hnm as ->.
      destruct (render_link base_url (Element "a" ats ch)) eqn:Hr; simpl.
      * intros [= <-]. exists ats, ch. split; [apply list_elem_of_here|done].
      * destruct (link_parts base_url cs) eqn:Hrest; simpl; [|discriminate].
        intros [= <-]. destruct (IH eq_refl) as (ats' & ch' & Hin & Hr').
        exists ats', ch'. split; [by apply list_elem_of_further|done].
    + intros H. destruct (IH H) as (ats' & ch' & Hin & Hr').
      exists ats', ch'. split; [by apply list_elem_of_further|done].
Qed.

(** Without links the normaliser returns, and the result does not depend
    on the base URL. *)
Lemma extract_without_links (base_url base_url' : string) (e : element) :
  exists r,
    extract_text_content base_url e false = Return r /\
    extract_text_content base_url' e false = Return r.
Proof.
  unfold extract_text_content.
  destruct (String.eqb (name e) "table"); [eauto|].
  destruct (name_in ["ul"; "ol"] e); [eauto|].
  destruct (String.eqb (name e) "blockquote").
  { destruct (nonempty (get_text_strip e)); eauto. }
  destruct (name_in ["pre"; "code"] e).
  { destruct (nonempty (get_text_strip e)); eauto. }
  rewrite andb_false_r. simpl. eauto.
Qed.

(** X12.  The normaliser raises only from a link.  When
    [extract_text_content] raises, links were wanted, and the element
    itself or one of its children is an [a] element with a non-empty
    [href] and a non-empty text whose rendering raises: [TypeError] for an
    [href] that is not a string, [ValueError] for one that cannot be
    joined to the base URL. *)
Theorem normalizer_raises_only_from_a_link
    (base_url : string) (e : element) (with_links : bool) (err : exn) :
  extract_text_content base_url e with_links = Raise err ->
  with_links = true /\
  exists link,
    (link = e \/ to_node link ∈ contents e) /\
    name link = "a" /\
    render_link base_url link = Raise err /\
    truthy (get "href" link) = true /\ get_text_strip link <> "" /\
    ((err = TypeError /\
      exists tokens, get "href" link = Some (AttrList tokens))
     \/ (err = ValueError /\
         exists h, get "href" link = Some (AttrStr h) /\
                   Url.urljoin base_url h = None)).
Proof.
  intros H.
  destruct with_links.
  2:{ destruct (extract_without_links base_url base_url e) as (r & Hr & _).
      rewrite Hr in H. discriminate H. }
  split; [done|]. revert H. unfold extract_text_content.
  destruct (String.eqb (name e) "table"); [discriminate|].
  destruct (name_in ["ul"; "ol"] e); [discriminate|].
  destruct (String.eqb (name e) "blockquote").
  { destruct (nonempty (get_text_strip e)); discriminate. }
  destruct (name_in ["pre"; "code"] e).
  { destruct (nonempty (get_text_strip e)); discriminate. }
  destruct (String.eqb (name e) "a") eqn:Ha; simpl.
  - apply String.eqb_eq in Ha.
    destruct (render_link base_url e) eqn:Hr; simpl; [|discriminate].
    intros [= <-]. exists e. split; [by left|]. split; [done|].
    split; [done|]. by apply render_link_raises.
  - destruct (is_some_element (find "a" e)); [|discriminate].
    destruct (link_parts base_url (contents e)) eqn:Hp; simpl; [|discriminate].
    intros [= <-]. apply link_parts_raises in Hp as (ats & ch & Hin & Hr).
    exists (Element "a" ats ch). split; [by right|]. split; [done|].
    split; [done|]. by apply render_link_raises.
Qed.

(** The witness of X12: a paragraph with a link to [//[x]. *)
Lemma normalizer_raises_only_from_a_link_witness :
  extract_text_content "https://metr.org"
    MoreSamples.broken_link_paragraph true = Raise ValueError /\
  exists link,
    to_node link ∈ contents MoreSamples.broken_link_paragraph /\
    render_link "https://metr.org" link = Raise ValueError.
Proof.
  assert (H : extract_text_content "https://metr.org"
                MoreSamples.broken_link_paragraph true = Raise ValueError)
    by (vm_compute; reflexivity).
  split; [exact H|].
  destruct (normalizer_raises_only_from_a_link _ _ _ _ H)
    as (_ & link & [Heq | Hin] & Hname & Hr & _).
  - subst link. discriminate Hname.
  - exists link. split; [exact Hin | exact Hr].
Defined.

(** The loop over the children, when none of them is a link: the texts
    among them, stripped, the empty ones left out. *)
Lemma link_parts_no_link (base_url : string) (cs : list node) :
  (forall ats ch, Elem "a" ats ch ∉ cs) ->
  link_parts base_url cs = Return (stripped_strings cs).
Proof.
  induction cs as [|c cs IH]; intros Hno; [done|].
  assert (Hrest : forall ats ch, Elem "a" ats ch ∉ cs).
  { intros ats ch Hin. apply (Hno ats ch). by apply list_elem_of_further. }
  destruct c as [s|nm ats ch]; simpl.
  - rewrite (IH Hrest). simpl. by destruct (nonempty (strip s)).
  - destruct (String.eqb nm "a") eqn:Hnm; [|by apply IH].
    apply String.eqb_eq in Hnm as ->.
    destruct (Hno ats ch). apply list_elem_of_here.
Qed.

(** X13.  A link below a child hides the child.  For an element of the
    last branch that has a link somewhere below it but none among its
    children, the rendering with links is made of the texts that are
    children of the element, stripped and joined by a space: the text of
    every child element, the link and its target included, is left out,
    and nothing is raised. *)
Theorem nested_link_hides_children (base_url : string) (e : element) :
  name_in ["table"; "ul"; "ol"; "blockquote"; "pre"; "code"; "a"] e = false ->
  find "a" e <> None ->
  (forall ats ch, Elem "a" ats ch ∉ contents e) ->
  extract_text_content base_url e true
  = Return (Some (join " " (stripped_strings (contents e)))).
Proof.
  intros Hname Hfind Hno. unfold extract_text_content.
  unfold name_in in *. simpl in Hname.
  repeat (apply orb_false_iff in Hname as [? Hname]).
  unfold name_in. simpl.
  repeat match goal with H : String.eqb _ _ = false |- _ =>
    rewrite H; clear H end.
  simpl.
  destruct (find "a" e); [|done]. simpl.
  by rewrite link_parts_no_link.
Qed.

(** The witness of X13: the link of the paragraph lies in a [strong]
    element; of "Read the report" the rendering keeps "Read". *)
Lemma nested_link_hides_children_witness :
  get_text_strip MoreSamples.nested_link_paragraph = "Readthereport" /\
  extract_text_content "https://metr.org"
    MoreSamples.nested_link_paragraph true = Return (Some "Read").
Proof.
  split; [by vm_compute|].
  rewrite (nested_link_hides_children "https://metr.org"
             MoreSamples.nested_link_paragraph).
  - by vm_compute.
  - by vm_compute.
  - by vm_compute.
  - intros ats ch Hin. simpl in Hin.
    repeat (apply elem_of_cons in Hin as [Hin|Hin]; [discriminate Hin|]).
    by apply elem_of_nil in Hin.
Defined.

End NormalizerMoreFacts.

(** ** [filter_json.py]: [filter_cser_data] and [filter_chai_data] *)

Module FilterCleanFacts.
Import PyStr PyOutcome Json FilterJson FilterData FilterDataFacts.

Lemma pops_dict (keys : list string) (d : list (string * json)) :
  pops keys (JDict d) = Return (without keys (JDict d)).
Proof.
  revert d. induction keys as [|k keys IH]; intros d; [done|].
  simpl. apply IH.
Qed.

Lemma pops_returns (keys : list string) (v v' : json) :
  keys <> [] -> pops keys v = Return v' -> exists d, v = JDict d.
Proof.
  destruct keys as [|k keys]; [done|]. intros _.
  destruct v; simpl; try discriminate. eauto.
Qed.

Lemma pop_all_filter (keys : list string) (d : list (string * json)) :
  foldl (fun d key => dict_pop key d) d keys
  = filter (fun kv => kv.1 ∉ keys) d.
Proof.
  revert d. induction keys as [|k keys IH]; intros d; simpl.
  - induction d as [|kv d IHd]; [done|].
    rewrite filter_cons_True by apply not_elem_of_nil. by rewrite <- IHd.
  - rewrite IH. unfold dict_pop. rewrite list_filter_filter.
    apply list_filter_iff. intros [k0 v]. simpl.
    rewrite not_elem_of_cons.
    destruct (String.eqb k0 k) eqn:Hk; simpl.
    + apply String.eqb_eq in Hk. naive_solver.
    + apply String.eqb_neq in Hk. naive_solver.
Qed.

Lemma without_idem (keys : list string) (v : json) :
  without keys (without keys v) = without keys v.
Proof.
  destruct v; try done. simpl. f_equal.
  rewrite !pop_all_filter, list_filter_filter.
  apply list_filter_iff. intros kv. tauto.
Qed.

Lemma without_empty (keys : list string) :
  without keys (JDict []) = JDict [].
Proof. simpl. by rewrite pop_all_filter. Qed.

Lemma without_get (keys : list string) (d : list (string * json))
    (k : string) :
  dict_get k (foldl (fun d key => dict_pop key d) d keys)
  = if bool_decide (k ∈ keys) then None else dict_get k d.
Proof.
  revert d. induction keys as [|key keys IH]; intros d.
  - case_bool_decide as H; [by apply elem_of_nil in H|done].
  - change (dict_get k (foldl (fun d key => dict_pop key d)
                          (dict_pop key d) keys) =
            if bool_decide (k ∈ key :: keys) then None else dict_get k d).
    rewrite IH.
    destruct (decide (k ∈ keys)) as [Hin|Hout].
    { rewrite !bool_decide_true; [done| |done].
      by apply list_elem_of_further. }
    rewrite (bool_decide_false (k ∈ keys)) by done.
    destruct (decide (k = key)) as [->|Hne].
    + rewrite bool_decide_true by apply list_elem_of_here.
      apply dict_get_pop_eq.
    + rewrite bool_decide_false.
      * by apply dict_get_pop_ne.
      * rewrite elem_of_cons. tauto.
Qed.

Lemma without_falsy (keys : list string) (v : json) :
  truthy v = false -> without keys v = v.
Proof.
  destruct v as [| | | | |d]; try done.
  destruct d; [|discriminate]. intros _. apply without_empty.
Qed.

(** The block [clean_page]: when it ends and what it leaves. *)
Lemma clean_page_spec (keys : list string) (key : string)
    (data data' : list (string * json)) :
  keys <> [] ->
  clean_page keys key data = Return data' <->
  cleanable_page key data /\ data' = page_cleaned keys key data.
Proof.
  intros Hkeys. unfold clean_page, cleanable_page, page_cleaned.
  destruct (dict_get key data) as [page|] eqn:Hget.
  2:{ split; [intros [= <-]; by split|]. by intros [_ ->]. }
  destruct (truthy page) eqn:Ht.
  - destruct page as [| | | | |d].
    6:{ rewrite pops_dict. simpl. split.
        - intros [= <-]. split; [|done]. intros v [= <-] _. eauto.
        - by intros [_ ->]. }
    all: split;
      [ intros H; destruct keys; [done|]; discriminate H
      | intros [Hc _]; destruct (Hc _ eq_refl Ht) as [d Hd];
        discriminate Hd ].
  - rewrite (without_falsy keys page Ht), (dict_set_same _ _ _ Hget).
    split; [intros [= <-]|intros [_ ->]; done].
    split; [|done]. intros v [= <-]. congruence.
Qed.

Lemma page_cleaned_get_ne (keys : list string) (k key : string)
    (data : list (string * json)) :
  k <> key -> dict_get k (page_cleaned keys key data) = dict_get k data.
Proof.
  intros Hne. unfold page_cleaned.
  destruct (dict_get key data); [|done]. by apply dict_get_set_ne.
Qed.

Lemma page_cleaned_get_eq (keys : list string) (key : string)
    (data : list (string * json)) :
  dict_get key (page_cleaned keys key data)
  = without keys <$> dict_get key data.
Proof.
  unfold page_cleaned.
  destruct (dict_get key data) eqn:Hget; simpl; [|done].
  apply dict_get_set_eq.
Qed.

Lemma page_cleaned_keys (keys : list string) (key : string)
    (data : list (string * json)) :
  (page_cleaned keys key data).*1 = data.*1.
Proof.
  unfold page_cleaned.
  destruct (dict_get key data) eqn:Hget; [|done].
  apply dict_set_keys. by rewrite Hget.
Qed.

Lemma for_each_cons (body : json -> outcome json) (x : json)
    (rest : list json) :
  for_each body (x :: rest)
  = (x ← body x; rest ← for_each body rest; Return (x :: rest)).
Proof. reflexivity. Qed.

Lemma bind_return {A B : Type} (v : A) (k : A -> outcome B) :
  (x ← Return v; k x) = k v.
Proof. reflexivity. Qed.

(** The loop that pops keys from every value. *)
Lemma for_each_pops (keys : list string) (items items' : list json) :
  keys <> [] ->
  for_each (pops keys) items = Return items' <->
  (exists ds, items = JDict <$> ds) /\ items' = without keys <$> items.
Proof.
  intros Hkeys. revert items'.
  induction items as [|x items IH]; intros items'.
  { simpl. split.
    - intros [= <-]. split; [by exists []|done].
    - by intros [_ ->]. }
  rewrite for_each_cons. split.
  - destruct (pops keys x) as [e|x'] eqn:Hx; [discriminate|].
    destruct (pops_returns _ _ _ Hkeys Hx) as [d ->].
    rewrite pops_dict in Hx. injection Hx as <-. rewrite bind_return.
    destruct (for_each (pops keys) items) as [e|rest] eqn:Hrest;
      [discriminate|].
    rewrite bind_return.
    intros [= <-]. destruct (proj1 (IH rest) eq_refl) as [[ds ->] ->].
    split; [by exists (d :: ds)|done].
  - intros [[ds Hds] ->].
    destruct ds as [|d ds]; [discriminate Hds|].
    injection Hds as -> ->.
    rewrite pops_dict, bind_return.
    rewrite (proj2 (IH (without keys <$> (JDict <$> ds))));
      [done|]. split; [by exists ds|done].
Qed.

(** The block [pop_in_each]: when it ends and what it leaves. *)
Lemma pop_in_each_spec (keys : list string) (key : string)
    (data data' : list (string * json)) :
  keys <> [] ->
  pop_in_each keys key data = Return data' <->
  cleanable_list key data /\ data' = items_cleaned keys key data.
Proof.
  intros Hkeys. unfold pop_in_each, cleanable_list, items_cleaned.
  destruct (dict_get key data) as [c|] eqn:Hget.
  2:{ split; [intros [= <-]; by split|]. by intros [_ ->]. }
  destruct c as [| | |s|items|entries]; simpl.
  1-3: split;
    [ discriminate
    | intros [Hc _];
      destruct (Hc _ eq_refl) as [[ds Hd] | [Hd | Hd]]; discriminate Hd ].
  - destruct s as [|c s]; simpl.
    + rewrite (dict_set_same _ _ _ Hget). split.
      * intros [= <-]. split; [|done]. intros v [= <-]. auto.
      * by intros [_ ->].
    + split.
      * intros H. destruct keys; [done|]. discriminate H.
      * intros [Hc _].
        destruct (Hc _ eq_refl) as [[ds Hd] | [Hd | Hd]]; discriminate Hd.
  - destruct (for_each (pops keys) items) as [e|items'] eqn:Hloop; simpl.
    + split; [discriminate|]. intros [Hc _].
      destruct (Hc _ eq_refl) as [[ds Hd] | [Hd | Hd]];
        try discriminate Hd.
      injection Hd as ->.
      assert (H : for_each (pops keys) (JDict <$> ds)
                  = Return (without keys <$> (JDict <$> ds)))
        by (apply for_each_pops; eauto).
      rewrite H in Hloop. discriminate Hloop.
    + apply for_each_pops in Hloop as [[ds ->] ->]; [|done].
      split.
      * intros [= <-]. split; [|done]. intros v [= <-]. left. eauto.
      * by intros [_ ->].
  - destruct entries as [|[k0 v0] entries]; simpl.
    + rewrite (dict_set_same _ _ _ Hget). split.
      * intros [= <-]. split; [|done]. intros v [= <-]. auto.
      * by intros [_ ->].
    + split.
      * intros H. destruct keys; [done|]. discriminate H.
      * intros [Hc _].
        destruct (Hc _ eq_refl) as [[ds Hd] | [Hd | Hd]]; discriminate Hd.
Qed.

Lemma items_cleaned_get_ne (keys : list string) (k key : string)
    (data : list (string * json)) :
  k <> key -> dict_get k (items_cleaned keys key data) = dict_get k data.
Proof.
  intros Hne. unfold items_cleaned.
  destruct (dict_get key data) as [[]|]; try done. by apply dict_get_set_ne.
Qed.

Lemma items_cleaned_get_list (keys : list string) (key : string)
    (data : list (string * json)) (items : list json) :
  dict_get key data = Some (JList items) ->
  dict_get key (items_cleaned keys key data)
  = Some (JList (without keys <$> items)).
Proof.
  intros Hget. unfold items_cleaned. rewrite Hget. apply dict_get_set_eq.
Qed.

Lemma items_cleaned_keys (keys : list string) (key : string)
    (data : list (string * json)) :
  (items_cleaned keys key data).*1 = data.*1.
Proof.
  unfold items_cleaned.
  destruct (dict_get key data) as [[]|] eqn:Hget; try done.
  apply dict_set_keys. by rewrite Hget.
Qed.

Lemma bind_returns {A B : Type} (m : outcome A) (k : A -> outcome B)
    (r : B) :
  (x ← m; k x) = Return r <-> exists v, m = Return v /\ k v = Return r.
Proof.
  destruct m as [e|v]; simpl.
  - split; [discriminate|]. by intros (v & Hv & _).
  - split; [eauto|]. by intros (v' & [= <-] & Hk).
Qed.

Lemma cleanable_page_frame (key : string) (data data' : list (string * json)) :
  dict_get key data' = dict_get key data ->
  cleanable_page key data' <-> cleanable_page key data.
Proof. unfold cleanable_page. by intros ->. Qed.

Lemma cleanable_list_frame (key : string) (data data' : list (string * json)) :
  dict_get key data' = dict_get key data ->
  cleanable_list key data' <-> cleanable_list key data.
Proof. unfold cleanable_list. by intros ->. Qed.

(** [filter_cser_data] as a whole: when it returns, and what. *)
Lemma filter_cser_data_spec (data data' : list (string * json)) :
  filter_cser_data data = Return data' <->
  (cleanable_page "home" data /\ cleanable_page "about" data /\
   cleanable_list "resources" data) /\
  data' = items_cleaned ["links"; "timestamp"] "resources"
            (page_cleaned ["links"; "timestamp"] "about"
               (page_cleaned ["links"; "timestamp"] "home" data)).
Proof.
  unfold filter_cser_data.
  rewrite bind_returns.
  setoid_rewrite bind_returns.
  setoid_rewrite clean_page_spec; [|done..].
  setoid_rewrite pop_in_each_spec; [|done].
  assert (Ha : forall d, cleanable_page "about"
                           (page_cleaned ["links"; "timestamp"] "home" d)
                         <-> cleanable_page "about" d).
  { intros d. apply cleanable_page_frame. by apply page_cleaned_get_ne. }
  assert (Hr : forall d, cleanable_list "resources"
                           (page_cleaned ["links"; "timestamp"] "about"
                              (page_cleaned ["links"; "timestamp"] "home" d))
                         <-> cleanable_list "resources" d).
  { intros d. apply cleanable_list_frame.
    by rewrite !page_cleaned_get_ne. }
  split.
  - intros (d1 & [Hh ->] & d2 & [Hab ->] & Hres & ->).
    split; [|reflexivity].
    split; [exact Hh|]. split; [by apply Ha|by apply Hr].
  - intros [(Hh & Hab & Hres) ->].
    eexists. split; [by split|]. eexists. split; [split; [by apply Ha|done]|].
    split; [by apply Hr|done].
Qed.

(** X14.  When [filter_cser_data] returns.  It returns exactly on the
    documents whose [home] and [about] are absent, false or objects, and
    whose [resources] is absent, an array of objects, or an empty object
    or string; on every other document it raises. *)
Theorem filter_cser_data_returns (data : list (string * json)) :
  (exists data', filter_cser_data data = Return data') <->
  cleanable_page "home" data /\ cleanable_page "about" data /\
  cleanable_list "resources" data.
Proof.
  split.
  - intros [data' H]. by apply filter_cser_data_spec in H as [H _].
  - intros H. eexists. apply filter_cser_data_spec. by split.
Qed.

(** X15.  What [filter_cser_data] returns.  The document keeps its keys
    in their order; the entries other than [home], [about] and
    [resources] keep their values; [home] and [about] lose [links] and
    [timestamp] when they are objects; every resource is still there, in
    its place, without [links] and [timestamp] and with its other fields
    as they were. *)
Theorem filter_cser_data_result (data data' : list (string * json)) :
  filter_cser_data data = Return data' ->
  data'.*1 = data.*1 /\
  (forall k, k ∉ ["home"; "about"; "resources"] ->
             dict_get k data' = dict_get k data) /\
  (forall k, k = "home" \/ k = "about" ->
             dict_get k data'
             = without ["links"; "timestamp"] <$> dict_get k data) /\
  (forall resources,
     dict_get "resources" data = Some (JList resources) ->
     exists ds,
       resources = JDict <$> ds /\
       dict_get "resources" data'
       = Some (JList ((fun d => JDict (without_links d)) <$> ds))).
Proof.
  intros H. apply filter_cser_data_spec in H as [(_ & _ & Hres) ->].
  split; [|split; [|split]].
  - by rewrite items_cleaned_keys, !page_cleaned_keys.
  - intros k Hk. rewrite !not_elem_of_cons in Hk.
    destruct Hk as (? & ? & ? & _).
    by rewrite items_cleaned_get_ne, !page_cleaned_get_ne.
  - intros k [-> | ->].
    + rewrite items_cleaned_get_ne by done.
      rewrite page_cleaned_get_ne by done. apply page_cleaned_get_eq.
    + rewrite items_cleaned_get_ne by done.
      rewrite page_cleaned_get_eq. by rewrite page_cleaned_get_ne.
  - intros resources Hget.
    destruct (Hres _ Hget) as [[ds [= ->]] | [Hd | Hd]];
      [|discriminate Hd..].
    exists ds. split; [done|].
    rewrite (items_cleaned_get_list _ _ _ (JDict <$> ds)).
    + do 2 f_equal. by rewrite <- list_fmap_compose.
    + by rewrite !page_cleaned_get_ne.
Qed.

(** The witness of X14: the document of the CSER scraper. *)
Lemma filter_cser_data_returns_witness :
  cleanable_page "home" MoreSamples.cser_doc /\
  exists data', filter_cser_data MoreSamples.cser_doc = Return data'.
Proof.
  assert (H : exists data',
             filter_cser_data MoreSamples.cser_doc = Return data')
    by (eexists; vm_compute; reflexivity).
  split; [|exact H].
  exact (proj1 (proj1 (filter_cser_data_returns MoreSamples.cser_doc) H)).
Defined.

(** The witness of X15: the two resources of the document are kept. *)
Lemma filter_cser_data_result_witness :
  exists data' ds,
    filter_cser_data MoreSamples.cser_doc = Return data' /\
    length ds = 2%nat /\
    dict_get "resources" data'
    = Some (JList ((fun d => JDict (without_links d)) <$> ds)).
Proof.
  assert (H : filter_cser_data MoreSamples.cser_doc
              = Return (items_cleaned ["links"; "timestamp"] "resources"
                          (page_cleaned ["links"; "timestamp"] "about"
                             (page_cleaned ["links"; "timestamp"] "home"
                                MoreSamples.cser_doc))))
    by (vm_compute; reflexivity).
  destruct (filter_cser_data_result _ _ H) as (_ & _ & _ & Hres).
  destruct (Hres _ eq_refl) as (ds & Hds & Hget).
  eexists. exists ds. split; [exact H|]. split; [|exact Hget].
  apply (f_equal length) in Hds. rewrite length_fmap in Hds.
  symmetry. exact Hds.
Defined.

(** The body of the loop over the blog posts ends on objects only. *)
Lemma clean_post_returns (post post' : json) :
  clean_post post = Return post' ->
  exists d, post = JDict d /\ post' = JDict (post_cleaned d).
Proof.
  destruct post as [| | |s|items|d]; simpl; try discriminate.
  { destruct (contains "research_areas" s); discriminate. }
  intros H. apply bind_returns in H as (d' & Hd & [= <-]).
  apply pop_in_each_spec in Hd as [_ ->]; [|done].
  by exists d.
Qed.

Lemma for_each_clean_post (posts posts' : list json) :
  for_each clean_post posts = Return posts' ->
  exists ds, posts = JDict <$> ds /\
             posts' = (fun d => JDict (post_cleaned d)) <$> ds.
Proof.
  revert posts'. induction posts as [|p posts IH]; intros posts'.
  { intros [= <-]. by exists []. }
  rewrite for_each_cons. intros H.
  apply bind_returns in H as (p' & Hp & H).
  apply bind_returns in H as (rest & Hrest & [= <-]).
  apply clean_post_returns in Hp as (d & -> & ->).
  destruct (IH _ Hrest) as (ds & -> & ->).
  by exists (d :: ds).
Qed.

(** What the loop leaves of a post. *)
Lemma post_cleaned_fields (post : list (string * json)) :
  dict_get "timestamp" (post_cleaned post) = None /\
  (forall field, field ∉ ["timestamp"; "research_areas"] ->
                 dict_get field (post_cleaned post) = dict_get field post) /\
  (forall areas,
     dict_get "research_areas" post = Some (JList areas) ->
     dict_get "research_areas" (post_cleaned post)
     = Some (JList (without ["papers"] <$> areas))).
Proof.
  unfold post_cleaned. split; [apply dict_get_pop_eq|]. split.
  - intros field Hf. rewrite !not_elem_of_cons in Hf.
    destruct Hf as (? & ? & _).
    rewrite dict_get_pop_ne by done. by apply items_cleaned_get_ne.
  - intros areas Hget. rewrite dict_get_pop_ne by discriminate.
    by apply items_cleaned_get_list.
Qed.

(** X16.  What [filter_chai_data] returns.  The document keeps its keys
    in their order, and its entries other than [home], [about] and
    [blog_posts] keep their values.  The objects [home] and [about] lose
    their [timestamp] and nothing else: their [links] stay.  Every blog
    post is still there, in its place, without its [timestamp]; its
    research areas are the same in number and order, each without its
    [papers]; its other fields are as they were. *)
Theorem filter_chai_data_result (data data' : list (string * json)) :
  filter_chai_data data = Return data' ->
  data'.*1 = data.*1 /\
  (forall k, k ∉ ["home"; "about"; "blog_posts"] ->
             dict_get k data' = dict_get k data) /\
  (forall k page,
     k = "home" \/ k = "about" ->
     dict_get k data = Some (JDict page) ->
     exists page',
       dict_get k data' = Some (JDict page') /\
       dict_get "timestamp" page' = None /\
       forall field, field <> "timestamp" ->
                     dict_get field page' = dict_get field page) /\
  (forall posts,
     dict_get "blog_posts" data = Some (JList posts) ->
     exists ds,
       posts = JDict <$> ds /\
       dict_get "blog_posts" data'
       = Some (JList ((fun d => JDict (post_cleaned d)) <$> ds))) /\
  (forall post,
     dict_get "timestamp" (post_cleaned post) = None /\
     (forall field, field ∉ ["timestamp"; "research_areas"] ->
                    dict_get field (post_cleaned post)
                    = dict_get field post) /\
     (forall areas,
        dict_get "research_areas" post = Some (JList areas) ->
        dict_get "research_areas" (post_cleaned post)
        = Some (JList (without ["papers"] <$> areas)))).
Proof.
  intros H. unfold filter_chai_data in H.
  apply bind_returns in H as (d1 & H1 & H).
  apply bind_returns in H as (d2 & H2 & H).
  apply clean_page_spec in H1 as [_ ->]; [|done].
  apply clean_page_spec in H2 as [_ ->]; [|done].
  set (d2 := page_cleaned ["timestamp"] "about"
               (page_cleaned ["timestamp"] "home" data)) in *.
  assert (Hkeys : d2.*1 = data.*1)
    by (unfold d2; by rewrite !page_cleaned_keys).
  assert (Hframe : forall k, k <> "home" -> k <> "about" ->
                             dict_get k d2 = dict_get k data)
    by (intros k ? ?; unfold d2; by rewrite !page_cleaned_get_ne).
  assert (Hpages : forall k, k = "home" \/ k = "about" ->
                             dict_get k d2
                             = without ["timestamp"] <$> dict_get k data).
  { intros k [-> | ->]; unfold d2.
    - rewrite page_cleaned_get_ne by done. apply page_cleaned_get_eq.
    - rewrite page_cleaned_get_eq. by rewrite page_cleaned_get_ne. }
  assert (Hout : (data'.*1 = d2.*1 /\
                  forall k, k <> "blog_posts" ->
                            dict_get k data' = dict_get k d2) /\
                 forall posts,
                   dict_get "blog_posts" d2 = Some (JList posts) ->
                   exists ds,
                     posts = JDict <$> ds /\
                     dict_get "blog_posts" data'
                     = Some (JList ((fun d => JDict (post_cleaned d))
                                      <$> ds))).
  { destruct (dict_get "blog_posts" d2) as [c|] eqn:Hget.
    2:{ injection H as <-. split; [done|]. intros posts Hp. discriminate Hp. }
    apply bind_returns in H as (items & Hit & H).
    apply bind_returns in H as (cleaned & Hloop & [= <-]).
    split; [split|].
    - apply dict_set_keys. by rewrite Hget.
    - intros k Hk. by apply dict_get_set_ne.
    - intros posts [= ->]. injection Hit as <-.
      apply for_each_clean_post in Hloop as (ds & -> & ->).
      exists ds. split; [done|]. apply dict_get_set_eq. }
  destruct Hout as [[Hk' Hf'] Hposts].
  split; [congruence|]. split; [|split; [|split]].
  - intros k Hk. rewrite !not_elem_of_cons in Hk.
    destruct Hk as (? & ? & ? & _). rewrite Hf' by done. by apply Hframe.
  - intros k page Hk Hget.
    exists (dict_pop "timestamp" page). split; [|split].
    + rewrite Hf' by (destruct Hk as [-> | ->]; discriminate).
      rewrite (Hpages k Hk), Hget. done.
    + apply dict_get_pop_eq.
    + intros field Hne. by apply dict_get_pop_ne.
  - intros posts Hget. apply Hposts.
    rewrite Hframe by discriminate. exact Hget.
  - apply post_cleaned_fields.
Qed.

(** The witness of X16: the home page of the document keeps its links. *)
Lemma filter_chai_data_result_witness :
  exists data' page',
    filter_chai_data MoreSamples.chai_doc = Return data' /\
    dict_get "home" data' = Some (JDict page') /\
    dict_get "timestamp" page' = None /\
    is_Some (dict_get "links" page').
Proof.
  assert (H : exists data',
             filter_chai_data MoreSamples.chai_doc = Return data')
    by (eexists; vm_compute; reflexivity).
  destruct H as [data' H]. exists data'.
  destruct (filter_chai_data_result _ _ H) as (_ & _ & Hpage & _).
  destruct (Hpage "home" _ (or_introl eq_refl) eq_refl)
    as (page' & Hget & Ht & Hother).
  exists page'. split; [exact H|]. split; [exact Hget|].
  split; [exact Ht|].
  rewrite (Hother "links") by discriminate. by eexists.
Defined.

Lemma page_cleaned_fixed (keys : list string) (key : string)
    (data : list (string * json)) :
  (forall v, dict_get key data = Some v -> without keys v = v) ->
  page_cleaned keys key data = data.
Proof.
  intros H. unfold page_cleaned.
  destruct (dict_get key data) as [v|] eqn:Hget; [|done].
  rewrite (H v eq_refl). by apply dict_set_same.
Qed.

Lemma items_cleaned_fixed (keys : list string) (key : string)
    (data : list (string * json)) :
  (forall items, dict_get key data = Some (JList items) ->
                 without keys <$> items = items) ->
  items_cleaned keys key data = data.
Proof.
  intros H. unfold items_cleaned.
  destruct (dict_get key data) as [[| | | |items|]|] eqn:Hget; try done.
  rewrite (H items eq_refl). by apply dict_set_same.
Qed.

Lemma items_cleaned_get_eq (keys : list string) (key : string)
    (data : list (string * json)) :
  dict_get key (items_cleaned keys key data)
  = (fun v => match v with
              | JList items => JList (without keys <$> items)
              | _ => v
              end) <$> dict_get key data.
Proof.
  unfold items_cleaned.
  destruct (dict_get key data) as [[| | | |items|]|] eqn:Hget;
    simpl; try done.
  apply dict_get_set_eq.
Qed.

(** X17.  [filter_cser_data] is idempotent: on a document it returned it
    returns again, and returns that document. *)
Theorem filter_cser_data_idempotent (data data' : list (string * json)) :
  filter_cser_data data = Return data' ->
  filter_cser_data data' = Return data'.
Proof.
  intros H. apply filter_cser_data_spec in H as [(Hh & Ha & Hr) Hd].
  assert (Hhome : dict_get "home" data'
                  = without ["links"; "timestamp"] <$> dict_get "home" data).
  { subst data'. rewrite items_cleaned_get_ne by done.
    rewrite page_cleaned_get_ne by done. apply page_cleaned_get_eq. }
  assert (Habout : dict_get "about" data'
                   = without ["links"; "timestamp"] <$> dict_get "about" data).
  { subst data'. rewrite items_cleaned_get_ne by done.
    rewrite page_cleaned_get_eq. by rewrite page_cleaned_get_ne. }
  assert (Hres : dict_get "resources" data'
                 = (fun v => match v with
                             | JList items =>
                                 JList (without ["links"; "timestamp"]
                                          <$> items)
                             | _ => v
                             end) <$> dict_get "resources" data).
  { subst data'. rewrite items_cleaned_get_eq.
    by rewrite !page_cleaned_get_ne. }
  clear Hd.
  assert (Hpage : forall key,
            cleanable_page key data ->
            dict_get key data'
            = without ["links"; "timestamp"] <$> dict_get key data ->
            cleanable_page key data' /\
            page_cleaned ["links"; "timestamp"] key data' = data').
  { intros key Hc Hget. split.
    - intros v' Hv' Ht. rewrite Hget in Hv'.
      destruct (dict_get key data) as [v|] eqn:Hv; [|discriminate Hv'].
      injection Hv' as <-.
      destruct v as [| | | | |d];
        try (destruct (Hc _ Hv Ht) as [d Hd]; discriminate Hd).
      simpl. eauto.
    - apply page_cleaned_fixed. intros v' Hv'. rewrite Hget in Hv'.
      destruct (dict_get key data) as [v|]; [|discriminate Hv'].
      injection Hv' as <-. apply without_idem. }
  destruct (Hpage "home" Hh Hhome) as [Hh' Fh].
  destruct (Hpage "about" Ha Habout) as [Ha' Fa].
  apply filter_cser_data_spec. split; [split; [done|split; [done|]]|].
  - intros v' Hv'. rewrite Hres in Hv'.
    destruct (dict_get "resources" data) as [v|] eqn:Hv; [|discriminate Hv'].
    injection Hv' as <-.
    destruct (Hr _ Hv) as [[ds ->] | [-> | ->]];
      [|right; by left|right; by right].
    left. exists (without_links <$> ds).
    f_equal. rewrite <- !list_fmap_compose. by apply list_fmap_ext.
  - rewrite Fh, Fa. symmetry. apply items_cleaned_fixed.
    intros items' Hi. rewrite Hres in Hi.
    destruct (dict_get "resources" data) as [v|]; [|discriminate Hi].
    destruct v; try discriminate Hi. injection Hi as <-.
    rewrite <- list_fmap_compose. apply list_fmap_ext.
    intros i x _. apply without_idem.
Qed.

(** The witness of X17: the document of the CSER scraper. *)
Lemma filter_cser_data_idempotent_witness :
  exists data',
    filter_cser_data MoreSamples.cser_doc = Return data' /\
    filter_cser_data data' = Return data'.
Proof.
  eexists. split; [by vm_compute|].
  apply (filter_cser_data_idempotent MoreSamples.cser_doc).
  by vm_compute.
Defined.

End FilterCleanFacts.

(** ** The crawl loop of the adapters, and the crawl of [MetrScraper] *)

Module CrawlFacts.
Import PyStr PyOutcome Adapters Dom Normalizer Session MetrCrawl.

Lemma filter_ext_elem {A : Type} (P Q : A -> Prop)
    `{!forall x, Decision (P x)} `{!forall x, Decision (Q x)} (l : list A) :
  (forall x, x ∈ l -> P x <-> Q x) -> filter P l = filter Q l.
Proof.
  induction l as [|x l IH]; intros Hext; [done|].
  assert (Hl : filter P l = filter Q l).
  { apply IH. intros y Hy. apply Hext. by right. }
  assert (Hx : P x <-> Q x) by (apply Hext; left).
  rewrite !filter_cons.
  destruct (decide (P x)), (decide (Q x)); try tauto; by rewrite Hl.
Qed.

Lemma passes_spec (a : adapter) (url : string) :
  passes a url = true <->
  (checks_url a = true -> is_blog_post_url a url = true).
Proof.
  unfold passes. destruct (checks_url a); simpl; split; auto.
  discriminate.
Qed.

Lemma not_passes (a : adapter) (url : string) :
  passes a url = false ->
  checks_url a = true /\ is_blog_post_url a url = false.
Proof. unfold passes. by destruct (checks_url a); simpl. Qed.

Section Loop.

Context {document record : Type}.
Variable respond : list string -> string -> option document.
Variable extract : adapter -> string -> document -> outcome (option record).

Abbreviation post := (scrape_blog_post respond extract).
Abbreviation each := (scrape_each respond extract).
Abbreviation session := (@session record).

Lemma scrape_each_cons (a : adapter) (s : session) (url : string)
    (rest : list string) :
  each a s (url :: rest)
  = match (post a s url).1 with
    | Raise e => (Raise e, (post a s url).2)
    | Return p => each a (append_post (post a s url).2 p) rest
    end.
Proof. simpl. by destruct (post a s url) as [[e|p] s1]. Qed.

(** A call that does nothing leaves the loop to the rest of the list. *)
Lemma scrape_each_skip (a : adapter) (s : session) (url : string)
    (rest : list string) :
  post a s url = (Return None, s) ->
  each a s (url :: rest) = each a s rest.
Proof. intros H. rewrite scrape_each_cons, H. done. Qed.

(** The loop, when it ends without an exception. *)
Lemma scrape_each_returns (a : adapter) (urls : list string) :
  Forall (discovered a) urls -> NoDup urls ->
  forall s : session,
    (each a s urls).1 = Return () ->
    requests (each a s urls).2
    = requests s
      ++ filter (fun u => (u ∉ scraped_urls s) /\ passes a u = true) urls /\
    scraped_urls (each a s urls).2
    = scraped_urls s
      ∪ list_to_set (filter (fun u => passes a u = true) urls) /\
    (length (posts (each a s urls).2)
     <= length (posts s)
        + length (filter (fun u => (u ∉ scraped_urls s) /\ passes a u = true)
                         urls))%nat.
Proof.
  induction 1 as [|url urls Hd _ IH]; intros Hnd s.
  { intros _. simpl. rewrite app_nil_r.
    split; [done|]. split; [set_solver|lia]. }
  apply NoDup_cons in Hnd as [Hnew Hnd]. specialize (IH Hnd).
  destruct (decide (url ∈ scraped_urls s)) as [Hin|Hout].
  { rewrite (scrape_each_skip a s url urls)
      by (by apply SessionFacts.post_visited).
    intros Hret. destruct (IH s Hret) as (Hreq & Hvis & Hlen).
    rewrite filter_cons_False by tauto.
    split; [done|]. split; [|done].
    rewrite Hvis, filter_cons. destruct (decide (passes a url = true));
      set_solver. }
  destruct (passes a url) eqn:Hp.
  2:{ apply not_passes in Hp as [Hc Hr].
      rewrite (scrape_each_skip a s url urls)
        by (by apply SessionFacts.post_rejected).
      intros Hret. destruct (IH s Hret) as (Hreq & Hvis & Hlen).
      assert (Hno : passes a url <> true).
      { unfold passes. rewrite Hc, Hr. discriminate. }
      rewrite !filter_cons_False by tauto. done. }
  rewrite scrape_each_cons.
  rewrite (SessionFacts.post_fresh respond extract a s url Hd Hout)
    by (by apply passes_spec).
  unfold marked_and_fetched. cbn [fst snd].
  destruct (match respond (requests s) url with
            | Some page => extract a url page
            | None => Return None
            end) as [e|p]; [discriminate|].
  set (s1 := append_post _ p).
  assert (Hs1 : scraped_urls s1 = {[url]} ∪ scraped_urls s /\
                requests s1 = requests s ++ [url] /\
                (length (posts s1) <= S (length (posts s)))%nat).
  { unfold s1. destruct p; simpl; [|by auto].
    rewrite length_app. simpl. split; [done|]. split; [done|lia]. }
  destruct Hs1 as (Hv1 & Hr1 & Hl1).
  intros Hret. destruct (IH s1 Hret) as (Hreq & Hvis & Hlen).
  assert (Hsame : filter (fun u => (u ∉ scraped_urls s1) /\ passes a u = true)
                         urls
                  = filter (fun u => (u ∉ scraped_urls s) /\ passes a u = true)
                           urls).
  { apply filter_ext_elem. intros u Hu. rewrite Hv1.
    assert (u <> url) by (intros ->; done). set_solver. }
  rewrite Hsame in Hreq, Hlen.
  rewrite filter_cons_True by done.
  rewrite (filter_cons_True (fun u => passes a u = true)) by done.
  split; [|split].
  - rewrite Hreq, Hr1, <- app_assoc. done.
  - rewrite Hvis, Hv1. set_solver.
  - simpl. lia.
Qed.

(** The loop, when an exception leaves it. *)
Lemma scrape_each_raises (a : adapter) (urls : list string) (e : exn) :
  forall s : session,
    (each a s urls).1 = Raise e ->
    exists before url after,
      urls = before ++ url :: after /\
      (each a s before).1 = Return () /\
      (post a (each a s before).2 url).1 = Raise e /\
      (each a s urls).2 = (post a (each a s before).2 url).2.
Proof.
  induction urls as [|url urls IH]; intros s; [discriminate|].
  rewrite scrape_each_cons.
  destruct (post a s url) as [[e'|p] s1] eqn:Hpost; cbn [fst snd].
  - intros [= ->]. exists [], url, urls. simpl. by rewrite Hpost.
  - intros H. destruct (IH _ H) as (before & u & after & -> & Hb & Hu & Hs).
    exists (url :: before), u, after.
    rewrite scrape_each_cons, Hpost. cbn [fst snd]. done.
Qed.

(** X18.  The loop of an adapter over its URLs requests every new URL.
    When the loop over a list without repetition ends without an
    exception, the requests it added are, in the order of the list, the
    URLs of the list that were not visited before and that the adapter
    does not turn down, each once; the visited set has grown by the URLs
    of the list that the adapter does not turn down; and no more posts
    were added than pages were requested. *)
Theorem loop_requests_every_new_url
    (a : adapter) (urls : list string) (s : session) :
  Forall (discovered a) urls -> NoDup urls ->
  (each a s urls).1 = Return () ->
  exists fetched,
    requests (each a s urls).2 = requests s ++ fetched /\
    fetched `sublist_of` urls /\ NoDup fetched /\
    (forall u, u ∈ fetched <->
               u ∈ urls /\ (u ∉ scraped_urls s) /\ passes a u = true) /\
    (forall u, u ∈ scraped_urls (each a s urls).2 <->
               u ∈ scraped_urls s \/ (u ∈ urls /\ passes a u = true)) /\
    (length (posts (each a s urls).2)
     <= length (posts s) + length fetched)%nat.
Proof.
  intros Hd Hnd Hret.
  destruct (scrape_each_returns a urls Hd Hnd s Hret) as (Hreq & Hvis & Hlen).
  eexists. split; [exact Hreq|].
  split; [apply sublist_filter|].
  split; [by apply NoDup_filter|].
  split; [|split; [|exact Hlen]].
  - intros u. rewrite list_elem_of_filter. tauto.
  - intros u. rewrite Hvis, elem_of_union, elem_of_list_to_set,
      list_elem_of_filter. tauto.
Qed.

(** X19.  The loop stops at the first exception.  When an exception
    leaves the loop, it is the exception of the extraction of one page:
    the loop had ended on the URLs before it, the URL was new, its page
    was fetched, and the session is left as it was after that request,
    the URL marked and no post added; the URLs that follow in the list
    are not requested. *)
Theorem loop_stops_at_first_exception
    (a : adapter) (urls : list string) (s : session) (e : exn) :
  Forall (discovered a) urls ->
  (each a s urls).1 = Raise e ->
  exists before url after page,
    urls = before ++ url :: after /\
    (each a s before).1 = Return () /\
    (url ∉ scraped_urls (each a s before).2) /\
    respond (requests (each a s before).2) url = Some page /\
    extract a url page = Raise e /\
    requests (each a s urls).2 = requests (each a s before).2 ++ [url] /\
    scraped_urls (each a s urls).2
    = {[url]} ∪ scraped_urls (each a s before).2 /\
    posts (each a s urls).2 = posts (each a s before).2.
Proof.
  intros Hd Hraise.
  destruct (scrape_each_raises a urls e s Hraise)
    as (before & url & after & -> & Hb & Hu & Hs).
  assert (Hdu : discovered a url).
  { rewrite Forall_app, Forall_cons in Hd. tauto. }
  exists before, url, after.
  destruct (SessionFacts.post_cases respond extract a
              (each a s before).2 url Hdu) as [Hnone | [Hnew Hw]].
  { rewrite Hnone in Hu. discriminate Hu. }
  rewrite Hs, Hw. rewrite Hw in Hu.
  unfold marked_and_fetched in *. cbn [fst snd] in *.
  destruct (respond (requests (each a s before).2) url) as [page|];
    [|discriminate Hu].
  exists page. done.
Qed.

End Loop.

(** The witness of X18: two posts and the listing itself, in a new
    session. *)
Lemma loop_requests_every_new_url_witness :
  exists fetched,
    requests
      (scrape_each Samples.network_up Samples.url_record Metr init
         ["https://metr.org/blog/2024-a/"; "https://metr.org/blog";
          "https://metr.org/blog/2024-b/"]).2
    = requests (@init string) ++ fetched /\
    ("https://metr.org/blog/2024-b/" ∈ fetched) /\
    ("https://metr.org/blog" ∉ fetched).
Proof.
  assert (Hd : Forall (discovered Metr)
                 ["https://metr.org/blog/2024-a/"; "https://metr.org/blog";
                  "https://metr.org/blog/2024-b/"])
    by (repeat constructor).
  assert (Hn : NoDup ["https://metr.org/blog/2024-a/";
                      "https://metr.org/blog";
                      "https://metr.org/blog/2024-b/"]).
  { apply (bool_decide_unpack _). by vm_compute. }
  assert (Hr : (scrape_each Samples.network_up Samples.url_record Metr init
                  ["https://metr.org/blog/2024-a/"; "https://metr.org/blog";
                   "https://metr.org/blog/2024-b/"]).1 = Return ()).
  { rewrite scrape_each_cons.
    rewrite (SessionFacts.post_fresh _ _ Metr init
               "https://metr.org/blog/2024-a/");
      [|done|simpl; apply not_elem_of_empty|by vm_compute].
    cbn [fst snd marked_and_fetched Samples.network_up Samples.url_record
         append_post].
    rewrite scrape_each_skip
      by (apply SessionFacts.post_rejected; by vm_compute).
    rewrite scrape_each_cons.
    rewrite SessionFacts.post_fresh;
      [|done|simpl; set_solver|by vm_compute].
    reflexivity. }
  destruct (loop_requests_every_new_url _ _ _ _ _ Hd Hn Hr)
    as (fetched & Hreq & _ & _ & Hf & _).
  exists fetched. split; [exact Hreq|]. split.
  - apply Hf. split; [set_solver|]. split; [|by vm_compute].
    simpl. apply not_elem_of_empty.
  - intros Hin. apply Hf in Hin as (_ & _ & Hp). by vm_compute in Hp.
Defined.

(** The witness of X19: the extraction of the second of three posts
    raises; the third is not requested. *)
Lemma loop_stops_at_first_exception_witness :
  (scrape_each Samples.network_up CrawlSamples.second_post_raises Metr init
     CrawlSamples.three_posts).1 = Raise TypeError /\
  exists before url after,
    CrawlSamples.three_posts = before ++ url :: after /\
    requests
      (scrape_each Samples.network_up CrawlSamples.second_post_raises Metr
         init CrawlSamples.three_posts).2
    = requests
        (scrape_each Samples.network_up CrawlSamples.second_post_raises Metr
           init before).2 ++ [url].
Proof.
  assert (Hd : Forall (discovered Metr) CrawlSamples.three_posts)
    by (repeat constructor).
  assert (Hr : (scrape_each Samples.network_up
                  CrawlSamples.second_post_raises Metr init
                  CrawlSamples.three_posts).1 = Raise TypeError)
    by (vm_compute; reflexivity).
  split; [exact Hr|].
  destruct (loop_stops_at_first_exception _ _ _ _ _ _ Hd Hr)
    as (before & url & after & page & Hsplit & _ & _ & _ & _ & Hreq & _).
  exists before, url, after. split; [exact Hsplit | exact Hreq].
Defined.

End CrawlFacts.

(** ** [MetrScraper]: the listing page and the whole crawl *)

Module MetrCrawlFacts.
Import PyStr PyOutcome Adapters Dom Normalizer Session MetrCrawl CrawlFacts.

Lemma metr_urls :
  Url.urljoin (base_url Metr) "/about" = Some about_url /\
  Url.urljoin (base_url Metr) "/blog" = Some blog_url /\
  is_blog_post_url Metr (base_url Metr) = false /\
  is_blog_post_url Metr about_url = false /\
  is_blog_post_url Metr blog_url = false.
Proof. repeat split; by vm_compute. Qed.

Lemma collect_links_cons (link : element) (rest : list element)
    (blog_links : gset string) :
  collect_links (link :: rest) blog_links
  = if truthy (get "href" link) then
      match get "href" link with
      | Some (AttrStr h) =>
          match Url.urljoin (base_url Metr) h with
          | Some full_url =>
              collect_links rest
                (if is_blog_post_url Metr full_url
                 then {[full_url]} ∪ blog_links else blog_links)
          | None => Raise ValueError
          end
      | _ => Raise TypeError
      end
    else collect_links rest blog_links.
Proof. reflexivity. Qed.

Lemma linked_nil (url : string) : ~ linked [] url.
Proof. intros (link & h & Hin & _). by apply elem_of_nil in Hin. Qed.

Lemma linked_cons (link : element) (rest : list element) (url : string) :
  linked (link :: rest) url <->
  (exists h, get "href" link = Some (AttrStr h) /\ h <> "" /\
             Url.urljoin (base_url Metr) h = Some url)
  \/ linked rest url.
Proof.
  unfold linked. split.
  - intros (l & h & Hin & Hh & Hne & Hj).
    apply elem_of_cons in Hin as [-> | Hin]; [left|right]; eauto 10.
  - intros [(h & Hh & Hne & Hj) | (l & h & Hin & Hh & Hne & Hj)].
    + exists link, h. split; [left|done].
    + exists l, h. split; [by right|done].
Qed.

(** The set the loop over the links of the listing page builds. *)
Lemma collect_links_found (links : list element) :
  forall (acc found : gset string),
    collect_links links acc = Return found ->
    forall u, u ∈ found <->
              u ∈ acc \/ (linked links u /\ is_blog_post_url Metr u = true).
Proof.
  induction links as [|link rest IH]; intros acc found H u.
  { injection H as <-. split; [auto|].
    intros [Hu | [Hl _]]; [done|]. by apply linked_nil in Hl. }
  rewrite collect_links_cons in H. rewrite linked_cons.
  destruct (truthy (get "href" link)) eqn:Ht.
  - destruct (get "href" link) as [[h|tokens]|] eqn:Hh;
      [|discriminate H..].
    destruct (Url.urljoin (base_url Metr) h) as [full|] eqn:Hj;
      [|discriminate H].
    assert (Hne : h <> "") by (by apply NormalizerFacts.nonempty_true).
    rewrite (IH _ _ H u).
    destruct (is_blog_post_url Metr full) eqn:Hacc.
    + rewrite elem_of_union, elem_of_singleton. split.
      * intros [[-> | Hu] | [Hl Hok]]; [right|by left|right].
        -- split; [left; eauto|done].
        -- split; [by right|done].
      * intros [Hu | [[(h' & [= <-] & _ & Hj') | Hl] Hok]].
        -- left. by right.
        -- left. left. congruence.
        -- right. done.
    + split.
      * intros [Hu | [Hl Hok]]; [by left|right]. split; [by right|done].
      * intros [Hu | [[(h' & [= <-] & _ & Hj') | Hl] Hok]].
        -- by left.
        -- congruence.
        -- right. done.
  - rewrite (IH _ _ H u). split.
    + intros [Hu | [Hl Hok]]; [by left|right]. split; [by right|done].
    + intros [Hu | [[(h' & Hh & Hne & _) | Hl] Hok]]; [by left| |by right].
      rewrite Hh in Ht. simpl in Ht.
      apply NormalizerFacts.nonempty_false in Ht. done.
Qed.

Lemma passes_metr (url : string) :
  passes Metr url = is_blog_post_url Metr url.
Proof. reflexivity. Qed.

(** A rendering [None] makes the join of the home page raise. *)
Lemma render_all_none (base_url : string) (elements : list element)
    (e : element) :
  e ∈ elements ->
  extract_text_content base_url e true = Return None ->
  (exists err, MetrContent.render_all base_url elements = Raise err) \/
  (exists texts, MetrContent.render_all base_url elements = Return texts /\
                 MetrContent.all_strings texts = None).
Proof.
  induction elements as [|x elements IH]; intros Hin He.
  { by apply elem_of_nil in Hin. }
  change (MetrContent.render_all base_url (x :: elements))
    with (text ← extract_text_content base_url x true;
          texts ← MetrContent.render_all base_url elements;
          Return (text :: texts)).
  apply elem_of_cons in Hin as [<- | Hin].
  - rewrite He. simpl.
    destruct (MetrContent.render_all base_url elements) as [err|texts];
      simpl; [left; eauto|right]. eexists. split; [done|]. done.
  - destruct (extract_text_content base_url x true) as [err|text]; simpl;
      [left; eauto|].
    destruct (IH Hin He) as [[err ->] | (texts & -> & Hnone)]; simpl;
      [left; eauto|right].
    eexists. split; [done|]. simpl. destruct text; [|done].
    by rewrite Hnone.
Qed.

Lemma page_of_blank (url : string) (soup main_content e : element) :
  find_class "div" "content" soup = Some main_content ->
  e ∈ find_all MetrContent.home_tags main_content ->
  name_in ["blockquote"; "pre"; "code"] e = true ->
  get_text_strip e = "" ->
  exists err, page_of url soup = Raise err.
Proof.
  intros Hmain Hin Hname Htext. unfold page_of. rewrite Hmain.
  unfold MetrContent.scrape_home_page_content.
  destruct (render_all_none (base_url Metr) _ e Hin
              (NormalizerFacts.empty_quote_or_code _ e true Hname Htext))
    as [[err ->] | (texts & -> & Hnone)]; simpl; [eauto|].
  unfold MetrContent.join_items. rewrite Hnone. simpl. eauto.
Qed.

Section Metr.

Context {record : Type}.
Variable respond : list string -> string -> option element.
Variable extract : adapter -> string -> element -> outcome (option record).
Variable order : gset string -> list string.

(** A [for] loop over a set meets every element once. *)
Hypothesis order_spec :
  forall X : gset string, NoDup (order X) /\ forall u, u ∈ order X <-> u ∈ X.

Abbreviation session := (@session record).
Abbreviation requested s url :=
  {| scraped_urls := scraped_urls s;
     requests := requests s ++ [url];
     posts := posts s |}.

Lemma scrape_page_spec (url : string) (s : session) :
  scrape_page respond url s
  = (match respond (requests s) url with
     | None => Return None
     | Some soup => page ← page_of url soup; Return (Some page)
     end, requested s url).
Proof.
  unfold scrape_page, get_page. by destruct (respond (requests s) url).
Qed.

Lemma scrape_blog_posts_spec (s : session) :
  scrape_blog_posts respond extract order s
  = match respond (requests s) blog_url with
    | None => (Return (), requested s blog_url)
    | Some soup =>
        match collect_links (find_all ["a"] soup) ∅ with
        | Raise e => (Raise e, requested s blog_url)
        | Return blog_links =>
            scrape_each respond extract Metr (requested s blog_url)
              (order blog_links)
        end
    end.
Proof.
  unfold scrape_blog_posts, get_page.
  by destruct (respond (requests s) blog_url).
Qed.

(** The loop over the links found, when it ends. *)
Lemma metr_loop_returns (s : session) (blog_links : gset string) :
  (forall u, u ∈ blog_links -> is_blog_post_url Metr u = true) ->
  (scrape_each respond extract Metr s (order blog_links)).1 = Return () ->
  exists fetched,
    requests (scrape_each respond extract Metr s (order blog_links)).2
    = requests s ++ fetched /\
    NoDup fetched /\
    (forall u, u ∈ fetched <-> u ∈ blog_links /\ (u ∉ scraped_urls s)) /\
    scraped_urls (scrape_each respond extract Metr s (order blog_links)).2
    = scraped_urls s ∪ blog_links /\
    (length (posts (scrape_each respond extract Metr s
                      (order blog_links)).2)
     <= length (posts s) + length fetched)%nat.
Proof.
  intros Hacc Hret. destruct (order_spec blog_links) as [Hnd Hin].
  assert (Hd : Forall (discovered Metr) (order blog_links)).
  { apply Forall_forall. by intros. }
  destruct (scrape_each_returns respond extract Metr _ Hd Hnd s Hret)
    as (Hreq & Hvis & Hlen).
  eexists. split; [exact Hreq|].
  split; [by apply NoDup_filter|].
  split; [|split; [|exact Hlen]].
  - intros u. rewrite list_elem_of_filter, Hin, passes_metr.
    specialize (Hacc u). tauto.
  - rewrite Hvis. apply set_eq. intros u.
    rewrite !elem_of_union, elem_of_list_to_set, list_elem_of_filter,
      Hin, passes_metr.
    specialize (Hacc u). tauto.
Qed.

(** X20.  The crawl of the Metr listing page.  When the listing page is
    fetched and the loop over its links ends, the set [blog_links] holds
    the URLs that a link of the page points to and that
    [is_blog_post_url] accepts, and no other.  When the crawl that
    follows ends without an exception, the requests made are the one of
    the listing page and then, without repetition, those of the URLs of
    the set that were not visited before: every new post linked from the
    page is requested once.  All of them are visited afterwards, and no
    more posts were added than pages were requested. *)
Theorem metr_listing_crawl
    (s : session) (soup : element) (blog_links : gset string) :
  respond (requests s) blog_url = Some soup ->
  collect_links (find_all ["a"] soup) ∅ = Return blog_links ->
  (forall u, u ∈ blog_links <->
             linked (find_all ["a"] soup) u /\
             is_blog_post_url Metr u = true) /\
  ((scrape_blog_posts respond extract order s).1 = Return () ->
   exists fetched,
     requests (scrape_blog_posts respond extract order s).2
     = requests s ++ blog_url :: fetched /\
     NoDup fetched /\
     (forall u, u ∈ fetched <-> u ∈ blog_links /\ (u ∉ scraped_urls s)) /\
     scraped_urls (scrape_blog_posts respond extract order s).2
     = scraped_urls s ∪ blog_links /\
     (length (posts (scrape_blog_posts respond extract order s).2)
      <= length (posts s) + length fetched)%nat).
Proof.
  intros Hsoup Hlinks.
  assert (Hfound : forall u, u ∈ blog_links <->
                             linked (find_all ["a"] soup) u /\
                             is_blog_post_url Metr u = true).
  { intros u. rewrite (collect_links_found _ _ _ Hlinks u).
    rewrite elem_of_empty. tauto. }
  split; [exact Hfound|].
  rewrite scrape_blog_posts_spec, Hsoup, Hlinks. intros Hret.
  destruct (metr_loop_returns (requested s blog_url) blog_links)
    as (fetched & Hreq & Hnd & Hf & Hvis & Hlen);
    [intros u Hu; exact (proj2 (proj1 (Hfound u) Hu))|exact Hret|].
  exists fetched. rewrite Hreq. simpl. rewrite <- app_assoc.
  done.
Qed.

(** X21.  The requests of a whole Metr crawl.  When [scrape_all], run in
    a new session, reaches [save_to_json], the requests made are those of
    the home page, of the about page and of the listing page, in that
    order, followed by those of posts: URLs that [is_blog_post_url]
    accepts.  No page was requested twice, the posts requested are the
    URLs marked as visited, and the document saved holds the posts of the
    session, at most one for each post requested.  Its [home] is [None]
    exactly when the request of the home page failed, and so for
    [about]. *)
Theorem metr_scrape_all_requests (d : data record) (s' : session) :
  scrape_all respond extract order init = (Return d, s') ->
  exists fetched,
    requests s' = base_url Metr :: about_url :: blog_url :: fetched /\
    NoDup (requests s') /\
    Forall (fun u => is_blog_post_url Metr u = true) fetched /\
    scraped_urls s' = list_to_set fetched /\
    blog_posts d = posts s' /\
    (length (blog_posts d) <= length fetched)%nat /\
    (home d = None <-> respond [] (base_url Metr) = None) /\
    (about d = None <-> respond [base_url Metr] about_url = None).
Proof.
  unfold scrape_all, scrape_home_page, scrape_about_page.
  rewrite scrape_page_spec.
  cbn [init scraped_urls requests posts app].
  destruct (match respond [] (base_url Metr) with
            | Some soup => page ← page_of (base_url Metr) soup;
                           Return (Some page)
            | None => Return None
            end) as [e|home_page] eqn:Hhome; [discriminate|].
  rewrite scrape_page_spec.
  cbn [scraped_urls requests posts app].
  destruct (match respond [base_url Metr] about_url with
            | Some soup => page ← page_of about_url soup;
                           Return (Some page)
            | None => Return None
            end) as [e|about_page] eqn:Habout; [discriminate|].
  set (s2 := {| scraped_urls := ∅;
                requests := [base_url Metr; about_url];
                posts := @nil record |}).
  assert (Hh : home_page = None <-> respond [] (base_url Metr) = None).
  { destruct (respond [] (base_url Metr)) as [soup|].
    - destruct (page_of (base_url Metr) soup); [discriminate Hhome|].
      injection Hhome as <-. split; discriminate.
    - injection Hhome as <-. done. }
  assert (Ha : about_page = None
               <-> respond [base_url Metr] about_url = None).
  { destruct (respond [base_url Metr] about_url) as [soup|].
    - destruct (page_of about_url soup); [discriminate Habout|].
      injection Habout as <-. split; discriminate.
    - injection Habout as <-. done. }
  destruct (scrape_blog_posts respond extract order s2) as [[e|[]] s3]
    eqn:Hcrawl; [discriminate|].
  intros [= <- <-]. cbn [home about blog_posts].
  assert (Hthree : NoDup [base_url Metr; about_url; blog_url])
    by (apply (bool_decide_unpack _); by vm_compute).
  rewrite scrape_blog_posts_spec in Hcrawl.
  cbn [scraped_urls requests posts app s2] in Hcrawl.
  destruct (respond [base_url Metr; about_url] blog_url) as [soup|].
  2:{ injection Hcrawl as <-. exists []. simpl.
      split; [done|]. split; [exact Hthree|]. split; [constructor|].
      split; [done|]. split; [done|]. split; [lia|]. done. }
  destruct (collect_links (find_all ["a"] soup) ∅) as [e|blog_links]
    eqn:Hlinks; [discriminate Hcrawl|].
  assert (Hacc : forall u, u ∈ blog_links -> is_blog_post_url Metr u = true).
  { intros u Hu. apply (collect_links_found _ _ _ Hlinks) in Hu.
    destruct Hu as [Hu | [_ Hu]]; [|done]. by apply elem_of_empty in Hu. }
  set (s2' := {| scraped_urls := ∅;
                 requests := [base_url Metr; about_url; blog_url];
                 posts := @nil record |}) in *.
  destruct (metr_loop_returns s2' blog_links Hacc)
    as (fetched & Hreq & Hnd & Hf & Hvis & Hlen);
    [by rewrite Hcrawl|].
  rewrite Hcrawl in Hreq, Hvis, Hlen. cbn [fst snd] in *.
  assert (Hfa : forall u, u ∈ fetched -> is_blog_post_url Metr u = true).
  { intros u Hu. apply Hacc. by apply Hf. }
  exists fetched. split; [exact Hreq|]. split; [|split; [|split]].
  - rewrite Hreq. cbn [requests s2' app].
    destruct metr_urls as (_ & _ & H1 & H2 & H3).
    apply NoDup_cons in Hthree as [N1 Hthree].
    apply NoDup_cons in Hthree as [N2 Hthree].
    apply NoDup_cons in Hthree as [N3 _].
    rewrite !elem_of_cons in N1. rewrite elem_of_cons in N2.
    repeat (apply NoDup_cons; split); [| | |exact Hnd].
    + rewrite !elem_of_cons. intros [?|[?|Hin]]; [tauto..|].
      apply Hfa in Hin. congruence.
    + rewrite elem_of_cons. intros [?|Hin]; [tauto|].
      apply Hfa in Hin. congruence.
    + intros Hin. apply Hfa in Hin. congruence.
  - by apply Forall_forall.
  - rewrite Hvis. cbn [scraped_urls s2']. apply set_eq. intros u.
    rewrite elem_of_union, elem_of_list_to_set, Hf.
    cbn [scraped_urls s2']. set_solver.
  - split; [done|]. split; [exact Hlen|]. done.
Qed.

(** X22.  A blank quote on the home page ends the Metr crawl.  When the
    content container of the home page holds a [blockquote], [pre] or
    [code] element without text, [scrape_all] raises: the home page is
    the only page requested, and nothing is saved. *)
Theorem blank_quote_ends_metr_crawl (soup main_content e : element) :
  respond [] (base_url Metr) = Some soup ->
  find_class "div" "content" soup = Some main_content ->
  e ∈ find_all MetrContent.home_tags main_content ->
  name_in ["blockquote"; "pre"; "code"] e = true ->
  get_text_strip e = "" ->
  exists err,
    scrape_all respond extract order init
    = (Raise err, {| scraped_urls := ∅;
                     requests := [base_url Metr];
                     posts := [] |}).
Proof.
  intros Hsoup Hmain Hin Hname Htext.
  destruct (page_of_blank (base_url Metr) soup main_content e
              Hmain Hin Hname Htext) as [err Herr].
  exists err. unfold scrape_all, scrape_home_page.
  rewrite scrape_page_spec.
  cbn [init scraped_urls requests posts app].
  by rewrite Hsoup, Herr.
Qed.

End Metr.

(** The order in which [elements] lists a set is one a loop can take. *)
Lemma elements_order :
  forall X : gset string,
    NoDup (elements X) /\ forall u, u ∈ elements X <-> u ∈ X.
Proof.
  intros X. split; [apply NoDup_elements|]. intros u. apply elem_of_elements.
Qed.

(** The witness of X20: the listing page of the sample site. *)
Lemma metr_listing_crawl_witness :
  exists blog_links,
    collect_links (find_all ["a"] CrawlSamples.listing_page) ∅
    = Return blog_links /\
    forall u, u ∈ blog_links <->
              linked (find_all ["a"] CrawlSamples.listing_page) u /\
              is_blog_post_url Metr u = true.
Proof.
  assert (Hs : CrawlSamples.metr_site (requests (@init string)) blog_url
               = Some CrawlSamples.listing_page) by reflexivity.
  destruct (collect_links (find_all ["a"] CrawlSamples.listing_page) ∅)
    as [e|blog_links] eqn:Hl.
  { vm_compute in Hl. discriminate Hl. }
  exists blog_links. split; [reflexivity|].
  exact (proj1 (metr_listing_crawl CrawlSamples.metr_site
                  CrawlSamples.url_of_post elements elements_order
                  init CrawlSamples.listing_page blog_links Hs Hl)).
Defined.

(** The witness of X21: the crawl of the sample site. *)
Lemma metr_scrape_all_requests_witness :
  exists d s',
    scrape_all CrawlSamples.metr_site CrawlSamples.url_of_post elements init
    = (Return d, s') /\
    NoDup (requests s') /\ blog_posts d = posts s'.
Proof.
  destruct (scrape_all CrawlSamples.metr_site CrawlSamples.url_of_post
              elements init) as [[e|d] s'] eqn:H.
  { vm_compute in H. discriminate H. }
  exists d, s'. split; [reflexivity|].
  destruct (metr_scrape_all_requests CrawlSamples.metr_site
              CrawlSamples.url_of_post elements elements_order d s' H)
    as (fetched & _ & Hnd & _ & _ & Hposts & _).
  split; [exact Hnd | exact Hposts].
Defined.

(** The witness of X22: the home page of the sample site holds a quote
    of white space. *)
Lemma blank_quote_ends_metr_crawl_witness :
  exists err,
    scrape_all CrawlSamples.metr_site_blank_quote CrawlSamples.url_of_post
      elements init
    = (Raise err, {| scraped_urls := ∅;
                     requests := [base_url Metr];
                     posts := [] |}).
Proof.
  apply (blank_quote_ends_metr_crawl CrawlSamples.metr_site_blank_quote
           CrawlSamples.url_of_post elements
           (Element "[document]" [] [to_node Samples.blank_quote])
           Samples.blank_quote
           (Element "blockquote" [] [Text "  "])).
  - reflexivity.
  - vm_compute. reflexivity.
  - assert (Hfa : find_all MetrContent.home_tags Samples.blank_quote
                  = [Element "p" [] [Text "A"];
                     Element "blockquote" [] [Text "  "]])
      by (vm_compute; reflexivity).
    rewrite Hfa. right. left.
  - reflexivity.
  - vm_compute. reflexivity.
Defined.

End MetrCrawlFacts.

(** ** [filter_json.py]: [filter_deepmind_data] *)

Module FilterDeepMindFacts.
Import PyStr PyOutcome Json FilterJson FilterData FilterDeepMind.
Import FilterDataFacts FilterCleanFacts.

(** How much of a string the pieces of the two formats take. *)
Lemma literal_takes (c : ascii) (s rest : string) (v : unit) :
  (v, rest) ∈ literal c s -> String.length s = S (String.length rest).
Proof.
  destruct s as [|d s]; simpl; [by intros ?%elem_of_nil|].
  destruct (Ascii.eqb d c); [|by intros ?%elem_of_nil].
  intros [= _ ->]%list_elem_of_singleton. done.
Qed.

Lemma year_field_takes (s rest : string) (v : Z) :
  (v, rest) ∈ year_field s -> String.length s = (4 + String.length rest)%nat.
Proof.
  destruct s as [|a [|b [|c [|d s]]]]; simpl; try by intros ?%elem_of_nil.
  destruct (_ && _); [|by intros ?%elem_of_nil].
  intros [= _ ->]%list_elem_of_singleton. done.
Qed.

Lemma two_digits_takes (first lo hi : ascii) (s rest : string) (v : Z) :
  (v, rest) ∈ two_digits first lo hi s ->
  String.length s = (2 + String.length rest)%nat.
Proof.
  destruct s as [|a [|b s]]; simpl; try by intros ?%elem_of_nil.
  destruct (_ && _); [|by intros ?%elem_of_nil].
  intros [= _ ->]%list_elem_of_singleton. done.
Qed.

Lemma one_digit_takes (s rest : string) (v : Z) :
  (v, rest) ∈ one_digit s -> String.length s = S (String.length rest).
Proof.
  destruct s as [|a s]; simpl; [by intros ?%elem_of_nil|].
  destruct (between _ _ a); [|by intros ?%elem_of_nil].
  intros [= _ ->]%list_elem_of_singleton. done.
Qed.

Lemma month_field_takes (s rest : string) (v : Z) :
  (v, rest) ∈ month_field s ->
  (1 + String.length rest <= String.length s <= 2 + String.length rest)%nat.
Proof.
  unfold month_field. rewrite !elem_of_app.
  intros [H | [H | H]].
  - apply two_digits_takes in H. lia.
  - apply two_digits_takes in H. lia.
  - apply one_digit_takes in H. lia.
Qed.

Lemma day_field_takes (s rest : string) (v : Z) :
  (v, rest) ∈ day_field s ->
  (1 + String.length rest <= String.length s <= 2 + String.length rest)%nat.
Proof.
  unfold day_field. rewrite !elem_of_app.
  intros [H | [H | [H | [H | [H | H]]]]];
    try (apply two_digits_takes in H; lia);
    try (apply one_digit_takes in H; lia).
  apply list_elem_of_bind in H as ([[] s1] & H1 & H2).
  apply literal_takes in H2. apply one_digit_takes in H1. lia.
Qed.

(** A text that [%Y-%m-%d] matches: the match takes eight to ten
    characters. *)
Lemma iso_ways_takes (s rest : string) (d : date) :
  (d, rest) ∈ iso_ways s ->
  (8 + String.length rest <= String.length s <= 10 + String.length rest)%nat.
Proof.
  unfold iso_ways. intros H.
  apply list_elem_of_bind in H as ([y s1] & H & Hy).
  apply list_elem_of_bind in H as ([[] s2] & H & H1).
  apply list_elem_of_bind in H as ([m s3] & H & Hm).
  apply list_elem_of_bind in H as ([[] s4] & H & H2).
  apply list_elem_of_bind in H as ([dd s5] & H & Hd).
  apply list_elem_of_singleton in H. injection H as _ ->.
  apply year_field_takes in Hy. apply literal_takes in H1, H2.
  apply month_field_takes in Hm. apply day_field_takes in Hd. lia.
Qed.

Lemma strptime_as_some (ways : string -> list (date * string))
    (text : string) (d : date) :
  strptime_as ways text = Some d ->
  (d, "") ∈ ways text /\ date_exists d = true.
Proof.
  unfold strptime_as. destruct (ways text) as [|[d' rest] l]; [discriminate|].
  destruct (nonempty rest) eqn:Hrest; [discriminate|].
  apply NormalizerFacts.nonempty_false in Hrest as ->.
  destruct (date_exists d') eqn:Hd; [|discriminate].
  intros [= <-]. split; [left|done].
Qed.

(** What [filter_publication] keeps. *)
Lemma filter_publication_true (pub : list (string * json)) :
  filter_publication pub = true ->
  exists text d,
    dict_get "date" pub = Some (JStr text) /\
    (if contains "-" text then strptime_as iso_ways text
     else strptime_as text_ways text) = Some d /\
    date_geb d publication_cutoff = true.
Proof.
  unfold filter_publication.
  destruct (dict_get "date" pub) as [v|]; [|discriminate].
  destruct (negb (truthy v)); [discriminate|].
  destruct v as [| | |text| |]; try discriminate.
  destruct (if contains "-" text then strptime_as iso_ways text
            else strptime_as text_ways text) as [d|] eqn:Hd; [|discriminate].
  intros H. by exists text, d.
Qed.

(** The numbers the pieces read. *)
Lemma between_spec (lo hi c : ascii) :
  between lo hi c = true ->
  (digit_value lo <= digit_value c <= digit_value hi)%Z.
Proof.
  unfold between, digit_value.
  rewrite andb_true_iff, !N.leb_le. lia.
Qed.

Lemma two_digits_value (first lo hi : ascii) (s rest : string) (v : Z) :
  (v, rest) ∈ two_digits first lo hi s ->
  (10 * digit_value first + digit_value lo <= v
   <= 10 * digit_value first + digit_value hi)%Z.
Proof.
  destruct s as [|a [|b s]]; simpl; try by intros ?%elem_of_nil.
  destruct (Ascii.eqb a first) eqn:Ha; simpl; [|by intros ?%elem_of_nil].
  destruct (between lo hi b) eqn:Hb; [|by intros ?%elem_of_nil].
  apply Ascii.eqb_eq in Ha as ->. apply between_spec in Hb.
  intros [= -> _]%list_elem_of_singleton. lia.
Qed.

Lemma one_digit_value (s rest : string) (v : Z) :
  (v, rest) ∈ one_digit s -> (1 <= v <= 9)%Z.
Proof.
  destruct s as [|a s]; simpl; [by intros ?%elem_of_nil|].
  destruct (between "1" "9" a) eqn:Ha; [|by intros ?%elem_of_nil].
  apply between_spec in Ha.
  intros [= -> _]%list_elem_of_singleton.
  change (digit_value "1") with 1%Z in Ha.
  change (digit_value "9") with 9%Z in Ha. done.
Qed.

Lemma month_field_value (s rest : string) (v : Z) :
  (v, rest) ∈ month_field s -> (1 <= v <= 12)%Z.
Proof.
  unfold month_field. rewrite !elem_of_app.
  intros [H | [H | H]].
  - apply two_digits_value in H.
    change (10 * digit_value "1" + digit_value "0")%Z with 10%Z in H.
    change (10 * digit_value "1" + digit_value "2")%Z with 12%Z in H. lia.
  - apply two_digits_value in H.
    change (10 * digit_value "0" + digit_value "1")%Z with 1%Z in H.
    change (10 * digit_value "0" + digit_value "9")%Z with 9%Z in H. lia.
  - apply one_digit_value in H. lia.
Qed.

Lemma day_field_value (s rest : string) (v : Z) :
  (v, rest) ∈ day_field s -> (1 <= v <= 31)%Z.
Proof.
  unfold day_field. rewrite !elem_of_app.
  intros [H | [H | [H | [H | [H | H]]]]].
  - apply two_digits_value in H.
    change (10 * digit_value "3" + digit_value "0")%Z with 30%Z in H.
    change (10 * digit_value "3" + digit_value "1")%Z with 31%Z in H. lia.
  - apply two_digits_value in H.
    change (10 * digit_value "1" + digit_value "0")%Z with 10%Z in H.
    change (10 * digit_value "1" + digit_value "9")%Z with 19%Z in H. lia.
  - apply two_digits_value in H.
    change (10 * digit_value "2" + digit_value "0")%Z with 20%Z in H.
    change (10 * digit_value "2" + digit_value "9")%Z with 29%Z in H. lia.
  - apply two_digits_value in H.
    change (10 * digit_value "0" + digit_value "1")%Z with 1%Z in H.
    change (10 * digit_value "0" + digit_value "9")%Z with 9%Z in H. lia.
  - apply one_digit_value in H. lia.
  - apply list_elem_of_bind in H as ([[] s1] & H1 & _).
    apply one_digit_value in H1. lia.
Qed.

Lemma month_name_field_value (s rest : string) (v : Z) :
  (v, rest) ∈ month_name_field s -> (1 <= v <= 12)%Z.
Proof.
  unfold month_name_field. rewrite list_elem_of_omap.
  intros ([number name] & Hin & Hf).
  destruct (String.eqb _ _); [|discriminate Hf]. injection Hf as -> _.
  apply elem_of_zip_l, list_elem_of_fmap in Hin as (i & -> & Hi).
  apply elem_of_seq in Hi. lia.
Qed.

Lemma iso_ways_value (s rest : string) (d : date) :
  (d, rest) ∈ iso_ways s ->
  (1 <= month d <= 12 /\ 1 <= day d <= 31)%Z.
Proof.
  unfold iso_ways. intros H.
  apply list_elem_of_bind in H as ([y s1] & H & Hy).
  apply list_elem_of_bind in H as ([[] s2] & H & H1).
  apply list_elem_of_bind in H as ([m s3] & H & Hm).
  apply list_elem_of_bind in H as ([[] s4] & H & H2).
  apply list_elem_of_bind in H as ([dd s5] & H & Hd).
  apply list_elem_of_singleton in H. injection H as -> _.
  apply month_field_value in Hm. apply day_field_value in Hd. done.
Qed.

Lemma text_ways_value (s rest : string) (d : date) :
  (d, rest) ∈ text_ways s ->
  (1 <= month d <= 12 /\ 1 <= day d <= 31)%Z.
Proof.
  unfold text_ways. intros H.
  apply list_elem_of_bind in H as ([m s1] & H & Hm).
  apply list_elem_of_bind in H as ([[] s2] & H & H1).
  apply list_elem_of_bind in H as ([dd s3] & H & Hd).
  apply list_elem_of_bind in H as ([[] s4] & H & H2).
  apply list_elem_of_bind in H as ([[] s5] & H & H3).
  apply list_elem_of_bind in H as ([y s6] & H & Hy).
  apply list_elem_of_singleton in H. injection H as -> _.
  apply month_name_field_value in Hm. apply day_field_value in Hd. done.
Qed.

(** On the dates [strptime] reads, the cutoff is a test of the year. *)
Lemma cutoff_is_year (d : date) :
  (1 <= month d)%Z -> (1 <= day d)%Z ->
  date_geb d publication_cutoff = true <-> (2024 <= year d)%Z.
Proof.
  intros Hm Hd. rewrite FilterJsonFacts.date_geb_spec. simpl. lia.
Qed.

Lemma parsed_value (text : string) (d : date) :
  (if contains "-" text then strptime_as iso_ways text
   else strptime_as text_ways text) = Some d ->
  (1 <= month d <= 12 /\ 1 <= day d <= 31)%Z /\ text <> "".
Proof.
  intros H. split.
  - destruct (contains "-" text);
      apply strptime_as_some in H as [H _];
      [by apply iso_ways_value in H | by apply text_ways_value in H].
  - intros ->. simpl in H. discriminate H.
Qed.

(** X23.  Which publications [filter_publication] keeps.  A publication
    is kept exactly when its [date] is a string that [strptime] reads, in
    the format [%Y-%m-%d] when it holds a hyphen and in the format
    [%b %d, %Y] otherwise, and the year read is 2024 or later; nothing is
    raised for any other [date].  A date with a hyphen that is read has
    eight to ten characters: a date followed by a time, as in
    [2024-05-01T00:00:00Z], is not read, and the publication is
    dropped. *)
Theorem publications_kept :
  (forall pub,
     filter_publication pub = true <->
     exists text d,
       dict_get "date" pub = Some (JStr text) /\
       (if contains "-" text then strptime_as iso_ways text
        else strptime_as text_ways text) = Some d /\
       (2024 <= year d)%Z) /\
  (forall text d,
     contains "-" text = true -> strptime_as iso_ways text = Some d ->
     (8 <= String.length text <= 10)%nat) /\
  (forall pub text,
     dict_get "date" pub = Some (JStr text) ->
     contains "-" text = true -> (10 < String.length text)%nat ->
     filter_publication pub = false) /\
  filter_publication [("date", JStr "2024-01-01")] = true /\
  filter_publication [("date", JStr "2023-12-31")] = false /\
  filter_publication [("date", JStr "2024-05-01T00:00:00Z")] = false /\
  filter_publication [("date", JStr "Jan 1, 2024")] = true /\
  filter_publication [("date", JStr "January 1, 2024")] = false.
Proof.
  assert (Hlen : forall text d,
            strptime_as iso_ways text = Some d ->
            (8 <= String.length text <= 10)%nat).
  { intros text d H. apply strptime_as_some in H as [H _].
    apply iso_ways_takes in H. simpl in H. lia. }
  split; [|split; [|split]].
  - intros pub. split.
    + intros H. apply filter_publication_true in H as (text & d & Hg & Hp & Hc).
      exists text, d. split; [done|]. split; [done|].
      destruct (parsed_value _ _ Hp) as [[Hm Hd] _].
      apply cutoff_is_year in Hc; lia.
    + intros (text & d & Hg & Hp & Hy).
      destruct (parsed_value _ _ Hp) as [[Hm Hd] Hne].
      unfold filter_publication. rewrite Hg. simpl truthy.
      apply NormalizerFacts.nonempty_true in Hne. rewrite Hne. simpl negb.
      cbv iota. rewrite Hp. apply cutoff_is_year; lia.
  - intros text d _ H. by apply (Hlen text d).
  - intros pub text Hg Hc Hlong.
    destruct (filter_publication pub) eqn:Hf; [|done].
    apply filter_publication_true in Hf as (text' & d & Hg' & Hp & _).
    rewrite Hg in Hg'. injection Hg' as <-. rewrite Hc in Hp.
    apply Hlen in Hp. lia.
  - repeat split; by vm_compute.
Qed.

(** The witness of X23: a date followed by a time. *)
Lemma publications_kept_witness :
  contains "-" "2024-05-01T00:00:00Z" = true /\
  (10 < String.length "2024-05-01T00:00:00Z")%nat /\
  filter_publication
    [("url", JStr "c"); ("date", JStr "2024-05-01T00:00:00Z")] = false.
Proof.
  assert (Hc : contains "-" "2024-05-01T00:00:00Z" = true) by reflexivity.
  assert (Hl : (10 < String.length "2024-05-01T00:00:00Z")%nat)
    by (simpl; lia).
  split; [exact Hc|]. split; [exact Hl|].
  exact (proj1 (proj2 (proj2 publications_kept))
           [("url", JStr "c"); ("date", JStr "2024-05-01T00:00:00Z")]
           "2024-05-01T00:00:00Z" eq_refl Hc Hl).
Defined.

Lemma filter_publications_cons (pub : list (string * json))
    (rest : list json) :
  filter_publications (JDict pub :: rest)
  = (kept ← filter_publications rest;
     Return (if filter_publication pub
             then JDict (without_links pub) :: kept else kept)).
Proof. reflexivity. Qed.

(** The loop over the publications: when it ends and what it keeps. *)
Lemma filter_publications_spec (pubs kept : list json) :
  filter_publications pubs = Return kept <->
  exists ds,
    pubs = JDict <$> ds /\
    kept = (fun p => JDict (without_links p))
           <$> filter (fun p => filter_publication p = true) ds.
Proof.
  revert kept. induction pubs as [|p pubs IH]; intros kept.
  { simpl. split.
    - intros [= <-]. by exists [].
    - intros (ds & Hds & ->). by destruct ds. }
  destruct p as [| | | | |pub].
  1-5: split; [discriminate|]; intros (ds & Hds & _);
       destruct ds; discriminate Hds.
  rewrite filter_publications_cons, bind_returns. split.
  - intros (kept' & Hrest & [= <-]).
    apply IH in Hrest as (ds & -> & ->).
    exists (pub :: ds). split; [done|]. rewrite filter_cons.
    destruct (filter_publication pub); by destruct (decide _).
  - intros (ds & Hds & ->). destruct ds as [|d ds]; [discriminate Hds|].
    injection Hds as -> ->. eexists. split; [apply IH; eauto|].
    rewrite filter_cons.
    destruct (filter_publication d); by destruct (decide _).
Qed.

(** The values a loop can run through with a body for objects. *)
Lemma iterate_objects (v : json) :
  (exists ds, iterate v = Return (JDict <$> ds)) <->
  (exists ds, v = JList (JDict <$> ds)) \/ v = JDict [] \/ v = JStr "".
Proof.
  split.
  - intros [ds H]. destruct v as [| | |s|items|entries]; simpl in H;
      try discriminate H.
    + destruct s; [auto|]. destruct ds; discriminate H.
    + injection H as ->. left. eauto.
    + destruct entries; [auto|]. destruct ds; discriminate H.
  - intros [[ds ->] | [-> | ->]]; [by exists ds|by exists []..].
Qed.

(** The block of [filter_deepmind_data] on the publications. *)
Lemma filter_publications_block_spec (data data' : list (string * json)) :
  filter_publications_block data = Return data' <->
  (dict_get "publications" data = None /\ data' = data) \/
  (exists section ds,
     dict_get "publications" data = Some section /\
     iterate section = Return (JDict <$> ds) /\
     data' = dict_set "publications"
               (JList ((fun p => JDict (without_links p))
                       <$> filter (fun p => filter_publication p = true) ds))
               data).
Proof.
  unfold filter_publications_block.
  destruct (dict_get "publications" data) as [section|].
  2:{ split; [intros [= <-]; by left|].
      intros [[_ ->] | (? & ? & ? & _)]; done. }
  rewrite bind_returns. setoid_rewrite bind_returns. split.
  - intros (pubs & Hit & kept & Hk & [= <-]).
    apply filter_publications_spec in Hk as (ds & -> & ->).
    right. by exists section, ds.
  - intros [[? _] | (section' & ds & [= <-] & Hit & ->)]; [done|].
    eexists. split; [exact Hit|]. eexists. split; [|done].
    apply filter_publications_spec. by exists ds.
Qed.

Lemma filter_publications_block_returns (data : list (string * json)) :
  (exists data', filter_publications_block data = Return data') <->
  cleanable_list "publications" data.
Proof.
  unfold cleanable_list. split.
  - intros [data' H]. apply filter_publications_block_spec in H.
    destruct H as [[Hn _] | (section & ds & Hget & Hit & _)].
    + intros v Hv. congruence.
    + intros v Hv. rewrite Hget in Hv. injection Hv as <-.
      apply iterate_objects. eauto.
  - intros Hc. destruct (dict_get "publications" data) as [section|] eqn:Hg.
    + destruct (proj2 (iterate_objects section) (Hc _ eq_refl)) as [ds Hit].
      eexists. apply filter_publications_block_spec. right. eauto.
    + eexists. apply filter_publications_block_spec. by left.
Qed.

Lemma filter_publications_block_frame (data data' : list (string * json)) :
  filter_publications_block data = Return data' ->
  data'.*1 = data.*1 /\
  forall k, k <> "publications" -> dict_get k data' = dict_get k data.
Proof.
  intros H. apply filter_publications_block_spec in H.
  destruct H as [[_ ->] | (section & ds & Hget & _ & ->)]; [done|].
  split; [apply dict_set_keys; by rewrite Hget|].
  intros k Hk. by apply dict_get_set_ne.
Qed.

(** X24.  When [filter_deepmind_data] returns.  It returns exactly on
    the documents whose [publications] is absent, an array of objects, or
    an empty object or string, and whose [home] and [about] are absent,
    false or objects; the dates of the publications play no part: a date
    that cannot be read drops the publication and raises nothing. *)
Theorem filter_deepmind_data_returns (data : list (string * json)) :
  (exists data', filter_deepmind_data data = Return data') <->
  cleanable_list "publications" data /\
  cleanable_page "home" data /\ cleanable_page "about" data.
Proof.
  unfold filter_deepmind_data. split.
  - intros [data' H].
    apply bind_returns in H as (d1 & H1 & H).
    apply bind_returns in H as (d2 & H2 & H3).
    apply clean_page_spec in H2 as [Hh ->]; [|done].
    apply clean_page_spec in H3 as [Ha _]; [|done].
    destruct (filter_publications_block_frame _ _ H1) as [_ Hf].
    split; [apply filter_publications_block_returns; eauto|]. split.
    + eapply cleanable_page_frame; [|exact Hh]. symmetry. by apply Hf.
    + eapply cleanable_page_frame; [|exact Ha].
      rewrite page_cleaned_get_ne by done. symmetry. by apply Hf.
  - intros (Hp & Hh & Ha).
    apply filter_publications_block_returns in Hp as [d1 H1].
    destruct (filter_publications_block_frame _ _ H1) as [_ Hf].
    eexists. apply bind_returns. exists d1. split; [exact H1|].
    apply bind_returns. eexists. split.
    + apply clean_page_spec; [done|]. split; [|reflexivity].
      eapply cleanable_page_frame; [|exact Hh]. by apply Hf.
    + apply clean_page_spec; [done|]. split; [|reflexivity].
      eapply cleanable_page_frame; [|exact Ha].
      rewrite page_cleaned_get_ne by done. by apply Hf.
Qed.

(** The witness of X24: the document of the DeepMind scraper. *)
Lemma filter_deepmind_data_returns_witness :
  cleanable_list "publications" MoreSamples.deepmind_doc /\
  exists data', filter_deepmind_data MoreSamples.deepmind_doc = Return data'.
Proof.
  assert (H : exists data',
             filter_deepmind_data MoreSamples.deepmind_doc = Return data')
    by (eexists; vm_compute; reflexivity).
  split; [|exact H].
  exact (proj1 (proj1 (filter_deepmind_data_returns
                         MoreSamples.deepmind_doc) H)).
Defined.

(** X25.  What [filter_deepmind_data] returns.  The document keeps its
    keys in their order; the entries other than [publications], [home]
    and [about] keep their values; [home] and [about] lose [links] and
    [timestamp] when they are objects; an array of publications becomes
    the array of those [filter_publication] keeps, in their order, each
    without [links] and [timestamp]. *)
Theorem filter_deepmind_data_result (data data' : list (string * json)) :
  filter_deepmind_data data = Return data' ->
  data'.*1 = data.*1 /\
  (forall k, k ∉ ["publications"; "home"; "about"] ->
             dict_get k data' = dict_get k data) /\
  (forall k, k = "home" \/ k = "about" ->
             dict_get k data'
             = without ["links"; "timestamp"] <$> dict_get k data) /\
  (forall pubs,
     dict_get "publications" data = Some (JList pubs) ->
     exists ds,
       pubs = JDict <$> ds /\
       dict_get "publications" data'
       = Some (JList ((fun p => JDict (without_links p))
                      <$> filter (fun p => filter_publication p = true) ds))).
Proof.
  unfold filter_deepmind_data. intros H.
  apply bind_returns in H as (d1 & H1 & H).
  apply bind_returns in H as (d2 & H2 & H3).
  apply clean_page_spec in H2 as [_ ->]; [|done].
  apply clean_page_spec in H3 as [_ ->]; [|done].
  destruct (filter_publications_block_frame _ _ H1) as [Hk Hf].
  split; [|split; [|split]].
  - by rewrite !page_cleaned_keys.
  - intros k Hn. rewrite !not_elem_of_cons in Hn.
    destruct Hn as (? & ? & ? & _).
    rewrite !page_cleaned_get_ne by done. by apply Hf.
  - intros k [-> | ->].
    + rewrite page_cleaned_get_ne by done.
      rewrite page_cleaned_get_eq. by rewrite Hf.
    + rewrite page_cleaned_get_eq, page_cleaned_get_ne by done.
      by rewrite Hf.
  - intros pubs Hget. rewrite !page_cleaned_get_ne by done.
    apply filter_publications_block_spec in H1.
    destruct H1 as [[Hn _] | (section & ds & Hg & Hit & ->)]; [congruence|].
    rewrite Hget in Hg. injection Hg as <-. injection Hit as ->.
    exists ds. split; [done|]. apply dict_get_set_eq.
Qed.

(** The witness of X25: of the five publications of the document, the
    one dated on the cutoff day and the one dated in words are kept. *)
Lemma filter_deepmind_data_result_witness :
  exists data' ds,
    filter_deepmind_data MoreSamples.deepmind_doc = Return data' /\
    length (filter (fun p => filter_publication p = true) ds) = 2%nat /\
    dict_get "publications" data'
    = Some (JList ((fun p => JDict (without_links p))
                   <$> filter (fun p => filter_publication p = true) ds)).
Proof.
  destruct (filter_deepmind_data MoreSamples.deepmind_doc) as [e|data']
    eqn:H.
  { vm_compute in H. discriminate H. }
  destruct (filter_deepmind_data_result _ _ H) as (_ & _ & _ & Hp).
  destruct (Hp _ eq_refl) as (ds & Hds & Hget).
  exists data', ds. split; [reflexivity|]. split; [|exact Hget].
  destruct ds as [|a [|b [|c [|d [|e [|x ds]]]]]]; try discriminate Hds.
  injection Hds as <- <- <- <- <-. by vm_compute.
Defined.

End FilterDeepMindFacts.

(** ** [LakeraScraper.scrape_blog_posts]: the pages of the listing *)

Module LakeraCrawlFacts.
Import stdpp.pretty.
Import PyStr PyOutcome Adapters Dom Normalizer Session LakeraCrawl.

Lemma append_inj_l (p a b : string) : p +:+ a = p +:+ b -> a = b.
Proof.
  induction p as [|c p IH]; simpl; [done|]. intros [= H]. by apply IH.
Qed.

Lemma append_self (s t : string) : s = s +:+ t -> t = "".
Proof.
  induction s as [|c s IH]; simpl; [done|]. intros [= H]. by apply IH.
Qed.

(** Two pages of the listing have two URLs. *)
Lemma page_url_inj (n m : nat) : page_url n = page_url m -> n = m \/
  ((n =? 1)%nat = (m =? 1)%nat /\ n = m).
Proof.
  unfold page_url.
  destruct (n =? 1)%nat eqn:Hn, (m =? 1)%nat eqn:Hm.
  - apply Nat.eqb_eq in Hn, Hm. left. lia.
  - intros H. apply append_self in H. discriminate H.
  - intros H. symmetry in H. apply append_self in H. discriminate H.
  - intros H. apply append_inj_l, append_inj_l in H.
    left. by apply (inj pretty).
Qed.

Lemma page_urls_distinct (page k : nat) :
  NoDup (page_url <$> seq page k).
Proof.
  apply NoDup_fmap_2_strong; [|apply NoDup_seq].
  intros n m _ _ H. apply page_url_inj in H. tauto.
Qed.

Lemma collect_items_cons (item : element) (rest : list element)
    (blog_links : gset string) :
  collect_items (item :: rest) blog_links
  = match title_link item with
    | Some link =>
        if truthy (get "href" link) then
          match get "href" link with
          | Some (AttrStr h) =>
              match Url.urljoin (base_url Lakera) h with
              | Some full_url =>
                  collect_items rest
                    (if is_blog_post_url Lakera full_url
                     then {[full_url]} ∪ blog_links else blog_links)
              | None => Raise ValueError
              end
          | _ => Raise TypeError
          end
        else collect_items rest blog_links
    | None => collect_items rest blog_links
    end.
Proof. reflexivity. Qed.

(** Whether the loop over the items of a page raises does not depend on
    the links found before. *)
Lemma collect_items_outcome (items : list element) :
  forall acc acc' : gset string,
    match collect_items items acc, collect_items items acc' with
    | Raise e, Raise e' => e = e'
    | Return _, Return _ => True
    | _, _ => False
    end.
Proof.
  induction items as [|item items IH]; intros acc acc'; [done|].
  rewrite !collect_items_cons.
  destruct (title_link item) as [link|]; [|apply IH].
  destruct (truthy (get "href" link)); [|apply IH].
  destruct (get "href" link) as [[h|tokens]|]; try done.
  destruct (Url.urljoin (base_url Lakera) h) as [full|]; [|done].
  apply IH.
Qed.

Section Pages.

Context {record : Type}.
Variable respond : list string -> string -> option element.

Abbreviation session := (@session record).
Abbreviation scan := (scan_pages respond).

Lemma scan_pages_step (fuel page : nat) (blog_links : gset string)
    (s : session) :
  scan (S fuel) page blog_links s
  = let s1 := {| scraped_urls := scraped_urls s;
                 requests := requests s ++ [page_url page];
                 posts := posts s |} in
    match respond (requests s) (page_url page) with
    | None => Some (Return blog_links, s1)
    | Some soup =>
        match collect_items (blog_items soup) blog_links with
        | Raise e => Some (Raise e, s1)
        | Return blog_links =>
            if negb (found_posts soup) then Some (Return blog_links, s1)
            else
              match next_button soup with
              | None => Some (Return blog_links, s1)
              | Some _ => scan fuel (S page) blog_links s1
              end
        end
    end.
Proof. reflexivity. Qed.

(** The requests of the loop over the pages. *)
Lemma scan_pages_requests (fuel : nat) :
  forall (page : nat) (blog_links : gset string) (s : session) r s',
    scan fuel page blog_links s = Some (r, s') ->
    exists k,
      (1 <= k <= fuel)%nat /\
      requests s' = requests s ++ (page_url <$> seq page k) /\
      scraped_urls s' = scraped_urls s /\ posts s' = posts s.
Proof.
  induction fuel as [|fuel IH]; intros page blog_links s r s'; [discriminate|].
  rewrite scan_pages_step. cbv zeta.
  assert (Hone : forall r0 : outcome (gset string),
            Some (r0, {| scraped_urls := scraped_urls s;
                         requests := requests s ++ [page_url page];
                         posts := posts s |}) = Some (r, s') ->
            exists k,
              (1 <= k <= S fuel)%nat /\
              requests s' = requests s ++ (page_url <$> seq page k) /\
              scraped_urls s' = scraped_urls s /\ posts s' = posts s).
  { intros r0 [= <- <-]. exists 1%nat. simpl. split; [lia|done]. }
  destruct (respond (requests s) (page_url page)) as [soup|]; [|apply Hone].
  destruct (collect_items (blog_items soup) blog_links) as [e|links];
    [apply Hone|].
  destruct (negb (found_posts soup)); [apply Hone|].
  destruct (next_button soup); [|apply Hone].
  intros H. apply IH in H as (k & Hk & Hreq & Hvis & Hposts).
  exists (S k). split; [lia|]. simpl in *.
  rewrite Hreq, <- app_assoc. done.
Qed.

(** X26.  The pages of the Lakera listing are requested in order.
    When the loop over the pages ends, after at most [fuel] pages, it
    has requested the pages [page], [page + 1], ... of the listing, one
    after the other and each once, and nothing else; no page of the
    listing is marked as visited, and no post is added. *)
Theorem lakera_pages_requested_in_order
    (fuel page : nat) (blog_links : gset string) (s s' : session)
    (r : outcome (gset string)) :
  scan fuel page blog_links s = Some (r, s') ->
  exists k,
    (1 <= k <= fuel)%nat /\
    requests s' = requests s ++ (page_url <$> seq page k) /\
    NoDup (page_url <$> seq page k) /\
    scraped_urls s' = scraped_urls s /\ posts s' = posts s.
Proof.
  intros H.
  apply scan_pages_requests in H as (k & Hk & Hreq & Hvis & Hposts).
  exists k. split; [done|]. split; [done|].
  split; [apply page_urls_distinct|done].
Qed.

Section Static.

(** A site whose answers do not depend on the requests made before. *)
Variable site : string -> option element.
Hypothesis static : forall history url, respond history url = site url.

(** The loop over the pages goes on through the pages allowed exactly
    when none of them ends it. *)
Lemma scan_pages_goes_on (fuel : nat) :
  forall (page : nat) (blog_links : gset string) (s : session),
    scan fuel page blog_links s = None <->
    forall n, (page <= n < page + fuel)%nat ->
              ends_here (site (page_url n)) = false.
Proof.
  induction fuel as [|fuel IH]; intros page blog_links s.
  { split; [intros _ n Hn; lia|done]. }
  rewrite scan_pages_step, static. cbv zeta.
  assert (Hends : ends_here (site (page_url page)) = true ->
                  ~ forall n, (page <= n < page + S fuel)%nat ->
                              ends_here (site (page_url n)) = false).
  { intros Ht Hall. rewrite Hall in Ht by lia. discriminate Ht. }
  unfold ends_here in Hends at 1.
  destruct (site (page_url page)) as [soup|] eqn:Hsite;
    [|split; [discriminate|intros Hall; by destruct Hends]].
  pose proof (collect_items_outcome (blog_items soup) blog_links ∅) as Hc.
  destruct (collect_items (blog_items soup) blog_links) as [e|links],
    (collect_items (blog_items soup) ∅) as [e'|links'] eqn:Hempty;
    try done.
  { split; [discriminate|intros Hall; by destruct Hends]. }
  destruct (negb (found_posts soup)) eqn:Hfound.
  { split; [discriminate|intros Hall; by destruct Hends]. }
  destruct (next_button soup) as [button|] eqn:Hnext.
  2:{ split; [discriminate|intros Hall; by destruct Hends]. }
  rewrite IH. split.
  - intros Hall n Hn. destruct (decide (n = page)) as [->|Hne].
    + unfold ends_here. by rewrite Hsite, Hempty, Hfound, Hnext.
    + apply Hall. lia.
  - intros Hall n Hn. apply Hall. lia.
Qed.

(** X27.  When the loop over the pages of the Lakera listing ends.  On
    a site whose answers do not depend on the requests made before, the
    loop run for at most [fuel] pages is still going on exactly when
    none of these pages ends it: when each was fetched, had an item and
    a button for the next page, and raised nothing.  So the loop ends
    when some page from [page] on ends it, with the request of that page
    at the latest; and when no page ends it, it never ends: the source
    sets no bound on the number of pages. *)
Theorem lakera_pages_end
    (page : nat) (blog_links : gset string) (s : session) :
  (forall fuel,
     scan fuel page blog_links s = None <->
     forall n, (page <= n < page + fuel)%nat ->
               ends_here (site (page_url n)) = false) /\
  (forall n,
     (page <= n)%nat -> ends_here (site (page_url n)) = true ->
     exists r s',
       scan (S (n - page)) page blog_links s = Some (r, s') /\
       (length (requests s') <= length (requests s) + S (n - page))%nat) /\
  ((forall n, (page <= n)%nat -> ends_here (site (page_url n)) = false) ->
   forall fuel, scan fuel page blog_links s = None).
Proof.
  split; [|split].
  - intros fuel. apply scan_pages_goes_on.
  - intros n Hn Hends.
    destruct (scan (S (n - page)) page blog_links s) as [[r s']|] eqn:Hscan.
    + exists r, s'. split; [done|].
      apply scan_pages_requests in Hscan as (k & Hk & -> & _).
      rewrite length_app, length_fmap, length_seq. lia.
    + pose proof (proj1 (scan_pages_goes_on _ _ _ _) Hscan n) as Hgo.
      rewrite Hgo in Hends by lia. discriminate Hends.
  - intros Hall fuel. apply scan_pages_goes_on. intros n Hn.
    apply Hall. lia.
Qed.

End Static.

End Pages.

(** The witness of X26: the listing of three pages. *)
Lemma lakera_pages_requested_in_order_witness :
  exists r s',
    scan_pages (fun _ => CrawlSamples.lakera_three_pages) 5 1 ∅
      (@init string) = Some (r, s') /\
    exists k, requests s' = [] ++ (page_url <$> seq 1 k) /\
              NoDup (page_url <$> seq 1 k).
Proof.
  destruct (scan_pages (fun _ => CrawlSamples.lakera_three_pages) 5 1 ∅
              (@init string)) as [[r s']|] eqn:H.
  2:{ vm_compute in H. discriminate H. }
  exists r, s'. split; [reflexivity|].
  destruct (lakera_pages_requested_in_order _ _ _ _ _ _ _ H)
    as (k & _ & Hreq & Hnd & _).
  exists k. split; [exact Hreq | exact Hnd].
Defined.

(** The witness of X27: the listing of three pages ends at its third
    page; the listing whose every page has a button for the next page
    does not end. *)
Lemma lakera_pages_end_witness :
  (exists r s',
     scan_pages (fun _ => CrawlSamples.lakera_three_pages) 3 1 ∅
       (@init string) = Some (r, s')) /\
  forall fuel,
    scan_pages (fun _ => CrawlSamples.lakera_endless) fuel 1 ∅
      (@init string) = None.
Proof.
  split.
  - destruct (proj1 (proj2 (lakera_pages_end
                              (fun _ => CrawlSamples.lakera_three_pages)
                              CrawlSamples.lakera_three_pages
                              (fun _ _ => eq_refl) 1 ∅ (@init string)))
                3%nat) as (r & s' & H & _).
    + lia.
    + by vm_compute.
    + exists r, s'. exact H.
  - apply (proj2 (proj2 (lakera_pages_end
                           (fun _ => CrawlSamples.lakera_endless)
                           CrawlSamples.lakera_endless
                           (fun _ _ => eq_refl) 1 ∅ (@init string)))).
    intros n _. by vm_compute.
Defined.

End LakeraCrawlFacts.

(** ** [split_json.py]: the names of the files written *)

Module SplitNamesFacts.
Import stdpp.pretty.
Import PyStr PyOutcome Json SplitJson SplitNames.

Lemma length_append (a b : string) :
  String.length (a +:+ b) = (String.length a + String.length b)%nat.
Proof. induction a as [|c a IH]; simpl; [done|]. by rewrite IH. Qed.

Lemma append_inj_r (a b s : string) : a +:+ s = b +:+ s -> a = b.
Proof.
  revert b. induction a as [|c a IH]; intros [|d b] H; [done|..].
  - apply (f_equal String.length) in H.
    rewrite !length_append in H. simpl in H. lia.
  - apply (f_equal String.length) in H.
    rewrite !length_append in H. simpl in H. lia.
  - simpl in H. injection H as -> H. f_equal. by apply IH.
Qed.

Lemma take_drop (n : nat) (s : string) : take n s +:+ drop n s = s.
Proof.
  revert n. induction s as [|c s IH]; intros [|n]; try done.
  change (String c (take n s +:+ drop n s) = String c s).
  by rewrite IH.
Qed.

Lemma append_empty_r (p : string) : p +:+ "" = p.
Proof.
  induction p as [|c p IH]; [done|].
  change (String c (p +:+ "") = String c p). by rewrite IH.
Qed.

(** What [rfind] finds is the character looked for. *)
Lemma rfind_from_found (c : ascii) (s : string) :
  forall i last : Z,
    rfind_from c s i last = last \/
    ((i <= rfind_from c s i last)%Z /\
     exists rest,
       drop (Z.to_nat (rfind_from c s i last - i)) s = String c rest).
Proof.
  induction s as [|d s IH]; intros i last; simpl; [by left|].
  destruct (IH (i + 1)%Z (if Ascii.eqb d c then i else last))
    as [Hlast | (Hle & rest & Hdrop)].
  - rewrite Hlast. destruct (Ascii.eqb d c) eqn:Hd; [|by left].
    apply Ascii.eqb_eq in Hd as ->. right. split; [lia|].
    exists s. by rewrite Z.sub_diag.
  - right. split; [lia|]. exists rest.
    replace (Z.to_nat (rfind_from c s (i + 1)
                         (if Ascii.eqb d c then i else last) - i))
      with (S (Z.to_nat (rfind_from c s (i + 1)
                           (if Ascii.eqb d c then i else last) - (i + 1))))
      by lia.
    exact Hdrop.
Qed.

(** The two parts of [splitext] make the path, and the extension is
    empty or starts with a dot. *)
Lemma splitext_parts (p : string) :
  (splitext p).1 +:+ (splitext p).2 = p /\
  ((splitext p).2 = "" \/ exists rest, (splitext p).2 = String "." rest).
Proof.
  unfold splitext. cbv zeta.
  destruct (_ && _) eqn:Hsplit; cbn [fst snd].
  2:{ split; [apply append_empty_r|by left]. }
  split; [apply take_drop|]. right.
  apply andb_true_iff in Hsplit as [Hlt _]. apply Z.ltb_lt in Hlt.
  unfold rfind in *.
  destruct (rfind_from_found "." p 0 (-1)) as [Hnone | (_ & rest & Hdrop)].
  - destruct (rfind_from_found "/" p 0 (-1)) as [Hs | (Hs & _)]; lia.
  - rewrite Z.sub_0_r in Hdrop. eauto.
Qed.

Lemma output_file_inj (input_file : string) (i j : nat) :
  output_file input_file i = output_file input_file j -> i = j.
Proof.
  unfold output_file. intros H.
  apply LakeraCrawlFacts.append_inj_l, LakeraCrawlFacts.append_inj_l in H.
  apply append_inj_r in H. apply (inj pretty) in H. lia.
Qed.

Lemma output_file_not_input (input_file : string) (i : nat) :
  output_file input_file i <> input_file.
Proof.
  intros H. destruct (splitext_parts input_file) as [Hp Hext].
  assert (H' : (splitext input_file).1
               +:+ "_part" +:+ pretty (i + 1)%nat +:+ ".json"
               = (splitext input_file).1 +:+ (splitext input_file).2)
    by (rewrite Hp; exact H).
  apply LakeraCrawlFacts.append_inj_l in H'.
  destruct Hext as [He | [rest He]]; rewrite He in H'; discriminate H'.
Qed.

(** X28.  The split writes new files.  The files written in one run have
    pairwise different names, none of them the name of the input file:
    no part overwrites another part or the input.  They are as many as
    the parts, in the order of the parts, and each name is the input name
    without its extension, followed by [_part], the number of the part
    counted from 1, and [.json]. *)
Theorem split_writes_new_files
    (input_file : string) (data : json) (num_parts : Z)
    (files : list (string * json)) :
  written_files input_file data num_parts = Return files ->
  NoDup files.*1 /\
  (input_file ∉ files.*1) /\
  split_json_file data num_parts = Return files.*2 /\
  files.*1 = output_file input_file <$> seq 0 (length files) /\
  forall i name,
    files.*1 !! i = Some name ->
    name = (splitext input_file).1
           +:+ "_part" +:+ pretty (S i) +:+ ".json".
Proof.
  unfold written_files. intros H.
  apply FilterCleanFacts.bind_returns in H as (parts & Hparts & [= <-]).
  assert (Hlen : length (output_file input_file <$> seq 0 (length parts))
                 = length parts)
    by (by rewrite length_fmap, length_seq).
  assert (Hnames : (zip (output_file input_file <$> seq 0 (length parts))
                        parts).*1
                   = output_file input_file <$> seq 0 (length parts))
    by (apply fst_zip; lia).
  rewrite Hnames. split; [|split; [|split; [|split]]].
  - apply NoDup_fmap_2_strong; [|apply NoDup_seq].
    intros i j _ _. apply output_file_inj.
  - intros Hin. apply list_elem_of_fmap in Hin as (i & Hi & _).
    symmetry in Hi. by apply output_file_not_input in Hi.
  - rewrite snd_zip by lia. exact Hparts.
  - by rewrite length_zip, Hlen, Nat.min_id.
  - intros i name Hi. rewrite list_lookup_fmap in Hi.
    destruct (seq 0 (length parts) !! i) as [j|] eqn:Hj; [|discriminate Hi].
    apply lookup_seq in Hj as [-> _]. injection Hi as <-.
    unfold output_file. simpl. by rewrite Nat.add_1_r.
Qed.

(** The witness of X28: the thirteen posts, split in five. *)
Lemma split_writes_new_files_witness :
  exists files,
    written_files "www_lakera_ai_data.json" Samples.thirteen_doc 5
    = Return files /\
    NoDup files.*1 /\
    files.*1 !! 0%nat = Some "www_lakera_ai_data_part1.json".
Proof.
  destruct (written_files "www_lakera_ai_data.json" Samples.thirteen_doc 5)
    as [e|files] eqn:H.
  { vm_compute in H. discriminate H. }
  exists files. split; [reflexivity|].
  destruct (split_writes_new_files _ _ _ _ H) as (Hnd & _ & _ & _ & Hname).
  split; [exact Hnd|].
  destruct (files.*1 !! 0%nat) as [name|] eqn:Hn.
  - rewrite (Hname _ _ Hn). by vm_compute.
  - injection H as <-. vm_compute in Hn. discriminate Hn.
Defined.

End SplitNamesFacts.
